(** * Shallow embedding of the AI-400 reference snippets

    The repository is a corpus of reference documents; the executable
    fragments embedded here are

    - the API-key dependencies [verify_api_key] and [require_scope] and the
      validators [password_strength] and [username_alphanumeric] (FastAPI
      security patterns),
    - the accounting models [JournalEntryModel] and [InvoiceModel] and the
      reports [getTrialBalance] and [getBalanceSheet] of [FinancialReports]
      (Electron POS, accounting module),
    - the point-of-sale models [ProductModel] and [SalesModel],
    - the item list of the invoice form [InvoiceForm],
    - the state updates of the Todo UI: the initial fetch, [addTodo],
      [toggleTodo], [deleteTodo] and the derived list and counters.

    Conventions of the embedding.

    - A JavaScript number is a binary64 value: Rocq's primitive [float] with
      its IEEE 754 operations, so sums, differences, products and
      comparisons round, overflow and treat NaN as the code's do.  A decimal
      literal denotes the nearest binary64 value, as in JavaScript.
    - A numeric SQLite column holds a binary64 value or NULL.  SQLite has no
      NaN: a bound NaN is stored as NULL and an operation whose result is
      NaN gives NULL.  Such a column is a [float] in which [nan] stands for
      NULL; SQLite's arithmetic on it is then the arithmetic of [float].  A
      NULL read into JavaScript is [null], which arithmetic and comparisons
      convert to +0 ([to_number]).  A number written to a column of REAL or
      INTEGER affinity is stored as an integer when it equals one, which
      among the binary64 values only changes -0.0, to 0 ([real_affinity],
      [integer_affinity]).  The driver binds every JavaScript number as a
      REAL and [undefined] as NULL.
    - A SQLite table is the list of its rows in insertion order.  UPDATE ..
      WHERE rewrites every matching row, SELECT is a filter, a JOIN a nested
      loop.  INSERT checks the constraints the schema declares (NOT NULL,
      CHECK, PRIMARY KEY and UNIQUE, and FOREIGN KEY, which the connection
      switches on), throws when one fails and appends the row otherwise.
    - The invoice form only stores and copies the numbers of its items; they
      are kept as rationals ([Q]).
    - Code that throws is a state-passing function into [result];
      [transaction] restores the database when its body throws, as
      better-sqlite3's [db.transaction(fn)()] does.

    The first half of the file holds the embedding, the second half the
    theorems. *)

From Stdlib Require Import QArith Floats.
From stdpp Require Import gmap strings list pretty sorting.

#[global] Set Warnings "-inexact-float".
Set Default Proof Using "Type".
Local Open Scope string_scope.

(** ** Exceptions and state *)

Inductive result (E A : Type) : Type :=
| Ok (a : A)
| Err (e : E).
Arguments Ok {E A} a.
Arguments Err {E A} e.

Definition M (S E A : Type) : Type := S -> result E A * S.

Definition ret {S E A} (a : A) : M S E A := fun s => (Ok a, s).

Definition bind {S E A B} (m : M S E A) (k : A -> M S E B) : M S E B :=
  fun s => match m s with
           | (Ok a, s') => k a s'
           | (Err e, s') => (Err e, s')
           end.

Definition throw {S E A} (e : E) : M S E A := fun s => (Err e, s).
Definition gets {S E A} (f : S -> A) : M S E A := fun s => (Ok (f s), s).
Definition modify {S E} (f : S -> S) : M S E unit := fun s => (Ok tt, f s).

Declare Scope js_scope.
Delimit Scope js_scope with js.
Notation "'let!' x ':=' m 'in' k" := (bind m (fun x => k))
  (at level 10, x pattern, m at level 100, k at level 200) : js_scope.
Notation "'run!' m 'in' k" := (bind m (fun _ => k))
  (at level 10, m at level 100, k at level 200) : js_scope.

(** [for (const x of xs) body(x)] *)
Fixpoint for_each {S E A} (xs : list A) (body : A -> M S E unit) : M S E unit :=
  match xs with
  | [] => ret tt
  | x :: xs' => bind (body x) (fun _ => for_each xs' body)
  end.

(** ** API-key dependency (app/config.py, app/api/deps.py) *)

Module Security.

Record Settings := {
  api_key_header : string;
  api_keys : list string
}.

(** [set(self.api_keys)] *)
Definition api_keys_set (settings : Settings) : gset string :=
  list_to_set (api_keys settings).

Record HTTPException := {
  status_code : Z;
  detail : string;
  headers : list (string * string)
}.

Definition HTTP_401_UNAUTHORIZED : Z := 401.
Definition HTTP_403_FORBIDDEN : Z := 403.

(** [api_key] is [None] when the [APIKeyHeader] dependency (created with
    [auto_error=False]) found no key. *)
Definition verify_api_key (settings : Settings) (api_key : option string)
  : result HTTPException string :=
  match api_key with
  | None =>
      Err {| status_code := HTTP_401_UNAUTHORIZED;
             detail := "API key is missing";
             headers := [("WWW-Authenticate", "ApiKey")] |}
  | Some k =>
      if decide (k ∉ api_keys_set settings)
      then Err {| status_code := HTTP_403_FORBIDDEN;
                  detail := "Invalid API key";
                  headers := [] |}
      else Ok k
  end.

Definition raises (r : result HTTPException string) (code : Z) (msg : string) : Prop :=
  exists e, r = Err e /\ status_code e = code /\ detail e = msg.

(** *** Tiered keys (app/core/security.py) and scope checks (app/api/deps.py) *)

Inductive APIKeyScope := READ | WRITE | ADMIN.

(** [scope.value] *)
Definition scope_value (scope : APIKeyScope) : string :=
  match scope with
  | READ => "read"
  | WRITE => "write"
  | ADMIN => "admin"
  end.

Global Instance APIKeyScope_eq_dec : EqDecision APIKeyScope.
Proof. solve_decision. Defined.

Global Instance APIKeyScope_countable : Countable APIKeyScope.
Proof.
  refine (inj_countable'
            (fun s => match s with READ => 0%nat | WRITE => 1%nat | ADMIN => 2%nat end)
            (fun n => match n with 0%nat => READ | 1%nat => WRITE | _ => ADMIN end) _).
  by intros [].
Defined.

Record APIKeyInfo := {
  key : string;
  scopes : gset APIKeyScope;
  owner : string
}.

(** The registry of the document; "in production, store in database". *)
Definition API_KEY_REGISTRY : gmap string APIKeyInfo :=
  {[ "key_read_abc123" :=
       {| key := "key_read_abc123"; scopes := {[ READ ]}; owner := "service-a" |};
     "key_admin_xyz789" :=
       {| key := "key_admin_xyz789"; scopes := {[ READ; WRITE; ADMIN ]};
          owner := "admin-service" |} ]}.

(** [registry.get(api_key)]; the registry is a parameter. *)
Definition get_api_key_info (registry : gmap string APIKeyInfo) (api_key : string)
  : option APIKeyInfo :=
  registry !! api_key.

(** [if not api_key] holds for a missing key and for the empty string. *)
Definition get_current_api_key (registry : gmap string APIKeyInfo)
    (api_key : option string) : result HTTPException APIKeyInfo :=
  match api_key with
  | None | Some "" =>
      Err {| status_code := 401; detail := "API key required"; headers := [] |}
  | Some k =>
      match get_api_key_info registry k with
      | None => Err {| status_code := 403; detail := "Invalid API key"; headers := [] |}
      | Some key_info => Ok key_info
      end
  end.

(** The dependency [require_scope(scope)] returns. *)
Definition verify_scope (scope : APIKeyScope) (key_info : APIKeyInfo)
  : result HTTPException APIKeyInfo :=
  if decide (scope ∉ scopes key_info)
  then Err {| status_code := HTTP_403_FORBIDDEN;
              detail := "Scope '" +:+ scope_value scope +:+ "' required";
              headers := [] |}
  else Ok key_info.

(** [Depends(require_scope(scope))] on a request: [get_current_api_key]
    runs first, and [verify_scope] only on the key info it returns. *)
Definition require_scope (registry : gmap string APIKeyInfo) (scope : APIKeyScope)
    (api_key : option string) : result HTTPException APIKeyInfo :=
  match get_current_api_key registry api_key with
  | Ok key_info => verify_scope scope key_info
  | Err e => Err e
  end.

(** *** Input validation (pydantic validators) *)

(** A Python [str]: its code points. *)
Definition pystr : Type := list N.

Definition is_upper (c : N) : bool := N.leb 65 c && N.leb c 90.
Definition is_lower (c : N) : bool := N.leb 97 c && N.leb c 122.
Definition is_digit (c : N) : bool := N.leb 48 c && N.leb c 57.

Definition password_strength (v : pystr) : result string pystr :=
  if (length v <? 8)%nat then Err "Password must be at least 8 characters"
  else if negb (existsb is_upper v) then Err "Password must contain uppercase letter"
  else if negb (existsb is_digit v) then Err "Password must contain a digit"
  else Ok v.

(** The class [[a-zA-Z0-9_]]. *)
Definition is_word (c : N) : bool :=
  is_lower c || is_upper c || is_digit c || N.eqb c 95.

(** [$] without MULTILINE: the end of the string, or a line feed that ends
    the string. *)
Definition at_dollar (rest : pystr) : bool :=
  match rest with
  | [] => true
  | [c] => N.eqb c 10
  | _ => false
  end.

(** [re.match(r"^[a-zA-Z0-9_]+$", v)]: some [n >= 1] first characters are
    in the class and [$] matches after them. *)
Definition username_matches (v : pystr) : bool :=
  existsb (fun n => forallb is_word (take n v) && at_dollar (drop n v))
          (seq 1 (length v)).

Definition username_alphanumeric (v : pystr) : result string pystr :=
  if negb (username_matches v) then Err "Username must be alphanumeric"
  else Ok v.

End Security.

(** ** JavaScript numbers and SQLite values *)

(** [ToNumber(v)] for a value read from a numeric column: [null] becomes
    +0, a number is itself. *)
Definition to_number (v : float) : float :=
  if is_nan v then 0%float else v.

(** [x || 0] for a numeric field that may be missing: [undefined], NaN and
    both zeros are falsy and yield [0]. *)
Definition or0 (x : option float) : float :=
  match x with
  | Some v => if is_nan v || (v =? 0)%float then 0%float else v
  | None => 0%float
  end.

(** [Math.max(a, b)]: NaN when an argument is NaN, and +0 is larger than
    -0. *)
Definition Math_max (a b : float) : float :=
  if is_nan a || is_nan b then nan
  else if (a <? b)%float then b
  else if (b <? a)%float then a
  else if get_sign a then b else a.

(** A number stored in a column of INTEGER affinity: a REAL that equals an
    integer is stored as that integer.  Among the binary64 values only -0
    changes, to 0. *)
Definition integer_affinity (v : float) : float :=
  if (v =? 0)%float then 0%float else v.

(** A number stored in a column of REAL affinity: a REAL that equals an
    integer is stored as that integer too, and read back as a REAL, so
    that -0.0 comes back as 0.0 and every other value, and NULL, as it
    was.  The values of [x || 0] and of [Math.max(0, x)] are never -0.0;
    they are written as they are. *)
Definition real_affinity (v : float) : float :=
  if (v =? 0)%float then 0%float else v.

(** [x != y] in a WHERE clause: NULL when an operand is NULL, and then the
    row is not selected. *)
Definition sql_ne (x y : float) : bool :=
  negb (is_nan x) && negb (is_nan y) && negb (x =? y)%float.

Fixpoint repeat_char (n : nat) (c : Ascii.ascii) : string :=
  match n with
  | O => ""
  | S n' => String c (repeat_char n' c)
  end.

(** The character [0]. *)
Definition zero_char : Ascii.ascii := Ascii.ascii_of_nat 48.

(** [s.padStart(n, c)] for a one-character pad string. *)
Definition padStart (n : nat) (c : Ascii.ascii) (s : string) : string :=
  repeat_char (n - String.length s) c +:+ s.

(** [strftime('%Y', t)] for a timestamp in SQLite's
    [YYYY-MM-DD HH:MM:SS] format. *)
Definition strftime_Y (t : string) : string := String.substring 0 4 t.

(** [date(t)] for such a timestamp. *)
Definition sql_date (t : string) : string := String.substring 0 10 t.

(** [s.replace(/-/g, '')] *)
Fixpoint remove_dashes (s : string) : string :=
  match s with
  | EmptyString => EmptyString
  | String c s' =>
      if Ascii.eqb c (Ascii.ascii_of_nat 45) then remove_dashes s'
      else String c (remove_dashes s')
  end.

(** [s || dflt] for a text field that may be missing: the empty string is
    falsy as well. *)
Definition or_string (s : option string) (dflt : string) : string :=
  match s with
  | Some v => if bool_decide (v = "") then dflt else v
  | None => dflt
  end.

(** ** Database schema (electron/database, columns the models touch) *)

Inductive AccountType := asset | liability | equity | income | expense.

Global Instance AccountType_eq_dec : EqDecision AccountType.
Proof. solve_decision. Defined.

Record User := {
  user_id : string
}.

Record Account := {
  acc_id : string;
  acc_code : string;
  acc_name : string;
  account_type : AccountType;
  is_active : Z;
  current_balance : float
}.

Record JournalEntryRow := {
  je_id : string;
  entry_number : string;
  entry_date : string;
  je_description : string;
  reference_type : string;
  reference_id : string;
  is_posted : Z;
  je_user_id : string;
  je_created_at : string
}.

Record JournalLineRow := {
  jel_id : string;
  journal_entry_id : string;
  account_id : string;
  debit : float;
  credit : float;
  jel_description : option string
}.

Record Customer := {
  cust_id : string;
  cust_name : string;
  cust_email : string;
  cust_current_balance : float
}.

Inductive InvoiceStatus := st_draft | st_unpaid | st_partial | st_paid | st_overdue | st_void.

Record InvoiceRow := {
  inv_id : string;
  invoice_number : string;
  customer_id : string;
  inv_total_amount : float;
  inv_amount_paid : float;
  inv_status : InvoiceStatus;
  inv_updated_at : string
}.

Record PaymentRow := {
  pay_id : string;
  payment_number : string;
  payment_type : string;
  entity_type : string;
  entity_id : string;
  pay_invoice_id : string;
  payment_date : string;
  pay_amount : float;
  pay_payment_method : string;
  pay_reference_number : option string;
  pay_notes : option string;
  pay_user_id : string;
  pay_created_at : string
}.

Record Product := {
  prod_id : string;
  prod_name : string;
  sku : string;
  cost_price : float;
  current_stock : float
}.

Record InventoryTransaction := {
  it_id : string;
  it_product_id : string;
  transaction_type : string;
  it_quantity : float;
  it_user_id : string;
  it_notes : option string
}.

Record SaleRow := {
  sale_id : string;
  sale_invoice_number : string;
  sale_customer_id : option string;
  sale_type : string;
  sale_status : string;
  sale_subtotal : float;
  sale_tax_amount : float;
  sale_discount_amount : float;
  sale_total_amount : float;
  sale_amount_paid : float;
  change_amount : float;
  sale_payment_method : string;
  sale_notes : option string;
  sale_user_id : string;
  sale_created_at : string
}.

Record SaleItemRow := {
  si_id : string;
  si_sale_id : string;
  si_product_id : string;
  si_quantity : float;
  si_unit_price : float;
  si_cost_price : float;
  si_tax_rate : float;
  si_discount_percent : float;
  si_total : float
}.

Record SalePaymentRow := {
  sp_id : string;
  sp_sale_id : string;
  sp_payment_method : string;
  sp_amount : float;
  sp_reference_number : option string
}.

Record DB := {
  users : list User;
  accounts : list Account;
  journal_entries : list JournalEntryRow;
  journal_entry_lines : list JournalLineRow;
  customers : list Customer;
  invoices : list InvoiceRow;
  payments : list PaymentRow;
  products : list Product;
  inventory_transactions : list InventoryTransaction;
  sales : list SaleRow;
  sale_items : list SaleItemRow;
  sale_payments : list SalePaymentRow
}.

Definition with_accounts (v : list Account) (d : DB) : DB :=
  {| users := users d; accounts := v; journal_entries := journal_entries d;
     journal_entry_lines := journal_entry_lines d; customers := customers d;
     invoices := invoices d; payments := payments d; products := products d;
     inventory_transactions := inventory_transactions d; sales := sales d;
     sale_items := sale_items d; sale_payments := sale_payments d |}.

Definition with_journal_entries (v : list JournalEntryRow) (d : DB) : DB :=
  {| users := users d; accounts := accounts d; journal_entries := v;
     journal_entry_lines := journal_entry_lines d; customers := customers d;
     invoices := invoices d; payments := payments d; products := products d;
     inventory_transactions := inventory_transactions d; sales := sales d;
     sale_items := sale_items d; sale_payments := sale_payments d |}.

Definition with_journal_entry_lines (v : list JournalLineRow) (d : DB) : DB :=
  {| users := users d; accounts := accounts d; journal_entries := journal_entries d;
     journal_entry_lines := v; customers := customers d;
     invoices := invoices d; payments := payments d; products := products d;
     inventory_transactions := inventory_transactions d; sales := sales d;
     sale_items := sale_items d; sale_payments := sale_payments d |}.

Definition with_customers (v : list Customer) (d : DB) : DB :=
  {| users := users d; accounts := accounts d; journal_entries := journal_entries d;
     journal_entry_lines := journal_entry_lines d; customers := v;
     invoices := invoices d; payments := payments d; products := products d;
     inventory_transactions := inventory_transactions d; sales := sales d;
     sale_items := sale_items d; sale_payments := sale_payments d |}.

Definition with_invoices (v : list InvoiceRow) (d : DB) : DB :=
  {| users := users d; accounts := accounts d; journal_entries := journal_entries d;
     journal_entry_lines := journal_entry_lines d; customers := customers d;
     invoices := v; payments := payments d; products := products d;
     inventory_transactions := inventory_transactions d; sales := sales d;
     sale_items := sale_items d; sale_payments := sale_payments d |}.

Definition with_payments (v : list PaymentRow) (d : DB) : DB :=
  {| users := users d; accounts := accounts d; journal_entries := journal_entries d;
     journal_entry_lines := journal_entry_lines d; customers := customers d;
     invoices := invoices d; payments := v; products := products d;
     inventory_transactions := inventory_transactions d; sales := sales d;
     sale_items := sale_items d; sale_payments := sale_payments d |}.

Definition with_products (v : list Product) (d : DB) : DB :=
  {| users := users d; accounts := accounts d; journal_entries := journal_entries d;
     journal_entry_lines := journal_entry_lines d; customers := customers d;
     invoices := invoices d; payments := payments d; products := v;
     inventory_transactions := inventory_transactions d; sales := sales d;
     sale_items := sale_items d; sale_payments := sale_payments d |}.

Definition with_inventory_transactions (v : list InventoryTransaction) (d : DB) : DB :=
  {| users := users d; accounts := accounts d; journal_entries := journal_entries d;
     journal_entry_lines := journal_entry_lines d; customers := customers d;
     invoices := invoices d; payments := payments d; products := products d;
     inventory_transactions := v; sales := sales d;
     sale_items := sale_items d; sale_payments := sale_payments d |}.

Definition with_sales (v : list SaleRow) (d : DB) : DB :=
  {| users := users d; accounts := accounts d; journal_entries := journal_entries d;
     journal_entry_lines := journal_entry_lines d; customers := customers d;
     invoices := invoices d; payments := payments d; products := products d;
     inventory_transactions := inventory_transactions d; sales := v;
     sale_items := sale_items d; sale_payments := sale_payments d |}.

Definition with_sale_items (v : list SaleItemRow) (d : DB) : DB :=
  {| users := users d; accounts := accounts d; journal_entries := journal_entries d;
     journal_entry_lines := journal_entry_lines d; customers := customers d;
     invoices := invoices d; payments := payments d; products := products d;
     inventory_transactions := inventory_transactions d; sales := sales d;
     sale_items := v; sale_payments := sale_payments d |}.

Definition with_sale_payments (v : list SalePaymentRow) (d : DB) : DB :=
  {| users := users d; accounts := accounts d; journal_entries := journal_entries d;
     journal_entry_lines := journal_entry_lines d; customers := customers d;
     invoices := invoices d; payments := payments d; products := products d;
     inventory_transactions := inventory_transactions d; sales := sales d;
     sale_items := sale_items d; sale_payments := v |}.

(** One column of a row replaced, as the SET clause of an UPDATE does. *)
Definition set_current_balance (v : float) (a : Account) : Account :=
  {| acc_id := acc_id a; acc_code := acc_code a; acc_name := acc_name a;
     account_type := account_type a; is_active := is_active a;
     current_balance := v |}.

Definition set_is_posted (v : Z) (e : JournalEntryRow) : JournalEntryRow :=
  {| je_id := je_id e; entry_number := entry_number e;
     entry_date := entry_date e; je_description := je_description e;
     reference_type := reference_type e; reference_id := reference_id e;
     is_posted := v; je_user_id := je_user_id e;
     je_created_at := je_created_at e |}.

Definition set_cust_current_balance (v : float) (c : Customer) : Customer :=
  {| cust_id := cust_id c; cust_name := cust_name c;
     cust_email := cust_email c; cust_current_balance := v |}.

Definition set_current_stock (v : float) (p : Product) : Product :=
  {| prod_id := prod_id p; prod_name := prod_name p; sku := sku p;
     cost_price := cost_price p; current_stock := v |}.

Definition set_sale_status (v : string) (x : SaleRow) : SaleRow :=
  {| sale_id := sale_id x; sale_invoice_number := sale_invoice_number x;
     sale_customer_id := sale_customer_id x; sale_type := sale_type x;
     sale_status := v; sale_subtotal := sale_subtotal x;
     sale_tax_amount := sale_tax_amount x;
     sale_discount_amount := sale_discount_amount x;
     sale_total_amount := sale_total_amount x;
     sale_amount_paid := sale_amount_paid x;
     change_amount := change_amount x;
     sale_payment_method := sale_payment_method x;
     sale_notes := sale_notes x; sale_user_id := sale_user_id x;
     sale_created_at := sale_created_at x |}.

(** ** Runtime environment and program state *)

(** [Settings.getAccountMappings()]; the settings model is not part of the
    documents, its result is a parameter of the environment. *)
Record AccountMappings := {
  accountsReceivable : string;
  salesRevenue : string;
  salesTaxPayable : string;
  cashOnHand : string;
  bankAccount : string
}.

(** What the models read from outside the database: the values successive
    [uuidv4()] calls return, SQLite's [datetime('now')], JavaScript's
    [new Date().getFullYear()] and [new Date().toISOString().slice(0, 10)],
    and the account mappings. *)
Record Env := {
  uuid : nat -> string;
  now : string;
  fullYear : Z;
  today : string;
  accountMappings : AccountMappings
}.

Record State := {
  db : DB;
  uuid_calls : nat
}.

(** The kind of constraint a statement violated; a violated PRIMARY KEY is
    reported as a failed UNIQUE constraint. *)
Inductive Constraint := NOT_NULL | CHECK | UNIQUE | FOREIGN_KEY.

(** What the code throws: [Error] and [TypeError] with their message, and
    better-sqlite3's [SqliteError] for a constraint that failed. *)
Inductive Exn :=
| Error (message : string)
| TypeError (message : string)
| SqliteError (failed : Constraint).

Definition JS (A : Type) : Type := M State Exn A.

Definition uuidv4 (env : Env) : JS string :=
  fun s => (Ok (uuid env (uuid_calls s)),
            {| db := db s; uuid_calls := S (uuid_calls s) |}).

Definition query {A} (f : DB -> A) : JS A := gets (fun s => f (db s)).

Definition exec (f : DB -> DB) : JS unit :=
  modify (fun s => {| db := f (db s); uuid_calls := uuid_calls s |}).

(** The constraint an INSERT fails on, given whether the row passes the
    NOT NULL, the CHECK, the PRIMARY KEY and UNIQUE, and the FOREIGN KEY
    constraints of its table.  SQLite tests them in this order; foreign
    keys are counted while the row is written and tested when the statement
    ends. *)
Definition violation (not_null check unique foreign_key : bool) : option Constraint :=
  if negb not_null then Some NOT_NULL
  else if negb check then Some CHECK
  else if negb unique then Some UNIQUE
  else if negb foreign_key then Some FOREIGN_KEY
  else None.

(** An INSERT: it throws when the row violates a constraint and writes
    nothing then, and appends the row otherwise. *)
Definition insert (violated : DB -> option Constraint) (append : DB -> DB) : JS unit :=
  fun s => match violated (db s) with
           | Some c => (Err (SqliteError c), s)
           | None => (Ok tt, {| db := append (db s); uuid_calls := uuid_calls s |})
           end.

(** [db.transaction(fn)()]: run [fn]; when it throws, roll the database
    back to what it was and rethrow. *)
Definition transaction {A} (fn : JS A) : JS A :=
  fun s => match fn s with
           | (Ok a, s') => (Ok a, s')
           | (Err e, s') => (Err e, {| db := db s; uuid_calls := uuid_calls s' |})
           end.

(** ** Journal entries (electron/database/models/journalEntry.js) *)

Module JournalEntryModel.

(** A line of the [data.lines] argument of [create]. *)
Record LineData := {
  accountId : string;
  ld_debit : option float;
  ld_credit : option float;
  ld_description : option string
}.

Record EntryData := {
  entryDate : string;
  description : string;
  referenceType : string;
  referenceId : string;
  userId : string;
  lines : list LineData
}.

(** A row of the join in [findById]: [jel.*, a.code as account_code,
    a.name as account_name]. *)
Record EntryLine := {
  line_row : JournalLineRow;
  account_code : string;
  account_name : string
}.

(** The object [findById] returns: the entry row with its [lines]. *)
Record Entry := {
  entry_row : JournalEntryRow;
  entry_lines : list EntryLine
}.

(** [SELECT COUNT( * ) FROM journal_entries WHERE strftime('%Y', created_at) = ?]
    and the formatted number [JE-<year>-<count + 1, five digits>]. *)
Definition generateEntryNumber (env : Env) (d : DB) : string :=
  let year := fullYear env in
  let count :=
    length (filter (fun e => strftime_Y (je_created_at e) = pretty year)
                   (journal_entries d)) in
  "JE-" +:+ pretty year +:+ "-" +:+ padStart 5 zero_char (pretty (count + 1)%nat).

(** [SELECT jel.*, a.code, a.name FROM journal_entry_lines jel
     JOIN accounts a ON jel.account_id = a.id WHERE jel.journal_entry_id = ?] *)
Definition select_lines (id : string) (d : DB) : list EntryLine :=
  flat_map
    (fun jel =>
       map (fun a => {| line_row := jel;
                        account_code := acc_code a;
                        account_name := acc_name a |})
           (filter (fun a => account_id jel = acc_id a) (accounts d)))
    (filter (fun jel => journal_entry_id jel = id) (journal_entry_lines d)).

Definition findById (id : string) (d : DB) : option Entry :=
  match List.find (fun e => bool_decide (je_id e = id)) (journal_entries d) with
  | Some entry => Some {| entry_row := entry; entry_lines := select_lines id d |}
  | None => None
  end.

(** [data.lines.reduce((sum, line) => sum + (line.debit || 0), 0)] *)
Definition totalDebit (ls : list LineData) : float :=
  fold_left (fun sum line => sum + or0 (ld_debit line))%float ls 0%float.

(** [data.lines.reduce((sum, line) => sum + (line.credit || 0), 0)] *)
Definition totalCredit (ls : list LineData) : float :=
  fold_left (fun sum line => sum + or0 (ld_credit line))%float ls 0%float.

(** [INSERT INTO journal_entries]: [id] is the primary key, [entry_number]
    is UNIQUE, [user_id] references [users]; [is_posted] and [created_at]
    take their defaults. *)
Definition insert_journal_entry (row : JournalEntryRow) : JS unit :=
  insert
    (fun d =>
       violation true true
         (bool_decide (je_id row ∉ map je_id (journal_entries d))
          && bool_decide (entry_number row ∉ map entry_number (journal_entries d)))
         (bool_decide (je_user_id row ∈ map user_id (users d))))
    (fun d => with_journal_entries (journal_entries d ++ [row]) d).

(** [INSERT INTO journal_entry_lines]: [id] is the primary key,
    [journal_entry_id] references [journal_entries] and [account_id]
    references [accounts]. *)
Definition insert_journal_entry_line (row : JournalLineRow) : JS unit :=
  insert
    (fun d =>
       violation true true
         (bool_decide (jel_id row ∉ map jel_id (journal_entry_lines d)))
         (bool_decide (journal_entry_id row ∈ map je_id (journal_entries d))
          && bool_decide (account_id row ∈ map acc_id (accounts d))))
    (fun d => with_journal_entry_lines (journal_entry_lines d ++ [row]) d).

Definition unbalanced : string := "Debits and credits must be equal".

Definition create (env : Env) (data : EntryData) : JS (option Entry) :=
  transaction (
    (* Validate debit = credit *)
    let totalDebit := totalDebit (lines data) in
    let totalCredit := totalCredit (lines data) in
    if (0.01 <? abs (totalDebit - totalCredit))%float
    then throw (Error unbalanced)
    else
      let! entryId := uuidv4 env in
      let! entryNumber := query (generateEntryNumber env) in
      (* Insert journal entry *)
      run! insert_journal_entry
             {| je_id := entryId; entry_number := entryNumber;
                entry_date := entryDate data;
                je_description := description data;
                reference_type := referenceType data;
                reference_id := referenceId data;
                is_posted := 0;
                je_user_id := userId data;
                je_created_at := now env |} in
      (* Insert lines *)
      run! for_each (lines data) (fun line =>
             let! lineId := uuidv4 env in
             insert_journal_entry_line
               {| jel_id := lineId; journal_entry_id := entryId;
                  account_id := accountId line;
                  debit := or0 (ld_debit line);
                  credit := or0 (ld_credit line);
                  jel_description := ld_description line |}) in
      query (findById entryId)
  )%js.

(** [['asset', 'expense'].includes(account_type)] *)
Definition debit_normal (t : AccountType) : bool :=
  match t with
  | asset | expense => true
  | liability | equity | income => false
  end.

(** [SELECT account_type FROM accounts WHERE id = ?], first row. *)
Definition select_account_type (id : string) (d : DB) : option AccountType :=
  account_type <$> List.find (fun a => bool_decide (acc_id a = id)) (accounts d).

(** [UPDATE accounts SET current_balance = current_balance + ? WHERE id = ?] *)
Definition updateBalance (amount : float) (id : string) (d : DB) : DB :=
  with_accounts
    (map (fun a => if bool_decide (acc_id a = id)
                   then set_current_balance
                          (real_affinity (current_balance a + amount)%float) a
                   else a)
         (accounts d)) d.

(** [UPDATE journal_entries SET is_posted = 1 WHERE id = ?] *)
Definition mark_posted (id : string) (d : DB) : DB :=
  with_journal_entries
    (map (fun e => if bool_decide (je_id e = id) then set_is_posted 1 e else e)
         (journal_entries d)) d.

(** [line.debit - line.credit] for an asset or expense account,
    [line.credit - line.debit] otherwise, on the values read from the
    line's row. *)
Definition line_amount (t : AccountType) (line : JournalLineRow) : float :=
  if debit_normal t
  then (to_number (debit line) - to_number (credit line))%float
  else (to_number (credit line) - to_number (debit line))%float.

Definition not_found : string := "Journal entry not found".
Definition already_posted : string := "Entry already posted".

Definition post_line (line : EntryLine) : JS unit :=
  (let! account := query (select_account_type (account_id (line_row line))) in
   match account with
   | None => throw (TypeError "Cannot read properties of undefined (reading 'account_type')")
   | Some t =>
       exec (updateBalance (line_amount t (line_row line))
                           (account_id (line_row line)))
   end)%js.

Definition post (id : string) : JS (option Entry) :=
  transaction (
    let! entry := query (findById id) in
    match entry with
    | None => throw (Error not_found)
    | Some entry =>
        if bool_decide (is_posted (entry_row entry) <> 0%Z)
        then throw (Error already_posted)
        else
          (* Update account balances *)
          run! for_each (entry_lines entry) post_line in
          (* Mark as posted *)
          run! exec (mark_posted id) in
          query (findById id)
    end
  )%js.

End JournalEntryModel.

(** ** Invoices (electron/database/models/invoice.js) *)

Module InvoiceModel.

Record PaymentData := {
  amount : float;
  paymentDate : string;
  paymentMethod : string;
  referenceNumber : option string;
  notes : option string;
  userId : string
}.

(** The object [findById] returns: [i.*, c.name as customer_name,
    c.email as customer_email] and the invoice's [payments]. *)
Record Invoice := {
  invoice_row : InvoiceRow;
  customer_name : string;
  customer_email : string;
  invoice_payments : list PaymentRow
}.

(** [SELECT i.*, c.name, c.email FROM invoices i
     JOIN customers c ON i.customer_id = c.id WHERE i.id = ?], first row. *)
Definition select_invoice (id : string) (d : DB) : option (InvoiceRow * Customer) :=
  head (flat_map
          (fun i => map (fun c => (i, c))
                        (filter (fun c => customer_id i = cust_id c) (customers d)))
          (filter (fun i => inv_id i = id) (invoices d))).

Definition findById (id : string) (d : DB) : option Invoice :=
  match select_invoice id d with
  | Some (i, c) =>
      Some {| invoice_row := i;
              customer_name := cust_name c;
              customer_email := cust_email c;
              invoice_payments :=
                filter (fun p => pay_invoice_id p = id) (payments d) |}
  | None => None
  end.

(** [RCP-<year>-<count of this year's receipts + 1, five digits>] *)
Definition generatePaymentNumber (env : Env) (d : DB) : string :=
  let prefix := "RCP" in
  let year := fullYear env in
  let count :=
    length (filter (fun p => payment_type p = "receipt" /\
                             strftime_Y (pay_created_at p) = pretty year)
                   (payments d)) in
  prefix +:+ "-" +:+ pretty year +:+ "-" +:+ padStart 5 zero_char (pretty (count + 1)%nat).

(** [UPDATE invoices SET amount_paid = ?, status = ?,
     updated_at = datetime('now') WHERE id = ?] *)
Definition update_invoice (env : Env) (newAmountPaid : float) (newStatus : InvoiceStatus)
    (id : string) (d : DB) : DB :=
  with_invoices
    (map (fun i => if bool_decide (inv_id i = id)
                   then {| inv_id := inv_id i;
                           invoice_number := invoice_number i;
                           customer_id := customer_id i;
                           inv_total_amount := inv_total_amount i;
                           inv_amount_paid := real_affinity newAmountPaid;
                           inv_status := newStatus;
                           inv_updated_at := now env |}
                   else i)
         (invoices d)) d.

(** [UPDATE customers SET current_balance = current_balance - ? WHERE id = ?] *)
Definition decrease_customer_balance (amount : float) (id : string) (d : DB) : DB :=
  with_customers
    (map (fun c => if bool_decide (cust_id c = id)
                   then set_cust_current_balance
                          (real_affinity (cust_current_balance c - amount)%float) c
                   else c)
         (customers d)) d.

(** [INSERT INTO payments]: [payment_date], [amount] and [payment_method]
    are NOT NULL, [payment_type] and [entity_type] are checked, [id] is the
    primary key, [payment_number] is UNIQUE and [user_id] references
    [users]. *)
Definition insert_payment (row : PaymentRow) : JS unit :=
  insert
    (fun d =>
       violation
         (negb (is_nan (pay_amount row)))
         (bool_decide (payment_type row ∈ ["receipt"; "payment"])
          && bool_decide (entity_type row ∈ ["customer"; "supplier"]))
         (bool_decide (pay_id row ∉ map pay_id (payments d))
          && bool_decide (payment_number row ∉ map payment_number (payments d)))
         (bool_decide (pay_user_id row ∈ map user_id (users d))))
    (fun d => with_payments (payments d ++ [row]) d).

Definition invoice_not_found : string := "Invoice not found".
Definition exceeds : string := "Payment amount exceeds remaining balance".

Definition recordPayment (env : Env) (invoiceId : string) (paymentData : PaymentData)
  : JS (option Invoice) :=
  transaction (
    let! invoice := query (findById invoiceId) in
    match invoice with
    | None => throw (Error invoice_not_found)
    | Some invoice =>
        let inv := invoice_row invoice in
        let remaining :=
          (to_number (inv_total_amount inv) - to_number (inv_amount_paid inv))%float in
        if (remaining <? amount paymentData)%float
        then throw (Error exceeds)
        else
          (* Update invoice *)
          let newAmountPaid :=
            (to_number (inv_amount_paid inv) + amount paymentData)%float in
          let newStatus :=
            if (to_number (inv_total_amount inv) <=? newAmountPaid)%float
            then st_paid else st_partial in
          run! exec (update_invoice env newAmountPaid newStatus invoiceId) in
          (* Update customer balance *)
          run! exec (decrease_customer_balance (amount paymentData) (customer_id inv)) in
          (* Record payment *)
          let! paymentId := uuidv4 env in
          let! paymentNumber := query (generatePaymentNumber env) in
          run! insert_payment
                 {| pay_id := paymentId; payment_number := paymentNumber;
                    payment_type := "receipt"; entity_type := "customer";
                    entity_id := customer_id inv;
                    pay_invoice_id := invoiceId;
                    payment_date := paymentDate paymentData;
                    pay_amount := real_affinity (amount paymentData);
                    pay_payment_method := paymentMethod paymentData;
                    pay_reference_number := referenceNumber paymentData;
                    pay_notes := notes paymentData;
                    pay_user_id := userId paymentData;
                    pay_created_at := now env |} in
          (* Create journal entry *)
          let accounts := accountMappings env in
          let cashAccount := if bool_decide (paymentMethod paymentData = "cash")
                             then cashOnHand accounts
                             else bankAccount accounts in
          run! JournalEntryModel.create env
                 {| JournalEntryModel.entryDate := paymentDate paymentData;
                    JournalEntryModel.description :=
                      "Payment for " +:+ invoice_number inv;
                    JournalEntryModel.referenceType := "payment";
                    JournalEntryModel.referenceId := paymentId;
                    JournalEntryModel.userId := userId paymentData;
                    JournalEntryModel.lines :=
                      [ {| JournalEntryModel.accountId := cashAccount;
                           JournalEntryModel.ld_debit := Some (amount paymentData);
                           JournalEntryModel.ld_credit := Some 0%float;
                           JournalEntryModel.ld_description := None |};
                        {| JournalEntryModel.accountId := accountsReceivable accounts;
                           JournalEntryModel.ld_debit := Some 0%float;
                           JournalEntryModel.ld_credit := Some (amount paymentData);
                           JournalEntryModel.ld_description := None |} ] |} in
          query (findById invoiceId)
    end
  )%js.

End InvoiceModel.

(** ** Financial reports (electron/database/models/financialReports.js) *)

Module FinancialReports.

Record TrialBalanceRow := {
  code : string;
  name : string;
  tb_account_type : AccountType;
  debit_balance : float;
  credit_balance : float
}.

(** The SELECT list of the trial balance for one account. *)
Definition trial_balance_row (a : Account) : TrialBalanceRow :=
  {| code := acc_code a;
     name := acc_name a;
     tb_account_type := account_type a;
     debit_balance :=
       if bool_decide (account_type a ∈ [asset; expense])
       then current_balance a else 0%float;
     credit_balance :=
       if bool_decide (account_type a ∈ [liability; equity; income])
       then current_balance a else 0%float |}.

(** [WHERE a.current_balance != 0 AND a.is_active = 1] *)
Definition trial_balance_where (a : Account) : bool :=
  sql_ne (current_balance a) 0 && bool_decide (is_active a = 1%Z).

(** [ORDER BY a.code]: text compares bytewise. *)
Definition by_code (r1 r2 : TrialBalanceRow) : Prop :=
  String.le (code r1) (code r2).

Global Instance by_code_dec : RelDecision by_code.
Proof. intros r1 r2. unfold by_code. apply _. Defined.

Definition getTrialBalance (asOfDate : string) (d : DB) : list TrialBalanceRow :=
  merge_sort by_code
    (map trial_balance_row (List.filter trial_balance_where (accounts d))).

(** A row of [getAccountsByType]: [a.code, a.name, a.current_balance as
    amount]. *)
Record AmountRow := {
  bs_code : string;
  bs_name : string;
  amount : float
}.

Record BalanceSheet := {
  assets : list AmountRow;
  liabilities : list AmountRow;
  bs_equity : list AmountRow;
  totalAssets : float;
  totalLiabilities : float;
  totalEquity : float;
  totalLiabilitiesAndEquity : float;
  bs_asOfDate : string
}.

Definition by_bs_code (r1 r2 : AmountRow) : Prop :=
  String.le (bs_code r1) (bs_code r2).

Global Instance by_bs_code_dec : RelDecision by_bs_code.
Proof. intros r1 r2. unfold by_bs_code. apply _. Defined.

(** [WHERE a.account_type = ? AND a.is_active = 1 AND a.current_balance != 0
     ORDER BY a.code] *)
Definition getAccountsByType (type : AccountType) (d : DB) : list AmountRow :=
  merge_sort by_bs_code
    (map (fun a => {| bs_code := acc_code a; bs_name := acc_name a;
                      amount := current_balance a |})
         (List.filter (fun a => bool_decide (account_type a = type)
                                && bool_decide (is_active a = 1%Z)
                                && sql_ne (current_balance a) 0)
                      (accounts d))).

(** [rows.reduce((sum, a) => sum + a.amount, 0)] *)
Definition total_amount (rows : list AmountRow) : float :=
  fold_left (fun sum a => sum + to_number (amount a))%float rows 0%float.

Definition getBalanceSheet (asOfDate : string) (d : DB) : BalanceSheet :=
  let assets := getAccountsByType asset d in
  let liabilities := getAccountsByType liability d in
  let equity := getAccountsByType equity d in
  let totalAssets := total_amount assets in
  let totalLiabilities := total_amount liabilities in
  let totalEquity := total_amount equity in
  {| assets := assets;
     liabilities := liabilities;
     bs_equity := equity;
     totalAssets := totalAssets;
     totalLiabilities := totalLiabilities;
     totalEquity := totalEquity;
     totalLiabilitiesAndEquity := (totalLiabilities + totalEquity)%float;
     bs_asOfDate := asOfDate |}.

End FinancialReports.

(** ** Products (electron/database/models/product.js) *)

Module ProductModel.

(** [SELECT * FROM products WHERE id = ?], first row. *)
Definition findById (id : string) (d : DB) : option Product :=
  List.find (fun p => bool_decide (prod_id p = id)) (products d).

(** [UPDATE products SET current_stock = current_stock + ? WHERE id = ?];
    [current_stock] is an INTEGER column. *)
Definition add_stock (quantity : float) (id : string) (d : DB) : DB :=
  with_products
    (map (fun p => if bool_decide (prod_id p = id)
                   then set_current_stock
                          (integer_affinity (current_stock p + quantity)%float) p
                   else p)
         (products d)) d.

(** [INSERT INTO inventory_transactions]: [quantity] is NOT NULL,
    [transaction_type] is checked, [id] is the primary key, [product_id]
    references [products] and [user_id] references [users]. *)
Definition insert_inventory_transaction (row : InventoryTransaction) : JS unit :=
  insert
    (fun d =>
       violation
         (negb (is_nan (it_quantity row)))
         (bool_decide (transaction_type row ∈
                         ["purchase"; "sale"; "adjustment"; "return"; "transfer"; "damage"]))
         (bool_decide (it_id row ∉ map it_id (inventory_transactions d)))
         (bool_decide (it_product_id row ∈ map prod_id (products d))
          && bool_decide (it_user_id row ∈ map user_id (users d))))
    (fun d => with_inventory_transactions (inventory_transactions d ++ [row]) d).

Definition updateStock (env : Env) (id : string) (quantity : float)
    (transactionType : string) (userId : string) (notes : option string)
  : JS (option Product) :=
  transaction (
    (* Update product stock *)
    run! exec (add_stock quantity id) in
    (* Record inventory transaction *)
    let! txId := uuidv4 env in
    run! insert_inventory_transaction
           {| it_id := txId; it_product_id := id;
              transaction_type := transactionType;
              it_quantity := integer_affinity quantity; it_user_id := userId;
              it_notes := notes |} in
    query (findById id)
  )%js.

(** [/[A-Z]/]: an upper-case ASCII letter. *)
Definition is_upper_letter (c : Ascii.ascii) : bool :=
  (65 <=? Ascii.nat_of_ascii c)%nat && (Ascii.nat_of_ascii c <=? 90)%nat.

(** [letter.toLowerCase()] for such a letter. *)
Definition lower_letter (c : Ascii.ascii) : Ascii.ascii :=
  Ascii.ascii_of_nat (Ascii.nat_of_ascii c + 32).

(** [str.replace(/[A-Z]/g, letter => `_${letter.toLowerCase()}`)].  The
    string is its UTF-8 bytes: the letters A-Z are single bytes and no byte
    of another character lies in their range. *)
Fixpoint toSnakeCase (str : string) : string :=
  match str with
  | EmptyString => EmptyString
  | String c rest =>
      if is_upper_letter c
      then String (Ascii.ascii_of_nat 95) (String (lower_letter c) (toSnakeCase rest))
      else String c (toSnakeCase rest)
  end.

End ProductModel.

(** ** Sales (electron/database/models/sales.js) *)

Module SalesModel.

Record ItemData := {
  productId : string;
  quantity : float;
  unitPrice : float;
  discountPercent : option float;
  taxRate : option float
}.

Record PaymentEntry := {
  method : string;
  pe_amount : float;
  reference : option string
}.

(** The argument of [create]; a missing [amountPaid] is [nan], which is
    bound as NULL and subtracts to NaN as [undefined] does. *)
Record SaleData := {
  customerId : option string;
  saleType : option string;
  items : list ItemData;
  discountAmount : option float;
  amountPaid : float;
  paymentMethod : string;
  notes : option string;
  userId : string;
  payments_data : option (list PaymentEntry)
}.

(** A row of [SELECT si.*, p.name as product_name, p.sku FROM sale_items si
    JOIN products p ON si.product_id = p.id]. *)
Record SaleItem := {
  item_row : SaleItemRow;
  product_name : string;
  product_sku : string
}.

(** The object [findById] returns. *)
Record Sale := {
  sale_row : SaleRow;
  sale_items_of : list SaleItem;
  sale_payments_of : list SalePaymentRow
}.

(** [INV-<yyyymmdd>-<count of today's sales + 1, four digits>] *)
Definition generateInvoiceNumber (env : Env) (d : DB) : string :=
  let today := remove_dashes (today env) in
  let count :=
    length (filter (fun x => sql_date (sale_created_at x) = sql_date (now env))
                   (sales d)) in
  "INV-" +:+ today +:+ "-" +:+ padStart 4 zero_char (pretty (count + 1)%nat).

Definition findById (id : string) (d : DB) : option Sale :=
  match List.find (fun x => bool_decide (sale_id x = id)) (sales d) with
  | Some sale =>
      Some {| sale_row := sale;
              sale_items_of :=
                flat_map
                  (fun si =>
                     map (fun p => {| item_row := si;
                                      product_name := prod_name p;
                                      product_sku := sku p |})
                         (filter (fun p => si_product_id si = prod_id p) (products d)))
                  (filter (fun si => si_sale_id si = id) (sale_items d));
              sale_payments_of :=
                filter (fun sp => sp_sale_id sp = id) (sale_payments d) |}
  | None => None
  end.

(** [item.quantity * item.unitPrice * (1 - (item.discountPercent || 0) / 100)] *)
Definition itemTotal (item : ItemData) : float :=
  (quantity item * unitPrice item * (1 - or0 (discountPercent item) / 100))%float.

(** [itemTotal * (item.taxRate || 0) / 100] *)
Definition itemTax (item : ItemData) : float :=
  (itemTotal item * or0 (taxRate item) / 100)%float.

(** The loop that accumulates [subtotal] and [taxAmount]. *)
Definition totals (its : list ItemData) : float * float :=
  fold_left (fun acc item =>
               ((fst acc + itemTotal item)%float, (snd acc + itemTax item)%float))
            its (0%float, 0%float).

(** [INSERT INTO sales]: [subtotal] and [total_amount] are NOT NULL;
    [sale_type], [status] and [payment_method] are checked; [id] is the
    primary key and [invoice_number] is UNIQUE; [customer_id], when not
    NULL, references [customers] and [user_id] references [users]. *)
Definition insert_sale (row : SaleRow) : JS unit :=
  insert
    (fun d =>
       violation
         (negb (is_nan (sale_subtotal row)) && negb (is_nan (sale_total_amount row)))
         (bool_decide (sale_type row ∈ ["retail"; "wholesale"])
          && bool_decide (sale_status row ∈ ["pending"; "completed"; "void"; "returned"])
          && bool_decide (sale_payment_method row ∈ ["cash"; "card"; "credit"; "mixed"]))
         (bool_decide (sale_id row ∉ map sale_id (sales d))
          && bool_decide (sale_invoice_number row ∉ map sale_invoice_number (sales d)))
         (match sale_customer_id row with
          | Some c => bool_decide (c ∈ map cust_id (customers d))
          | None => true
          end
          && bool_decide (sale_user_id row ∈ map user_id (users d))))
    (fun d => with_sales (sales d ++ [row]) d).

(** [INSERT INTO sale_items]: [quantity], [unit_price], [cost_price] and
    [total] are NOT NULL, [id] is the primary key, [sale_id] references
    [sales] and [product_id] references [products]. *)
Definition insert_sale_item (row : SaleItemRow) : JS unit :=
  insert
    (fun d =>
       violation
         (negb (is_nan (si_quantity row)) && negb (is_nan (si_unit_price row))
          && negb (is_nan (si_cost_price row)) && negb (is_nan (si_total row)))
         true
         (bool_decide (si_id row ∉ map si_id (sale_items d)))
         (bool_decide (si_sale_id row ∈ map sale_id (sales d))
          && bool_decide (si_product_id row ∈ map prod_id (products d))))
    (fun d => with_sale_items (sale_items d ++ [row]) d).

(** [INSERT INTO sale_payments]: [amount] is NOT NULL, [id] is the primary
    key and [sale_id] references [sales]. *)
Definition insert_sale_payment (row : SalePaymentRow) : JS unit :=
  insert
    (fun d =>
       violation
         (negb (is_nan (sp_amount row)))
         true
         (bool_decide (sp_id row ∉ map sp_id (sale_payments d)))
         (bool_decide (sp_sale_id row ∈ map sale_id (sales d))))
    (fun d => with_sale_payments (sale_payments d ++ [row]) d).

Definition create (env : Env) (saleData : SaleData) : JS (option Sale) :=
  transaction (
    let! saleId := uuidv4 env in
    let! invoiceNumber := query (generateInvoiceNumber env) in
    (* Calculate totals *)
    let subtotal := fst (totals (items saleData)) in
    let taxAmount := snd (totals (items saleData)) in
    let discountAmount := or0 (discountAmount saleData) in
    let totalAmount := (subtotal + taxAmount - discountAmount)%float in
    (* Insert sale *)
    run! insert_sale
           {| sale_id := saleId; sale_invoice_number := invoiceNumber;
              sale_customer_id := customerId saleData;
              sale_type := or_string (saleType saleData) "retail";
              sale_status := "completed";
              sale_subtotal := real_affinity subtotal;
              sale_tax_amount := real_affinity taxAmount;
              sale_discount_amount := discountAmount;
              sale_total_amount := real_affinity totalAmount;
              sale_amount_paid := real_affinity (amountPaid saleData);
              change_amount := Math_max 0 (amountPaid saleData - totalAmount);
              sale_payment_method := paymentMethod saleData;
              sale_notes := notes saleData;
              sale_user_id := userId saleData;
              sale_created_at := now env |} in
    (* Insert sale items and update inventory *)
    run! for_each (items saleData) (fun item =>
           let! product := query (ProductModel.findById (productId item)) in
           let! itemId := uuidv4 env in
           match product with
           | None => throw (TypeError "Cannot read properties of undefined (reading 'cost_price')")
           | Some product =>
               run! insert_sale_item
                      {| si_id := itemId; si_sale_id := saleId;
                         si_product_id := productId item;
                         si_quantity := integer_affinity (quantity item);
                         si_unit_price := real_affinity (unitPrice item);
                         si_cost_price := real_affinity (cost_price product);
                         si_tax_rate := or0 (taxRate item);
                         si_discount_percent := or0 (discountPercent item);
                         si_total := real_affinity (itemTotal item) |} in
               (* Decrease inventory *)
               run! ProductModel.updateStock env (productId item) (- quantity item)
                      "sale" (userId saleData) None in
               ret tt
           end) in
    (* Insert payment records *)
    run! match payments_data saleData with
         | Some ps =>
             for_each ps (fun payment =>
               let! payId := uuidv4 env in
               insert_sale_payment
                 {| sp_id := payId; sp_sale_id := saleId;
                    sp_payment_method := method payment;
                    sp_amount := real_affinity (pe_amount payment);
                    sp_reference_number := reference payment |})
         | None => ret tt
         end in
    query (findById saleId)
  )%js.

(** [UPDATE sales SET status = 'void', updated_at = datetime('now')
     WHERE id = ?]; [updated_at] is not among the columns of [SaleRow]. *)
Definition mark_void (id : string) (d : DB) : DB :=
  with_sales
    (map (fun x => if bool_decide (sale_id x = id) then set_sale_status "void" x else x)
         (sales d)) d.

Definition not_found_or_void : string := "Sale not found or already void".

Definition voidSale (env : Env) (id : string) (userId : string) : JS (option Sale) :=
  transaction (
    let! sale := query (findById id) in
    match sale with
    | None => throw (Error not_found_or_void)
    | Some sale =>
        if bool_decide (sale_status (sale_row sale) = "void")
        then throw (Error not_found_or_void)
        else
          (* Restore inventory *)
          run! for_each (sale_items_of sale) (fun item =>
                 run! ProductModel.updateStock env
                        (si_product_id (item_row item)) (si_quantity (item_row item))
                        "return" userId
                        (Some ("Void sale " +:+ sale_invoice_number (sale_row sale))) in
                 ret tt) in
          (* Update sale status *)
          run! exec (mark_void id) in
          query (findById id)
    end
  )%js.

End SalesModel.
(** ** Invoice form (src/components/accounting/InvoiceForm.jsx) *)

Module InvoiceForm.

Record Item := {
  productId : string;
  description : string;
  quantity : Q;
  unitPrice : Q;
  taxRate : Q
}.

(** A product of the list the form loads: the fields [updateItem] reads. *)
Record ProductOption := {
  id : string;
  name : string;
  selling_price : Q;
  tax_rate : Q
}.

Record FormData := {
  customerId : string;
  invoiceDate : string;
  dueDate : string;
  items : list Item;
  notes : string
}.

(** [{ ...prev, items: v }] *)
Definition set_items (v : list Item) (prev : FormData) : FormData :=
  {| customerId := customerId prev; invoiceDate := invoiceDate prev;
     dueDate := dueDate prev; items := v; notes := notes prev |}.

Definition addItem (prev : FormData) : FormData :=
  set_items (items prev ++ [ {| productId := ""; description := "";
                                quantity := 1; unitPrice := 0; taxRate := 0 |} ])
            prev.

(** The pair [(field, value)] of [updateItem].  The inputs of the form call
    it with a text for [productId] and [description] and with a number for
    [quantity], [unitPrice] and [taxRate]. *)
Inductive FieldValue :=
| set_productId (value : string)
| set_description (value : string)
| set_quantity (value : Q)
| set_unitPrice (value : Q)
| set_taxRate (value : Q).

(** [{ ...item, [field]: value }] *)
Definition assign (item : Item) (fv : FieldValue) : Item :=
  match fv with
  | set_productId value =>
      {| productId := value; description := description item;
         quantity := quantity item; unitPrice := unitPrice item;
         taxRate := taxRate item |}
  | set_description value =>
      {| productId := productId item; description := value;
         quantity := quantity item; unitPrice := unitPrice item;
         taxRate := taxRate item |}
  | set_quantity value =>
      {| productId := productId item; description := description item;
         quantity := value; unitPrice := unitPrice item;
         taxRate := taxRate item |}
  | set_unitPrice value =>
      {| productId := productId item; description := description item;
         quantity := quantity item; unitPrice := value;
         taxRate := taxRate item |}
  | set_taxRate value =>
      {| productId := productId item; description := description item;
         quantity := quantity item; unitPrice := unitPrice item;
         taxRate := value |}
  end.

Definition updateItem (products : list ProductOption) (index : nat) (fv : FieldValue)
    (prev : FormData) : FormData :=
  set_items
    (imap (fun i item =>
             if bool_decide (i <> index) then item
             else
               let updated := assign item fv in
               match fv with
               | set_productId value =>
                   match List.find (fun p => bool_decide (id p = value)) products with
                   | Some product =>
                       {| productId := productId updated;
                          description := name product;
                          quantity := quantity updated;
                          unitPrice := selling_price product;
                          taxRate := tax_rate product |}
                   | None => updated
                   end
               | _ => updated
               end)
          (items prev))
    prev.

(** [items.filter((_, i) => i !== index)] *)
Definition removeItem (index : nat) (prev : FormData) : FormData :=
  set_items
    (map snd (List.filter (fun ix => bool_decide (fst ix <> index))
                          (imap (fun i item => (i, item)) (items prev))))
    prev.

End InvoiceForm.

(** ** Todo UI (frontend/components/todo-app.tsx) *)

Module TodoApp.

(** A JavaScript string: its UTF-16 code units. *)
Definition jsstring : Type := list N.

Inductive Priority := CRITICAL | HIGH | MEDIUM | LOW.
Inductive ApiStatus := connecting | online | offline.

Record LocalMeta := {
  completed : bool;
  priority : Priority
}.

(** [BackendTodo] of lib/api.ts; [id] is a whole number. *)
Record BackendTodo := {
  id : Z;
  task : jsstring
}.

Definition DEFAULT_META : LocalMeta := {| completed := false; priority := MEDIUM |}.

(** The component's state variables that the handlers read or write. *)
Record AppState := {
  backendTodos : list BackendTodo;
  localMeta : gmap jsstring LocalMeta;
  apiStatus : ApiStatus;
  input : jsstring;
  selected_priority : Priority
}.

(** [String(n)] for a whole number [n]: its decimal digits. *)
Definition String_of_number (n : Z) : jsstring :=
  map (fun c => N.of_nat (Ascii.nat_of_ascii c)) (String.list_ascii_of_string (pretty n)).

(** WhiteSpace and LineTerminator code points, the characters
    [String.prototype.trim] strips. *)
Definition is_white_space (c : N) : bool :=
  bool_decide (c ∈ [9; 10; 11; 12; 13; 32; 160; 5760; 8232; 8233; 8239; 8287;
                    12288; 65279]%N)
  || (N.leb 8192 c && N.leb c 8202).

Fixpoint trimStart (s : jsstring) : jsstring :=
  match s with
  | [] => []
  | c :: s' => if is_white_space c then trimStart s' else s
  end.

Definition trimEnd (s : jsstring) : jsstring := rev (trimStart (rev s)).

Definition trim (s : jsstring) : jsstring := trimEnd (trimStart s).

(** [prev[id]?.completed ?? false] *)
Definition completed_or_false (m : option LocalMeta) : bool :=
  match m with
  | Some meta => completed meta
  | None => false
  end.

Definition set_localMeta (v : gmap jsstring LocalMeta) (st : AppState) : AppState :=
  {| backendTodos := backendTodos st; localMeta := v; apiStatus := apiStatus st;
     input := input st; selected_priority := selected_priority st |}.

Definition toggleTodo (id : jsstring) (st : AppState) : AppState :=
  let prev := localMeta st in
  set_localMeta
    (<[ id := {| completed := negb (completed_or_false (prev !! id));
                 priority := priority (default DEFAULT_META (prev !! id)) |} ]> prev)
    st.

(** [addTodo] run to completion against a backend whose [createTodo]
    answers [Some created] or rejects ([None]).  The second component is
    the list of [createTodo] calls made, in order. *)
Definition addTodo (createTodo : jsstring -> option BackendTodo) (st : AppState)
  : AppState * list jsstring :=
  let trimmed := trim (input st) in
  if bool_decide (trimmed = []) then (st, [])
  else
    (* setInput("") *)
    let st1 := {| backendTodos := backendTodos st; localMeta := localMeta st;
                  apiStatus := apiStatus st; input := [];
                  selected_priority := selected_priority st |} in
    match createTodo trimmed with
    | Some created =>
        ({| backendTodos := created :: backendTodos st1;
            localMeta := <[ String_of_number (id created) :=
                              {| completed := false;
                                 priority := selected_priority st |} ]> (localMeta st1);
            apiStatus := online;
            input := input st1;
            selected_priority := selected_priority st1 |},
         [trimmed])
    | None =>
        ({| backendTodos := backendTodos st1; localMeta := localMeta st1;
            apiStatus := offline; input := input st1;
            selected_priority := selected_priority st1 |},
         [trimmed])
    end.

Inductive FilterType := ALL | ACTIVE | COMPLETED.

(** A display todo: a backend todo merged with its local meta. *)
Record Todo := {
  t_id : jsstring;
  t_backendId : Z;
  t_task : jsstring;
  t_completed : bool;
  t_priority : Priority
}.

(** [backendTodos.map(bt => ({ id: String(bt.id), backendId: bt.id,
    task: bt.task, ...(localMeta[String(bt.id)] ?? DEFAULT_META) }))] *)
Definition todos (st : AppState) : list Todo :=
  map (fun bt =>
         let meta := default DEFAULT_META (localMeta st !! String_of_number (id bt)) in
         {| t_id := String_of_number (id bt); t_backendId := id bt;
            t_task := task bt; t_completed := completed meta;
            t_priority := priority meta |})
      (backendTodos st).

Definition completedCount (st : AppState) : nat :=
  length (List.filter (fun t => t_completed t) (todos st)).

Definition activeCount (st : AppState) : nat :=
  length (List.filter (fun t => negb (t_completed t)) (todos st)).

(** The list shown under the filter [filter] of the filter tabs. *)
Definition visible (filter : FilterType) (st : AppState) : list Todo :=
  List.filter (fun t =>
                 match filter with
                 | ACTIVE => negb (t_completed t)
                 | COMPLETED => t_completed t
                 | ALL => true
                 end)
              (todos st).

(** The effect that runs once after mounting: [fetchTodos()] answers the
    backend's list ([Some todos]) or rejects ([None]).  Entries that
    [localMeta] already holds are kept, the other fetched todos get a copy
    of [DEFAULT_META]. *)
Definition initialFetch (fetchTodos : option (list BackendTodo)) (st : AppState)
  : AppState :=
  match fetchTodos with
  | Some fetched =>
      {| backendTodos := fetched;
         localMeta :=
           fold_left (fun next t =>
                        match next !! String_of_number (id t) with
                        | Some _ => next
                        | None => <[ String_of_number (id t) := DEFAULT_META ]> next
                        end)
                     fetched (localMeta st);
         apiStatus := online;
         input := input st;
         selected_priority := selected_priority st |}
  | None =>
      {| backendTodos := backendTodos st; localMeta := localMeta st;
         apiStatus := offline; input := input st;
         selected_priority := selected_priority st |}
  end.

(** [t.id === backendId] *)
Definition has_backend_id (backendId : Z) (t : BackendTodo) : bool :=
  Z.eqb (id t) backendId.

(** [deleteTodo(id, backendId)] run to completion; [apiDeleteTodo] tells
    whether the backend call resolves.  The second component is the list of
    [apiDeleteTodo] calls made. *)
Definition deleteTodo (apiDeleteTodo : Z -> bool) (id : jsstring) (backendId : Z)
    (st : AppState) : AppState * list Z :=
  (* Optimistic: remove from UI immediately *)
  let st1 := {| backendTodos :=
                  List.filter (fun t => negb (has_backend_id backendId t))
                              (backendTodos st);
                localMeta := delete id (localMeta st);
                apiStatus := apiStatus st; input := input st;
                selected_priority := selected_priority st |} in
  ({| backendTodos := backendTodos st1; localMeta := localMeta st1;
      apiStatus := if apiDeleteTodo backendId then online else offline;
      input := input st1; selected_priority := selected_priority st1 |},
   [backendId]).

End TodoApp.

(** ** Vocabulary of the statements *)

(** The rational number a finite binary64 value denotes; NaN and the
    infinities, which denote none, are given 0. *)
Definition exact (x : float) : Q :=
  match Prim2SF x with
  | S754_finite s m e => ((if s then -1 else 1) * inject_Z (Z.pos m) * 2 ^ e)%Q
  | _ => 0%Q
  end.

(** The sum of a list of rationals. *)
Definition sumQ (l : list Q) : Q := foldr Qplus 0%Q l.

(** The sum of the debit (credit) fields over the lines of an input of
    [JournalEntryModel.create], as rational numbers, a missing field
    counting as [0]. *)
Definition sum_debits (ls : list JournalEntryModel.LineData) : Q :=
  sumQ (map (fun l => default 0%Q (exact <$> JournalEntryModel.ld_debit l)) ls).

Definition sum_credits (ls : list JournalEntryModel.LineData) : Q :=
  sumQ (map (fun l => default 0%Q (exact <$> JournalEntryModel.ld_credit l)) ls).

(** The primary key of [accounts]: no two rows share an id. *)
Definition accounts_pk (d : DB) : Prop := NoDup (map acc_id (accounts d)).

(** The stored lines of an entry that name the account [a]. *)
Definition lines_naming (a : Account) (ls : list JournalEntryModel.EntryLine)
  : list JournalLineRow :=
  map JournalEntryModel.line_row
      (filter (fun el => account_id (JournalEntryModel.line_row el) = acc_id a) ls).

(** The sum, as rational numbers, of the balances of the accounts whose
    type satisfies [P]. *)
Definition total_balance (P : AccountType -> bool) (accs : list Account) : Q :=
  sumQ (map (fun a => exact (current_balance a))
            (List.filter (fun a => P (account_type a)) accs)).

(** Liability, equity and income accounts. *)
Definition credit_normal (t : AccountType) : bool :=
  negb (JournalEntryModel.debit_normal t).

(** What one stored line adds to the balance of an account of type [t]:
    debit minus credit for an asset or expense account, credit minus debit
    for the others, a NULL column counting as 0. *)
Definition posted_amount (t : AccountType) (l : JournalLineRow) : float :=
  match t with
  | asset | expense => (to_number (debit l) - to_number (credit l))%float
  | liability | equity | income => (to_number (credit l) - to_number (debit l))%float
  end.

(** The type of the first account of [accs] with the id [id] ([asset] when
    there is none). *)
Definition type_of (accs : list Account) (id : string) : AccountType :=
  match List.find (fun a => bool_decide (acc_id a = id)) accs with
  | Some a => account_type a
  | None => asset
  end.

(** The balance of the account row [a] after the lines [ls] were posted on
    the accounts [accs]: the amount of every line that names the id of [a]
    is added to it, one line after the other, and the sum is stored in a
    REAL column each time. *)
Definition posted_balance (accs : list Account) (ls : list JournalEntryModel.EntryLine)
    (a : Account) : float :=
  fold_left
    (fun b el =>
       let l := JournalEntryModel.line_row el in
       if bool_decide (account_id l = acc_id a)
       then real_affinity (b + posted_amount (type_of accs (account_id l)) l)%float
       else b)
    ls (current_balance a).

(** ** Auxiliary definitions of the proofs about [post] *)

(** The type [post] reads for the account a line names ([asset] stands in
    where there is no such account; [post] throws there). *)
Definition line_type (d : DB) (el : JournalEntryModel.EntryLine) : AccountType :=
  default asset
    (JournalEntryModel.select_account_type
       (account_id (JournalEntryModel.line_row el)) d).

(** The database after the balance update of one line, and of a list of
    lines. *)
Definition apply_line (d : DB) (el : JournalEntryModel.EntryLine) : DB :=
  JournalEntryModel.updateBalance
    (JournalEntryModel.line_amount (line_type d el) (JournalEntryModel.line_row el))
    (account_id (JournalEntryModel.line_row el)) d.

Definition apply_lines (ls : list JournalEntryModel.EntryLine) (d : DB) : DB :=
  fold_left apply_line ls d.

(** ** Auxiliary definitions of the proofs about created entries *)

(** The row [JournalEntryModel.create] inserts into [journal_entries] when
    it starts in the state [st]. *)
Definition new_entry_row (env : Env) (data : JournalEntryModel.EntryData) (st : State)
  : JournalEntryRow :=
  {| je_id := uuid env (uuid_calls st);
     entry_number := JournalEntryModel.generateEntryNumber env (db st);
     entry_date := JournalEntryModel.entryDate data;
     je_description := JournalEntryModel.description data;
     reference_type := JournalEntryModel.referenceType data;
     reference_id := JournalEntryModel.referenceId data;
     is_posted := 0;
     je_user_id := JournalEntryModel.userId data;
     je_created_at := now env |}.

(** The row it inserts for the [i]-th line, the entry being [entryId] and
    [u] calls of [uuidv4] having been made before the loop. *)
Definition stored_line (env : Env) (entryId : string) (u i : nat)
    (line : JournalEntryModel.LineData) : JournalLineRow :=
  {| jel_id := uuid env (u + i);
     journal_entry_id := entryId;
     account_id := JournalEntryModel.accountId line;
     debit := or0 (JournalEntryModel.ld_debit line);
     credit := or0 (JournalEntryModel.ld_credit line);
     jel_description := JournalEntryModel.ld_description line |}.

(** The state a [create] that returns ends in. *)
Definition entry_created_state (env : Env) (data : JournalEntryModel.EntryData)
    (st : State) : State :=
  {| db :=
       with_journal_entry_lines
         (journal_entry_lines (db st)
          ++ imap (stored_line env (uuid env (uuid_calls st)) (S (uuid_calls st)))
                  (JournalEntryModel.lines data))
         (with_journal_entries
            (journal_entries (db st) ++ [new_entry_row env data st]) (db st));
     uuid_calls := S (uuid_calls st) + length (JournalEntryModel.lines data) |}.

(** ** Auxiliary definitions of the proofs about payments *)

(** The payment row [recordPayment] inserts. *)
Definition new_payment_row (env : Env) (invoiceId : string)
    (paymentData : InvoiceModel.PaymentData) (inv : InvoiceRow) (st : State)
  : PaymentRow :=
  {| pay_id := uuid env (uuid_calls st);
     payment_number := InvoiceModel.generatePaymentNumber env (db st);
     payment_type := "receipt"; entity_type := "customer";
     entity_id := customer_id inv;
     pay_invoice_id := invoiceId;
     payment_date := InvoiceModel.paymentDate paymentData;
     pay_amount := real_affinity (InvoiceModel.amount paymentData);
     pay_payment_method := InvoiceModel.paymentMethod paymentData;
     pay_reference_number := InvoiceModel.referenceNumber paymentData;
     pay_notes := InvoiceModel.notes paymentData;
     pay_user_id := InvoiceModel.userId paymentData;
     pay_created_at := now env |}.

(** The journal entry it creates. *)
Definition payment_entry (env : Env) (paymentData : InvoiceModel.PaymentData)
    (inv : InvoiceRow) (paymentId : string) : JournalEntryModel.EntryData :=
  {| JournalEntryModel.entryDate := InvoiceModel.paymentDate paymentData;
     JournalEntryModel.description := "Payment for " +:+ invoice_number inv;
     JournalEntryModel.referenceType := "payment";
     JournalEntryModel.referenceId := paymentId;
     JournalEntryModel.userId := InvoiceModel.userId paymentData;
     JournalEntryModel.lines :=
       [ {| JournalEntryModel.accountId :=
              if bool_decide (InvoiceModel.paymentMethod paymentData = "cash")
              then cashOnHand (accountMappings env)
              else bankAccount (accountMappings env);
            JournalEntryModel.ld_debit := Some (InvoiceModel.amount paymentData);
            JournalEntryModel.ld_credit := Some 0%float;
            JournalEntryModel.ld_description := None |};
         {| JournalEntryModel.accountId := accountsReceivable (accountMappings env);
            JournalEntryModel.ld_debit := Some 0%float;
            JournalEntryModel.ld_credit := Some (InvoiceModel.amount paymentData);
            JournalEntryModel.ld_description := None |} ] |}.

(** The state before the payment's journal entry is created: the invoice
    and the customer are updated and the payment row is appended. *)
Definition payment_recorded_state (env : Env) (invoiceId : string)
    (paymentData : InvoiceModel.PaymentData) (inv : InvoiceRow) (st : State) : State :=
  let newAmountPaid :=
    (to_number (inv_amount_paid inv) + InvoiceModel.amount paymentData)%float in
  let newStatus :=
    if (to_number (inv_total_amount inv) <=? newAmountPaid)%float
    then st_paid else st_partial in
  let d1 := InvoiceModel.update_invoice env newAmountPaid newStatus invoiceId (db st) in
  let d2 := InvoiceModel.decrease_customer_balance
              (InvoiceModel.amount paymentData) (customer_id inv) d1 in
  {| db := with_payments
             (payments d2 ++ [new_payment_row env invoiceId paymentData inv st]) d2;
     uuid_calls := S (uuid_calls st) |}.

(** [m] keeps the property [J] of the database, whatever its outcome. *)
Definition preserves {A} (J : DB -> Prop) (m : JS A) : Prop :=
  forall s r s', J (db s) -> m s = (r, s') -> J (db s').

(** ** Vocabulary of the further statements *)

(** [r] is an HTTP error with the status [code] and the detail [msg]. *)
Definition raises_http {A} (r : result Security.HTTPException A) (code : Z)
    (msg : string) : Prop :=
  exists e, r = Err e /\ Security.status_code e = code /\ Security.detail e = msg.

(** The display todo of a backend todo under the meta [m]. *)
Definition merge_todo (m : gmap TodoApp.jsstring TodoApp.LocalMeta)
    (bt : TodoApp.BackendTodo) : TodoApp.Todo :=
  let meta := default TodoApp.DEFAULT_META
                (m !! TodoApp.String_of_number (TodoApp.id bt)) in
  {| TodoApp.t_id := TodoApp.String_of_number (TodoApp.id bt);
     TodoApp.t_backendId := TodoApp.id bt;
     TodoApp.t_task := TodoApp.task bt;
     TodoApp.t_completed := TodoApp.completed meta;
     TodoApp.t_priority := TodoApp.priority meta |}.

(** Every listed todo has its entry in [localMeta]. *)
Definition every_todo_has_meta (st : TodoApp.AppState) : Prop :=
  Forall (fun bt => is_Some (TodoApp.localMeta st
                               !! TodoApp.String_of_number (TodoApp.id bt)))
         (TodoApp.backendTodos st).

(** ** Auxiliary definitions of the proofs about created entries, continued *)

(** The balance check of [JournalEntryModel.create]. *)
Definition out_of_balance (ls : list JournalEntryModel.LineData) : bool :=
  (0.01 <? abs (JournalEntryModel.totalDebit ls - JournalEntryModel.totalCredit ls))%float.

(** ** Vocabulary of the statements about sales *)

(** The total of one item as a rational number: quantity times unit price
    times (1 - discountPercent/100), a missing discount counting as 0. *)
Definition item_total_exact (item : SalesModel.ItemData) : Q :=
  (exact (SalesModel.quantity item) * exact (SalesModel.unitPrice item)
   * (1 - exact (or0 (SalesModel.discountPercent item)) / 100))%Q.

(** ** Vocabulary of the statements about stock *)






(** ** Sample data *)

Module Sample.

Definition env : Env :=
  {| uuid := fun n => "uuid-" +:+ pretty n;
     now := "2026-03-01 09:30:00";
     fullYear := 2026;
     today := "2026-03-01";
     accountMappings :=
       {| accountsReceivable := "acc-ar"; salesRevenue := "acc-sales";
          salesTaxPayable := "acc-tax"; cashOnHand := "acc-cash";
          bankAccount := "acc-bank" |} |}.

Definition account (id code : string) (t : AccountType) (balance : float) : Account :=
  {| acc_id := id; acc_code := code; acc_name := id; account_type := t;
     is_active := 1; current_balance := balance |}.

Definition database : DB :=
  {| users := [ {| user_id := "user-1" |} ];
     accounts := [ account "acc-sales" "4100" income 250;
                   account "acc-cash" "1110" asset 80;
                   account "acc-bank" "1120" asset 0;
                   account "acc-ar" "1200" asset 170;
                   account "acc-tax" "2300" liability 0 ];
     journal_entries :=
       [ {| je_id := "je-1"; entry_number := "JE-2026-00001";
            entry_date := "2026-02-27"; je_description := "Counter sale";
            reference_type := "manual"; reference_id := "";
            is_posted := 0; je_user_id := "user-1";
            je_created_at := "2026-02-27 18:00:00" |} ];
     journal_entry_lines :=
       [ {| jel_id := "jel-1"; journal_entry_id := "je-1";
            account_id := "acc-cash"; debit := 40; credit := 0;
            jel_description := None |};
         {| jel_id := "jel-2"; journal_entry_id := "je-1";
            account_id := "acc-sales"; debit := 0; credit := 40;
            jel_description := None |} ];
     customers := [ {| cust_id := "cust-1"; cust_name := "Dana";
                       cust_email := "dana@example.com";
                       cust_current_balance := 170 |} ];
     invoices := [ {| inv_id := "inv-1"; invoice_number := "INV-2026-00001";
                      customer_id := "cust-1"; inv_total_amount := 170;
                      inv_amount_paid := 0; inv_status := st_unpaid;
                      inv_updated_at := "2026-02-20 12:00:00" |} ];
     payments := [];
     products := [ {| prod_id := "prod-1"; prod_name := "Notebook";
                      sku := "NB-1"; cost_price := 2; current_stock := 30 |} ];
     inventory_transactions := [];
     sales := [];
     sale_items := [];
     sale_payments := [] |}.

Definition state : State := {| db := database; uuid_calls := 0 |}.

(** The same books with 0.1 in cash and 0.7 of sales, and the unposted
    entry moving 0.2 from one to the other. *)
Definition small_change : State :=
  {| db :=
       with_accounts
         [ account "acc-sales" "4100" income 0.7;
           account "acc-cash" "1110" asset 0.1 ]
         (with_journal_entry_lines
            [ {| jel_id := "jel-1"; journal_entry_id := "je-1";
                 account_id := "acc-cash"; debit := 0.2; credit := 0;
                 jel_description := None |};
              {| jel_id := "jel-2"; journal_entry_id := "je-1";
                 account_id := "acc-sales"; debit := 0; credit := 0.2;
                 jel_description := None |} ]
            database);
     uuid_calls := 0 |}.

Definition entry_of (ls : list JournalEntryModel.LineData) : JournalEntryModel.EntryData :=
  {| JournalEntryModel.entryDate := "2026-03-01";
     JournalEntryModel.description := "Adjustment";
     JournalEntryModel.referenceType := "manual";
     JournalEntryModel.referenceId := "";
     JournalEntryModel.userId := "user-1";
     JournalEntryModel.lines := ls |}.

Definition line (id : string) (d c : option float) : JournalEntryModel.LineData :=
  {| JournalEntryModel.accountId := id;
     JournalEntryModel.ld_debit := d;
     JournalEntryModel.ld_credit := c;
     JournalEntryModel.ld_description := None |}.

(** An entry whose credits exceed its debits by half a cent. *)
Definition unequal_entry : JournalEntryModel.EntryData :=
  entry_of [ line "acc-cash" (Some 1%float) None;
             line "acc-sales" None (Some 1.005%float) ].

(** An entry whose debits exceed its credits by two units. *)
Definition lopsided_entry : JournalEntryModel.EntryData :=
  entry_of [ line "acc-cash" (Some 3%float) None;
             line "acc-sales" None (Some 1%float) ].

(** An entry whose debits exceed its credits by one unit, which the
    binary64 sum of the debits does not show. *)
Definition absorbed_entry : JournalEntryModel.EntryData :=
  entry_of [ line "acc-cash" (Some 1e17%float) None;
             line "acc-bank" (Some 1%float) None;
             line "acc-sales" None (Some 1e17%float) ].

(** An entry of 1.01 against 1.00. *)
Definition cent_entry : JournalEntryModel.EntryData :=
  entry_of [ line "acc-cash" (Some 1.01%float) None;
             line "acc-sales" None (Some 1%float) ].

(** An entry on an account that has no row. *)
Definition ghost_entry : JournalEntryModel.EntryData :=
  entry_of [ line "acc-ghost" (Some 5%float) None;
             line "acc-sales" None (Some 5%float) ].

Definition payment : InvoiceModel.PaymentData :=
  {| InvoiceModel.amount := 70;
     InvoiceModel.paymentDate := "2026-03-01";
     InvoiceModel.paymentMethod := "cash";
     InvoiceModel.referenceNumber := None;
     InvoiceModel.notes := None;
     InvoiceModel.userId := "user-1" |}.


(** The invoice form with one item and the products it loaded. *)
Definition form : InvoiceForm.FormData :=
  {| InvoiceForm.customerId := "cust-1";
     InvoiceForm.invoiceDate := "2026-03-01";
     InvoiceForm.dueDate := "2026-03-31";
     InvoiceForm.items :=
       [ {| InvoiceForm.productId := "prod-7";
            InvoiceForm.description := "Notebooks";
            InvoiceForm.quantity := 2;
            InvoiceForm.unitPrice := 50;
            InvoiceForm.taxRate := 8 |} ];
     InvoiceForm.notes := EmptyString |}.

Definition product_options : list InvoiceForm.ProductOption :=
  [ {| InvoiceForm.id := "prod-1"; InvoiceForm.name := "Notebook";
       InvoiceForm.selling_price := 5 # 2; InvoiceForm.tax_rate := 8 |} ].

Definition item (id : string) (q p : float) (discount tax : option float)
  : SalesModel.ItemData :=
  {| SalesModel.productId := id;
     SalesModel.quantity := q;
     SalesModel.unitPrice := p;
     SalesModel.discountPercent := discount;
     SalesModel.taxRate := tax |}.

(** Twelve notebooks at 2.50 with 10% discount and 8% tax, paid with 40. *)
Definition sale : SalesModel.SaleData :=
  {| SalesModel.customerId := None;
     SalesModel.saleType := None;
     SalesModel.items := [ item "prod-1" 12 2.5 (Some 10%float) (Some 8%float) ];
     SalesModel.discountAmount := None;
     SalesModel.amountPaid := 40;
     SalesModel.paymentMethod := "cash";
     SalesModel.notes := None;
     SalesModel.userId := "user-1";
     SalesModel.payments_data := None |}.

(** Three notebooks at 0.10, paid with 1. *)
Definition dimes : SalesModel.SaleData :=
  {| SalesModel.customerId := None;
     SalesModel.saleType := None;
     SalesModel.items := [ item "prod-1" 3 0.1 None None ];
     SalesModel.discountAmount := None;
     SalesModel.amountPaid := 1;
     SalesModel.paymentMethod := "cash";
     SalesModel.notes := None;
     SalesModel.userId := "user-1";
     SalesModel.payments_data := None |}.

(** A sale of two lines of the same product, paid in two parts. *)
Definition basket : SalesModel.SaleData :=
  {| SalesModel.customerId := None;
     SalesModel.saleType := Some "wholesale";
     SalesModel.items :=
       [ item "prod-1" 12 2.5 (Some 10%float) (Some 8%float);
         item "prod-1" 3 3 None None ];
     SalesModel.discountAmount := None;
     SalesModel.amountPaid := 40;
     SalesModel.paymentMethod := "mixed";
     SalesModel.notes := None;
     SalesModel.userId := "user-1";
     SalesModel.payments_data :=
       Some [ {| SalesModel.method := "cash"; SalesModel.pe_amount := 20;
                 SalesModel.reference := None |};
              {| SalesModel.method := "card"; SalesModel.pe_amount := 20;
                 SalesModel.reference := Some "slip-77" |} ] |}.

(** The same sale with a third line that names a product without a row. *)
Definition unknown_basket : SalesModel.SaleData :=
  {| SalesModel.customerId := None;
     SalesModel.saleType := None;
     SalesModel.items :=
       (SalesModel.items basket ++ [ item "prod-9" 1 1 None None ])%list;
     SalesModel.discountAmount := None;
     SalesModel.amountPaid := 60;
     SalesModel.paymentMethod := "cash";
     SalesModel.notes := None;
     SalesModel.userId := "user-1";
     SalesModel.payments_data := None |}.

(** The first sale, paid by cheque, which the schema does not list. *)
Definition cheque_sale : SalesModel.SaleData :=
  {| SalesModel.customerId := None;
     SalesModel.saleType := None;
     SalesModel.items := SalesModel.items sale;
     SalesModel.discountAmount := None;
     SalesModel.amountPaid := 40;
     SalesModel.paymentMethod := "cheque";
     SalesModel.notes := None;
     SalesModel.userId := "user-1";
     SalesModel.payments_data := None |}.

(** Books with three asset accounts of 0.1, 0.2 and 0.3, stored in another
    order than that of their codes, a loan and an inactive account. *)
Definition ledger : DB :=
  with_accounts
    [ account "acc-till" "1130" asset 0.3;
      account "acc-cash" "1110" asset 0.1;
      account "acc-bank" "1120" asset 0.2;
      account "acc-loan" "2100" liability 0.6;
      {| acc_id := "acc-old"; acc_code := "1190"; acc_name := "acc-old";
         account_type := asset; is_active := 0; current_balance := 5 |};
      account "acc-sales" "4100" income 0.6 ]
    database.

(** The Todo UI with two todos, the second one completed, and a new task
    typed into the input, surrounded by blanks. *)
Definition todo_state : TodoApp.AppState :=
  {| TodoApp.backendTodos :=
       [ {| TodoApp.id := 2; TodoApp.task := [109; 105; 108; 107]%N |};
         {| TodoApp.id := 1; TodoApp.task := [116; 101; 97]%N |} ];
     TodoApp.localMeta :=
       {[ TodoApp.String_of_number 1 :=
            {| TodoApp.completed := true; TodoApp.priority := TodoApp.HIGH |} ]};
     TodoApp.apiStatus := TodoApp.online;
     TodoApp.input := [32; 9; 101; 103; 103; 115; 160]%N;
     TodoApp.selected_priority := TodoApp.LOW |}.

(** The same state after the list was fetched again: todo 2 has its
    default entry. *)
Definition fetched_state : TodoApp.AppState :=
  TodoApp.initialFetch (Some (TodoApp.backendTodos todo_state)) todo_state.

(** A backend that stores the task under id 3. *)
Definition backend (task : TodoApp.jsstring) : option TodoApp.BackendTodo :=
  Some {| TodoApp.id := 3; TodoApp.task := task |}.

End Sample.

(** * Theorems *)

(** ** Exceptions, loops and transactions *)

(** Unfold the state-passing operations in the goal or in a hypothesis. *)
Tactic Notation "js_unfold" :=
  unfold bind, exec, modify, uuidv4, query, gets, throw, ret.
Tactic Notation "js_unfold" "in" hyp(H) :=
  unfold bind, exec, modify, uuidv4, query, gets, throw, ret in H.

Lemma bind_Ok {S E A B} (m : M S E A) (k : A -> M S E B) (s s' : S) (b : B) :
  bind m k s = (Ok b, s') ->
  exists a s1, m s = (Ok a, s1) /\ k a s1 = (Ok b, s').
Proof.
  unfold bind. destruct (m s) as [[a|e] s1]; [eauto | discriminate].
Qed.

Lemma bind_Err {S E A B} (m : M S E A) (k : A -> M S E B) (s s' : S) (e : E) :
  bind m k s = (Err e, s') ->
  m s = (Err e, s') \/ exists a s1, m s = (Ok a, s1) /\ k a s1 = (Err e, s').
Proof.
  unfold bind. destruct (m s) as [[a|e'] s1]; [eauto|].
  intros [= -> ->]. by left.
Qed.

(** A transaction that throws leaves the database as it was. *)
Lemma transaction_Err {A} (fn : JS A) (s s' : State) (e : Exn) :
  transaction fn s = (Err e, s') -> db s' = db s.
Proof.
  unfold transaction. destruct (fn s) as [[a|e'] s1]; [discriminate|].
  by intros [= _ <-].
Qed.

Lemma transaction_Err_body {A} (fn : JS A) (s s' : State) (e : Exn) :
  transaction fn s = (Err e, s') -> exists s1, fn s = (Err e, s1).
Proof.
  unfold transaction. destruct (fn s) as [[a|e'] s1]; [discriminate|].
  intros [= -> _]. eauto.
Qed.

Lemma transaction_Ok {A} (fn : JS A) (s s' : State) (a : A) :
  transaction fn s = (Ok a, s') -> fn s = (Ok a, s').
Proof.
  unfold transaction. destruct (fn s) as [[a'|e'] s1]; [|discriminate].
  by intros [= -> ->].
Qed.

(** An INSERT that returns found no violated constraint and appended its
    row; one that throws throws an [SqliteError] and writes nothing. *)
Lemma insert_Ok (violated : DB -> option Constraint) (append : DB -> DB)
    (s s' : State) (u : unit) :
  insert violated append s = (Ok u, s') ->
  violated (db s) = None /\
  s' = {| db := append (db s); uuid_calls := uuid_calls s |}.
Proof.
  unfold insert. destruct (violated (db s)); [discriminate|].
  by intros [= _ <-].
Qed.

Lemma insert_Err (violated : DB -> option Constraint) (append : DB -> DB)
    (s s' : State) (e : Exn) :
  insert violated append s = (Err e, s') ->
  s' = s /\ exists c, violated (db s) = Some c /\ e = SqliteError c.
Proof.
  unfold insert. destruct (violated (db s)) as [c|]; [|discriminate].
  intros [= <- <-]. eauto.
Qed.

(** The four tests of [violation] passed when it reports nothing. *)
Lemma violation_None (not_null check unique foreign_key : bool) :
  violation not_null check unique foreign_key = None <->
  not_null = true /\ check = true /\ unique = true /\ foreign_key = true.
Proof.
  unfold violation.
  destruct not_null, check, unique, foreign_key; simpl; split;
    try discriminate; try done; intros (? & ? & ? & ?); discriminate.
Qed.

(** What a loop throws, its body threw. *)
Lemma for_each_Err {S E A} (P : E -> Prop) (body : A -> M S E unit) (xs : list A) :
  (forall x s e s', body x s = (Err e, s') -> P e) ->
  forall s e s', for_each xs body s = (Err e, s') -> P e.
Proof.
  intros Hbody. induction xs as [|x xs IH]; intros s e s' Hrun; simpl in Hrun.
  - discriminate.
  - apply bind_Err in Hrun as [Hrun | (a & s1 & _ & Hrun)]; eauto.
Qed.

(** Keeping a property of the database, operation by operation. *)
Lemma preserves_bind {A B} (J : DB -> Prop) (m : JS A) (k : A -> JS B) :
  preserves J m -> (forall a, preserves J (k a)) -> preserves J (bind m k).
Proof.
  intros Hm Hk s r s' HJ. unfold bind.
  destruct (m s) as [[a|e] s1] eqn:Hms.
  - intros Hks. eapply Hk; [|exact Hks]. eapply Hm; [exact HJ | exact Hms].
  - intros [= <- <-]. eapply Hm; [exact HJ | exact Hms].
Qed.

Lemma preserves_pure {A} (J : DB -> Prop) (m : JS A) :
  (forall s, db (snd (m s)) = db s) -> preserves J m.
Proof.
  intros Hm s r s' HJ Hms. specialize (Hm s). rewrite Hms in Hm. simpl in Hm.
  by rewrite Hm.
Qed.

Lemma preserves_exec (J : DB -> Prop) (f : DB -> DB) :
  (forall d, J d -> J (f d)) -> preserves J (exec f).
Proof. intros Hf s r s' HJ [= <- <-]. simpl. by apply Hf. Qed.

Lemma preserves_insert (J : DB -> Prop) (violated : DB -> option Constraint)
    (append : DB -> DB) :
  (forall d, J d -> J (append d)) -> preserves J (insert violated append).
Proof.
  intros Hf s r s' HJ. unfold insert. destruct (violated (db s)).
  - by intros [= <- <-].
  - intros [= <- <-]. simpl. by apply Hf.
Qed.

Lemma preserves_transaction {A} (J : DB -> Prop) (m : JS A) :
  preserves J m -> preserves J (transaction m).
Proof.
  intros Hm s r s' HJ. unfold transaction.
  destruct (m s) as [[a|e] s1] eqn:Hms.
  - intros [= <- <-]. eapply Hm; [exact HJ | exact Hms].
  - intros [= <- <-]. exact HJ.
Qed.

Lemma preserves_for_each {A} (J : DB -> Prop) (xs : list A) (body : A -> JS unit) :
  (forall x, preserves J (body x)) -> preserves J (for_each xs body).
Proof.
  intros Hbody. induction xs as [|x xs IH]; simpl.
  - by apply preserves_pure.
  - apply preserves_bind; [apply Hbody | intros _; exact IH].
Qed.

(** The first row found in a table to which a row was appended. *)
Lemma find_app_last {A} (p : A -> bool) (l : list A) (x : A) :
  List.find p l = None -> p x = true -> List.find p (l ++ [x]) = Some x.
Proof.
  intros Hnone Hx. induction l as [|a l IH]; simpl in *.
  - by rewrite Hx.
  - destruct (p a); [discriminate | by apply IH].
Qed.

Lemma find_none_key {A} (key : A -> string) (k : string) (l : list A) :
  k ∉ map key l -> List.find (fun a => bool_decide (key a = k)) l = None.
Proof.
  intros Hnotin. induction l as [|a l IH]; simpl; [done|].
  rewrite bool_decide_false.
  - apply IH. intros Hin. apply Hnotin. simpl. by right.
  - intros Heq. apply Hnotin. simpl. rewrite Heq. by left.
Qed.

(** ** Binary64 arithmetic *)

Section Binary64.

Lemma SFcompare_swap (x y : spec_float) :
  SFcompare y x = CompOpp <$> SFcompare x y.
Proof.
  destruct x as [[]|[]| |[] m e], y as [[]|[]| |[] m' e']; simpl; try reflexivity;
    rewrite (Z.compare_antisym e e'); destruct (e ?= e')%Z; simpl; try reflexivity;
    rewrite (Pos.compare_cont_antisym m m' Eq); reflexivity.
Qed.

Lemma SFcompare_refl (x : spec_float) :
  x <> S754_nan -> SFcompare x x = Some Eq.
Proof.
  destruct x as [[]|[]| |[] m e]; simpl; try done; intros _;
    by rewrite Z.compare_refl, Pos.compare_cont_refl.
Qed.

Lemma is_nan_SF (x : float) : is_nan x = true <-> Prim2SF x = S754_nan.
Proof.
  unfold is_nan. rewrite negb_true_iff, FloatAxioms.eqb_spec. unfold SFeqb. split.
  - intros H. destruct (Prim2SF x) as [s|s| |s m e] eqn:Hx; [| |done|];
      by rewrite SFcompare_refl in H.
  - by intros ->.
Qed.

Lemma not_nan_SF (x : float) : is_nan x = false <-> Prim2SF x <> S754_nan.
Proof. rewrite <- is_nan_SF. by destruct (is_nan x). Qed.

(** [a < b] excludes [b < a]. *)
Lemma ltb_asym (a b : float) : (a <? b)%float = true -> (b <? a)%float = false.
Proof.
  rewrite !ltb_spec. unfold SFltb. rewrite (SFcompare_swap (Prim2SF a)).
  by destruct (SFcompare (Prim2SF a) (Prim2SF b)) as [[]|].
Qed.

(** When [a < b] is false, [b <= a] holds or one of the two is NaN. *)
Lemma ltb_false (a b : float) :
  (a <? b)%float = false ->
  (b <=? a)%float = true \/ is_nan a = true \/ is_nan b = true.
Proof.
  rewrite ltb_spec, leb_spec, !is_nan_SF. unfold SFltb, SFleb.
  rewrite (SFcompare_swap (Prim2SF a)).
  destruct (SFcompare (Prim2SF a) (Prim2SF b)) as [[]|] eqn:Hc; simpl.
  - auto.
  - discriminate.
  - auto.
  - intros _. right.
    destruct (Prim2SF a) as [[]|[]| |[] m e], (Prim2SF b) as [[]|[]| |[] m' e'];
      simpl in Hc; try discriminate; auto.
Qed.


Lemma add_0_r (x : float) :
  is_nan x = false -> (x =? 0)%float = false -> (x + 0)%float = x.
Proof.
  intros Hn Hz. apply Prim2SF_inj. rewrite add_spec. apply not_nan_SF in Hn.
  rewrite FloatAxioms.eqb_spec in Hz. change (Prim2SF 0) with (S754_zero false) in *.
  unfold SF64add, SFadd. by destruct (Prim2SF x) as [s|s| |s m e].
Qed.


(** A REAL column keeps NULL apart from the numbers. *)
Lemma real_affinity_nan (x : float) : is_nan (real_affinity x) = is_nan x.
Proof.
  unfold real_affinity. destruct (x =? 0)%float eqn:Hz; [|done].
  destruct (is_nan x) eqn:Hn; [|done].
  apply is_nan_SF in Hn. rewrite FloatAxioms.eqb_spec, Hn in Hz. discriminate.
Qed.


End Binary64.

(** ** Journal entries: creation *)

Section JournalEntryCreate.
Import JournalEntryModel.

Lemma entry_create_refuses (env : Env) (data : EntryData) (st : State) :
  out_of_balance (lines data) = true ->
  create env data st = (Err (Error unbalanced), st).
Proof.
  unfold out_of_balance, create, transaction. cbn zeta. intros ->.
  unfold throw. by destruct st.
Qed.

Lemma stored_line_shift (env : Env) (entryId : string) (u : nat) (ls : list LineData) :
  imap (stored_line env entryId u ∘ S) ls = imap (stored_line env entryId (S u)) ls.
Proof.
  apply imap_ext. intros i x _. unfold compose, stored_line. do 2 f_equal. lia.
Qed.

(** The loop of [create] over the lines, when it returns: one row per
    line was appended, and every line names an account that exists. *)
Lemma entry_lines_loop (env : Env) (entryId : string) (ls : list LineData)
    (d : DB) (u : nat) (s' : State) :
  for_each ls (fun line =>
     (let! lineId := uuidv4 env in
      insert_journal_entry_line
        {| jel_id := lineId; journal_entry_id := entryId;
           account_id := accountId line;
           debit := or0 (ld_debit line);
           credit := or0 (ld_credit line);
           jel_description := ld_description line |})%js)
    {| db := d; uuid_calls := u |} = (Ok tt, s') ->
  s' = {| db := with_journal_entry_lines
                  (journal_entry_lines d ++ imap (stored_line env entryId u) ls) d;
          uuid_calls := u + length ls |} /\
  Forall (fun line => accountId line ∈ map acc_id (accounts d)) ls.
Proof.
  revert d u. induction ls as [|line ls IH]; intros d u Hrun.
  - injection Hrun as <-. cbn [imap length]. rewrite app_nil_r, Nat.add_0_r.
    split; [by destruct d | constructor].
  - cbn [for_each] in Hrun.
    apply bind_Ok in Hrun as ([] & s1 & Hline & Hrun).
    apply bind_Ok in Hline as (lineId & s0 & Hid & Hline).
    unfold uuidv4 in Hid. cbn [db uuid_calls] in Hid. injection Hid as <- <-.
    unfold insert_journal_entry_line in Hline.
    apply insert_Ok in Hline as [Hc ->]. cbn [db uuid_calls] in *.
    apply violation_None in Hc as (_ & _ & _ & Hfk).
    apply andb_true_iff in Hfk as [_ Hacc]. apply bool_decide_eq_true in Hacc.
    cbn [account_id] in Hacc.
    destruct (IH _ _ Hrun) as [-> Hall]. clear IH Hrun. split.
    + cbn [imap length]. rewrite stored_line_shift.
      cbn [journal_entry_lines with_journal_entry_lines].
      rewrite <- app_assoc. cbn [app].
      unfold stored_line at 2. rewrite Nat.add_0_r.
      f_equal. lia.
    + constructor; [exact Hacc | exact Hall].
Qed.

(** What the loop throws is an [SqliteError]. *)
Lemma entry_lines_loop_Err (env : Env) (entryId : string) (ls : list LineData)
    (s s' : State) (e : Exn) :
  for_each ls (fun line =>
     (let! lineId := uuidv4 env in
      insert_journal_entry_line
        {| jel_id := lineId; journal_entry_id := entryId;
           account_id := accountId line;
           debit := or0 (ld_debit line);
           credit := or0 (ld_credit line);
           jel_description := ld_description line |})%js) s = (Err e, s') ->
  exists c, e = SqliteError c.
Proof.
  apply (for_each_Err (fun e => exists c, e = SqliteError c)).
  intros line s0 e0 s0' Hrun.
  apply bind_Err in Hrun as [Hrun | (lineId & s1 & _ & Hrun)]; [discriminate|].
  unfold insert_journal_entry_line in Hrun.
  apply insert_Err in Hrun as (_ & c & _ & ->). eauto.
Qed.

(** A [create] that returns passed the balance check and the constraints
    of its INSERTs, and ends in [entry_created_state]. *)
Lemma entry_create_Ok (env : Env) (data : EntryData) (st st' : State) (r : option Entry) :
  create env data st = (Ok r, st') ->
  out_of_balance (lines data) = false /\
  st' = entry_created_state env data st /\
  r = findById (uuid env (uuid_calls st)) (db st') /\
  (uuid env (uuid_calls st) ∉ map je_id (journal_entries (db st))) /\
  (generateEntryNumber env (db st) ∉ map entry_number (journal_entries (db st))) /\
  userId data ∈ map user_id (users (db st)) /\
  Forall (fun line => accountId line ∈ map acc_id (accounts (db st))) (lines data).
Proof.
  intros Hrun. apply transaction_Ok in Hrun. cbn zeta in Hrun.
  fold (out_of_balance (lines data)) in Hrun.
  destruct (out_of_balance (lines data)); [discriminate|]. split; [done|].
  apply bind_Ok in Hrun as (entryId & s1 & Hid & Hrun).
  unfold uuidv4 in Hid. injection Hid as <- <-.
  apply bind_Ok in Hrun as (entryNumber & s2 & Hnum & Hrun).
  unfold query, gets in Hnum. cbn [db] in Hnum. injection Hnum as <- <-.
  apply bind_Ok in Hrun as ([] & s3 & Hins & Hrun).
  unfold insert_journal_entry in Hins.
  apply insert_Ok in Hins as [Hc ->]. cbn [db uuid_calls] in *.
  apply violation_None in Hc as (_ & _ & Huniq & Hfk).
  apply andb_true_iff in Huniq as [Hpk Huniq].
  apply bool_decide_eq_true in Hpk, Huniq, Hfk. cbn [je_id entry_number je_user_id] in *.
  apply bind_Ok in Hrun as ([] & s4 & Hloop & Hrun).
  apply entry_lines_loop in Hloop as [-> Hall].
  unfold query, gets in Hrun. cbn [db] in Hrun. injection Hrun as <- <-.
  split; [reflexivity|]. split; [reflexivity|]. by repeat split.
Qed.

(** What [create] throws once the balance check has passed is an
    [SqliteError]. *)
Lemma entry_create_Err (env : Env) (data : EntryData) (st st' : State) (e : Exn) :
  create env data st = (Err e, st') ->
  (out_of_balance (lines data) = true /\ e = Error unbalanced) \/
  (out_of_balance (lines data) = false /\ exists c, e = SqliteError c).
Proof.
  intros Hrun. apply transaction_Err_body in Hrun as [s1 Hrun]. cbn zeta in Hrun.
  fold (out_of_balance (lines data)) in Hrun.
  destruct (out_of_balance (lines data)).
  - left. unfold throw in Hrun. by injection Hrun as <- _.
  - right. split; [done|].
    apply bind_Err in Hrun as [Hrun | (entryId & s2 & _ & Hrun)]; [discriminate|].
    apply bind_Err in Hrun as [Hrun | (entryNumber & s3 & _ & Hrun)]; [discriminate|].
    apply bind_Err in Hrun as [Hrun | ([] & s4 & _ & Hrun)].
    { unfold insert_journal_entry in Hrun.
      apply insert_Err in Hrun as (_ & c & _ & ->). eauto. }
    apply bind_Err in Hrun as [Hrun | ([] & s5 & _ & Hrun)]; [|discriminate].
    by apply entry_lines_loop_Err in Hrun.
Qed.

(** C3 (as amended).  [create] throws "Debits and credits must be equal"
    exactly when the binary64 number [Math.abs(totalDebit - totalCredit)]
    is greater than 0.01, where [totalDebit] and [totalCredit] are the
    binary64 sums the code accumulates from 0 in the order of the lines, a
    missing, zero or NaN field counting as 0.  Whenever [create] throws,
    this error or the [SqliteError] of a failed constraint, the database,
    hence the journal-entry and journal-entry-line tables, is what it was
    before the call. *)
Theorem create_throws_unbalanced (env : Env) (data : EntryData) (st : State) :
  (fst (create env data st) = Err (Error unbalanced) <->
   (0.01 <? abs (fold_left (fun sum line => sum + or0 (ld_debit line)) (lines data) 0
                 - fold_left (fun sum line => sum + or0 (ld_credit line)) (lines data) 0))%float
   = true) /\
  (forall e, fst (create env data st) = Err e ->
             db (snd (create env data st)) = db st /\
             journal_entries (db (snd (create env data st))) = journal_entries (db st) /\
             journal_entry_lines (db (snd (create env data st)))
               = journal_entry_lines (db st)).
Proof.
  change (0.01 <? abs (fold_left (fun sum line => sum + or0 (ld_debit line)) (lines data) 0
                 - fold_left (fun sum line => sum + or0 (ld_credit line)) (lines data) 0))%float
    with (out_of_balance (lines data)).
  split.
  - split.
    + intros Hthrow. destruct (create env data st) as [[r|e] st'] eqn:Hrun;
        cbn [fst] in Hthrow; [discriminate|]. injection Hthrow as ->.
      apply entry_create_Err in Hrun as [[Hb _] | [_ [c Hc]]]; [done | discriminate].
    + intros Hb. by rewrite entry_create_refuses.
  - intros e He. destruct (create env data st) as [[r|e'] st'] eqn:Hrun;
      cbn [fst snd] in *; [discriminate|].
    apply transaction_Err in Hrun. by rewrite Hrun.
Qed.

(** C3 fails as stated: the debits of the sample entry add up to one unit
    more than its credits, and [create] stores it. *)
Lemma create_accepts_absorbed_unit :
  (exists r, fst (create Sample.env Sample.absorbed_entry Sample.state) = Ok r) /\
  (sum_debits (lines Sample.absorbed_entry)
   - sum_credits (lines Sample.absorbed_entry) == 1)%Q.
Proof.
  split.
  - vm_compute. eauto.
  - vm_compute. reflexivity.
Qed.

(** C1 (as amended).  For every input that [create] accepts, the binary64
    number [totalDebit - totalCredit] the code computes from its binary64
    sums of the line debits and of the line credits is at most 0.01 in
    absolute value, or is NaN (both sums infinite); the two sums need not
    be equal. *)
Theorem create_accepts_within_tolerance (env : Env) (data : EntryData) (st : State)
    (r : option Entry) :
  fst (create env data st) = Ok r ->
  let difference :=
    (fold_left (fun sum line => sum + or0 (ld_debit line)) (lines data) 0
     - fold_left (fun sum line => sum + or0 (ld_credit line)) (lines data) 0)%float in
  (abs difference <=? 0.01)%float = true \/ is_nan difference = true.
Proof.
  intros Hok. destruct (create env data st) as [[r'|e] st'] eqn:Hrun;
    cbn [fst] in Hok; [|discriminate].
  apply entry_create_Ok in Hrun as [Hb _]. unfold out_of_balance in Hb.
  apply ltb_false in Hb as [Hle | [Hn | Hn]]; [by left | discriminate | right].
  apply is_nan_SF in Hn. rewrite abs_spec in Hn. apply is_nan_SF.
  by destruct (Prim2SF _).
Qed.

Lemma create_accepts_within_tolerance_witness :
  fst (create Sample.env Sample.unequal_entry Sample.state)
    = Ok (findById "uuid-0"
            (db (snd (create Sample.env Sample.unequal_entry Sample.state)))) /\
  let difference :=
    (fold_left (fun sum line => sum + or0 (ld_debit line))
               (lines Sample.unequal_entry) 0
     - fold_left (fun sum line => sum + or0 (ld_credit line))
                 (lines Sample.unequal_entry) 0)%float in
  (abs difference <=? 0.01)%float = true \/ is_nan difference = true.
Proof.
  assert (Hok : fst (create Sample.env Sample.unequal_entry Sample.state)
                = Ok (findById "uuid-0"
                        (db (snd (create Sample.env Sample.unequal_entry
                                         Sample.state)))))
    by (vm_compute; reflexivity).
  split; [exact Hok|].
  exact (create_accepts_within_tolerance Sample.env Sample.unequal_entry
           Sample.state _ Hok).
Defined.

(** C1 fails as stated: [create] accepts an entry with debits 1 and
    credits 1.005. *)
Lemma create_accepts_unequal_totals :
  (exists r, fst (create Sample.env Sample.unequal_entry Sample.state) = Ok r) /\
  ~ (sum_debits (lines Sample.unequal_entry)
     == sum_credits (lines Sample.unequal_entry))%Q.
Proof.
  split.
  - vm_compute. eauto.
  - vm_compute. discriminate.
Qed.

(** [create] on the sample entries: the lopsided one and the one of 1.01
    against 1.00 are rejected, an entry on an account without a row fails
    on the foreign key, and the database keeps its rows; the one that is
    off by half a cent is stored with its two lines. *)
Example create_rejects_lopsided :
  create Sample.env Sample.lopsided_entry Sample.state
  = (Err (Error unbalanced), Sample.state) /\
  create Sample.env Sample.cent_entry Sample.state
  = (Err (Error unbalanced), Sample.state) /\
  fst (create Sample.env Sample.ghost_entry Sample.state)
  = Err (SqliteError FOREIGN_KEY) /\
  db (snd (create Sample.env Sample.ghost_entry Sample.state)) = Sample.database.
Proof. vm_compute. done. Qed.

Example create_stores_unequal :
  let st' := snd (create Sample.env Sample.unequal_entry Sample.state) in
  map entry_number (journal_entries (db st')) = ["JE-2026-00001"; "JE-2026-00002"] /\
  map jel_id (journal_entry_lines (db st')) = ["jel-1"; "jel-2"; "uuid-1"; "uuid-2"] /\
  uuid_calls st' = 3%nat.
Proof. vm_compute. done. Qed.

End JournalEntryCreate.

(** ** Journal entries: posting *)

Section JournalEntryPost.
Import JournalEntryModel.

Lemma find_map_stable {A} (p : A -> bool) (f : A -> A) (l : list A) :
  (forall a, p (f a) = p a) ->
  List.find p (map f l) = f <$> List.find p l.
Proof.
  intros Hp. induction l as [|a l IH]; simpl; [done|].
  rewrite Hp. by destruct (p a).
Qed.

Lemma select_account_type_updateBalance (x : float) (k k' : string) (d : DB) :
  select_account_type k (updateBalance x k' d) = select_account_type k d.
Proof.
  unfold select_account_type, updateBalance; simpl.
  rewrite find_map_stable.
  - destruct (List.find _ _) as [a|]; simpl; [|done]. by destruct (bool_decide _).
  - intros a. by destruct (bool_decide (acc_id a = k')).
Qed.

Lemma select_lines_updateBalance (x : float) (id k : string) (d : DB) :
  select_lines id (updateBalance x k d) = select_lines id d.
Proof.
  unfold select_lines, updateBalance; simpl.
  induction (filter _ (journal_entry_lines d)) as [|jel l IH]; simpl; [done|].
  f_equal; [|done]. clear IH.
  induction (accounts d) as [|a accs IH]; simpl; [done|].
  rewrite !filter_cons.
  destruct (decide (account_id jel = acc_id a)) as [Heq|Hne].
  - rewrite decide_True by (by case_bool_decide).
    simpl. f_equal; [|done]. by case_bool_decide.
  - rewrite decide_False by (by case_bool_decide). done.
Qed.

Lemma findById_updateBalance (x : float) (id k : string) (d : DB) :
  findById id (updateBalance x k d) = findById id d.
Proof.
  unfold findById. rewrite select_lines_updateBalance. done.
Qed.

Lemma findById_apply_lines (id : string) (ls : list EntryLine) (d : DB) :
  findById id (apply_lines ls d) = findById id d.
Proof.
  unfold apply_lines. revert d. induction ls as [|el ls IH]; intros d; simpl; [done|].
  rewrite IH. apply findById_updateBalance.
Qed.

(** Every line [findById] returns names an account that exists: the join
    drops the others. *)
Lemma select_lines_account (id : string) (d : DB) (el : EntryLine) :
  el ∈ select_lines id d ->
  is_Some (select_account_type (account_id (line_row el)) d).
Proof.
  unfold select_lines. rewrite list_elem_of_In, in_flat_map.
  intros (jel & _ & Hel). apply in_map_iff in Hel as (a & <- & Ha); simpl.
  apply list_elem_of_In, list_elem_of_filter in Ha as [Hid Ha].
  unfold select_account_type.
  destruct (List.find _ (accounts d)) as [a'|] eqn:Hfind; [by eexists|].
  apply list_elem_of_In in Ha.
  eapply find_none in Hfind; [|exact Ha]. simpl in Hfind.
  by case_bool_decide.
Qed.

Lemma post_line_run (el : EntryLine) (d : DB) (u : nat) :
  is_Some (select_account_type (account_id (line_row el)) d) ->
  post_line el {| db := d; uuid_calls := u |}
  = (Ok tt, {| db := apply_line d el; uuid_calls := u |}).
Proof.
  intros [t Ht]. unfold post_line, apply_line, line_type, bind, query, gets.
  cbn [db uuid_calls]. rewrite Ht. reflexivity.
Qed.

(** The loop of [post] over lines whose accounts exist applies every line
    and does not throw. *)
Lemma post_lines_run (ls : list EntryLine) (d : DB) (u : nat) :
  (forall el, el ∈ ls -> is_Some (select_account_type (account_id (line_row el)) d)) ->
  for_each ls post_line {| db := d; uuid_calls := u |}
  = (Ok tt, {| db := apply_lines ls d; uuid_calls := u |}).
Proof.
  revert d. induction ls as [|el ls IH]; intros d Hex; [done|].
  cbn [for_each]. unfold bind at 1.
  rewrite post_line_run by (apply Hex; by left).
  cbn [apply_lines fold_left]. apply IH.
  intros el' Hel'. unfold apply_line.
  rewrite select_account_type_updateBalance. apply Hex. by right.
Qed.

Lemma findById_mark_posted (id : string) (d : DB) (entry : Entry) :
  findById id d = Some entry ->
  exists entry', findById id (mark_posted id d) = Some entry' /\
                 is_posted (entry_row entry') = 1%Z /\
                 entry_lines entry' = entry_lines entry.
Proof.
  unfold findById, mark_posted; simpl.
  rewrite find_map_stable; last first.
  { intros e. destruct (decide (je_id e = id)) as [H|H].
    - rewrite (bool_decide_true _ H). simpl. by rewrite bool_decide_true.
    - by rewrite (bool_decide_false _ H), bool_decide_false. }
  destruct (List.find _ (journal_entries d)) as [e|] eqn:Hfind; [|done].
  intros [= <-]. simpl.
  apply find_some in Hfind as [_ He]. rewrite He.
  eexists. split; [done|]. simpl. done.
Qed.

(** The three outcomes of [post]. *)
Lemma post_cases (id : string) (st : State) :
  match findById id (db st) with
  | None => post id st = (Err (Error not_found), st)
  | Some entry =>
      if bool_decide (is_posted (entry_row entry) <> 0%Z)
      then post id st = (Err (Error already_posted), st)
      else exists entry',
          post id st =
            (Ok (Some entry'),
             {| db := mark_posted id (apply_lines (entry_lines entry) (db st));
                uuid_calls := uuid_calls st |}) /\
          is_posted (entry_row entry') = 1%Z /\
          entry_lines entry' = entry_lines entry /\
          findById id (mark_posted id (apply_lines (entry_lines entry) (db st)))
            = Some entry'
  end.
Proof.
  destruct st as [d u]. cbn [db uuid_calls].
  destruct (findById id d) as [entry|] eqn:Hfind.
  - case_bool_decide as Hposted.
    + unfold post, transaction, bind, query, gets. cbn [db].
      rewrite Hfind, bool_decide_true by done. reflexivity.
    + unfold post, transaction. unfold bind at 1. unfold query at 1, gets at 1.
      cbn [db]. rewrite Hfind, bool_decide_false by congruence.
      unfold bind at 1. rewrite post_lines_run; last first.
      { intros el Hel. apply select_lines_account with (id := id).
        unfold findById in Hfind. destruct (List.find _ _); [|done].
        by injection Hfind as <-. }
      unfold bind, exec, modify, query, gets. cbn [db uuid_calls].
      destruct (findById_mark_posted id (apply_lines (entry_lines entry) d) entry)
        as (entry' & Hfind' & Hp & Hl).
      { by rewrite findById_apply_lines. }
      rewrite Hfind'. eauto.
  - unfold post, transaction, bind, query, gets. cbn [db].
    rewrite Hfind. reflexivity.
Qed.

(** *** What the balance updates leave *)

Lemma line_amount_posted (t : AccountType) (l : JournalLineRow) :
  line_amount t l = posted_amount t l.
Proof. by destruct t. Qed.

Lemma line_type_type_of (d : DB) (el : EntryLine) :
  line_type d el = type_of (accounts d) (account_id (line_row el)).
Proof.
  unfold line_type, type_of, select_account_type.
  by destruct (List.find _ (accounts d)).
Qed.

Lemma type_of_apply_line (d : DB) (el : EntryLine) (id : string) :
  type_of (accounts (apply_line d el)) id = type_of (accounts d) id.
Proof.
  unfold type_of, apply_line, updateBalance. cbn [accounts with_accounts].
  rewrite find_map_stable.
  - destruct (List.find _ (accounts d)) as [a|]; simpl; [|done].
    by destruct (bool_decide _).
  - intros a. by destruct (bool_decide (acc_id a = _)).
Qed.

Lemma apply_lines_accounts_from (accs0 : list Account) (ls : list EntryLine) (d : DB) :
  (forall id, type_of (accounts d) id = type_of accs0 id) ->
  accounts (apply_lines ls d)
  = map (fun a => set_current_balance (posted_balance accs0 ls a) a) (accounts d).
Proof.
  unfold apply_lines. revert d. induction ls as [|el ls IH]; intros d Hty.
  - simpl. rewrite <- (map_id (accounts d)) at 1.
    apply map_ext. intros a. by destruct a.
  - cbn [fold_left]. rewrite IH by (intros id; by rewrite type_of_apply_line).
    unfold apply_line, updateBalance. cbn [accounts with_accounts].
    rewrite map_map. apply map_ext. intros a.
    rewrite line_amount_posted, line_type_type_of, Hty.
    unfold posted_balance. cbn [fold_left]. cbn zeta.
    destruct (decide (acc_id a = account_id (line_row el))) as [Heq|Hne].
    + rewrite (bool_decide_true _ Heq), bool_decide_true by done. reflexivity.
    + rewrite (bool_decide_false _ Hne), bool_decide_false by done. reflexivity.
Qed.

(** The accounts after the loop of [post]: every row keeps its place and
    its other columns, and its balance received the amounts of the lines
    that name its id, in the order of the lines. *)
Lemma apply_lines_accounts (ls : list EntryLine) (d : DB) :
  accounts (apply_lines ls d)
  = map (fun a => set_current_balance (posted_balance (accounts d) ls a) a) (accounts d).
Proof. by apply apply_lines_accounts_from. Qed.




(** *** Under the primary key of [accounts] *)

Lemma find_account_pk (accs : list Account) (a : Account) :
  NoDup (map acc_id accs) -> a ∈ accs ->
  List.find (fun a' => bool_decide (acc_id a' = acc_id a)) accs = Some a.
Proof.
  induction accs as [|a0 accs IH]; simpl; intros Hnd Hin.
  - by apply elem_of_nil in Hin.
  - apply NoDup_cons in Hnd as [Hnotin Hnd].
    apply elem_of_cons in Hin as [->|Hin].
    + by rewrite bool_decide_true.
    + rewrite bool_decide_false; [by apply IH|].
      intros Heq. apply Hnotin. rewrite Heq.
      apply list_elem_of_fmap. by exists a.
Qed.

(** The balance an account row ends with, in terms of its own type and of
    the lines that name it. *)
Lemma posted_balance_pk (accs : list Account) (a : Account) (ls : list EntryLine) :
  NoDup (map acc_id accs) -> a ∈ accs ->
  posted_balance accs ls a
  = fold_left (fun b l => real_affinity (b + posted_amount (account_type a) l)%float)
              (lines_naming a ls) (current_balance a).
Proof.
  intros Hpk Hin. unfold posted_balance, lines_naming.
  generalize (current_balance a) as b.
  induction ls as [|el ls IH]; intros b; cbn [fold_left]; [done|].
  cbn zeta. rewrite filter_cons.
  destruct (decide (account_id (line_row el) = acc_id a)) as [Heq|Hne].
  - rewrite (bool_decide_true _ Heq). cbn [map fold_left]. rewrite IH.
    unfold type_of. by rewrite Heq, find_account_pk.
  - rewrite (bool_decide_false _ Hne). apply IH.
Qed.

(** C2 (as amended).  Let the accounts table satisfy its primary key and
    let [post] run on an unposted entry.  Then [post] returns, and every
    account row ends with the balance obtained from its old balance by
    adding, for each line of the entry that names it and in the order of
    the lines, debit minus credit when the account is an asset or expense
    account and credit minus debit when it is a liability, equity or income
    account; every subtraction and addition is the rounded binary64 one,
    each sum is stored in the REAL column [current_balance] (which keeps
    it, but for -0.0, stored as 0.0), and the other columns of the row are
    as before. *)
Theorem post_adds_line_amounts (id : string) (st : State) (entry : Entry) :
  accounts_pk (db st) ->
  findById id (db st) = Some entry ->
  is_posted (entry_row entry) = 0%Z ->
  exists r st',
    post id st = (Ok r, st') /\
    Forall2
      (fun a a' =>
         a' = set_current_balance
                (fold_left
                   (fun b l =>
                      real_affinity
                        (b + match account_type a with
                             | asset | expense =>
                                 to_number (debit l) - to_number (credit l)
                             | liability | equity | income =>
                                 to_number (credit l) - to_number (debit l)
                             end)%float)
                   (lines_naming a (entry_lines entry)) (current_balance a))
                a)
      (accounts (db st)) (accounts (db st')).
Proof.
  intros Hpk Hfind Hunposted.
  pose proof (post_cases id st) as Hcases. rewrite Hfind in Hcases.
  rewrite bool_decide_false in Hcases by (rewrite Hunposted; by intros []).
  destruct Hcases as (entry' & Hpost & _).
  eexists _, _. split; [exact Hpost|]. cbn [db].
  unfold mark_posted; cbn [accounts with_journal_entries].
  rewrite apply_lines_accounts.
  apply Forall2_fmap_r, Forall_Forall2_diag, Forall_forall.
  intros a Hin. unfold compose. cbn beta.
  rewrite posted_balance_pk by done. reflexivity.
Qed.

Lemma post_adds_line_amounts_witness :
  accounts_pk Sample.database /\
  exists entry,
    findById "je-1" Sample.database = Some entry /\
    is_posted (entry_row entry) = 0%Z /\
    exists r st',
      post "je-1" Sample.state = (Ok r, st') /\
      map current_balance (accounts (db st')) = [290; 120; 0; 170; 0]%float.
Proof.
  assert (Hpk : accounts_pk Sample.database).
  { unfold accounts_pk. apply (bool_decide_unpack _). vm_compute. exact I. }
  split; [exact Hpk|].
  destruct (findById "je-1" Sample.database) as [entry|] eqn:Hfind;
    [|vm_compute in Hfind; discriminate Hfind].
  assert (Hentry : Some entry = findById "je-1" Sample.database) by done.
  vm_compute in Hentry. injection Hentry as ->.
  eexists. split; [reflexivity|]. split; [reflexivity|].
  edestruct (post_adds_line_amounts "je-1" Sample.state) as (r & st' & Hpost & Hacc).
  - exact Hpk.
  - exact Hfind.
  - reflexivity.
  - exists r, st'. split; [exact Hpost|].
    assert (Hst : st' = snd (post "je-1" Sample.state)) by (by rewrite Hpost).
    rewrite Hst. vm_compute. reflexivity.
Defined.

(** C2 fails as stated: the sample entry debits cash with 0.2 and credits
    sales with 0.2, on balances of 0.1 and 0.7; after [post] the asset side
    has moved by more than 0.2 and the income side by less. *)
Lemma post_moves_sides_unequally :
  (exists r, fst (post "je-1" Sample.small_change) = Ok r) /\
  (sumQ (map (fun l => exact (debit l)) (journal_entry_lines (db Sample.small_change)))
   == sumQ (map (fun l => exact (credit l)) (journal_entry_lines (db Sample.small_change))))%Q /\
  ~ (total_balance debit_normal (accounts (db (snd (post "je-1" Sample.small_change))))
     - total_balance debit_normal (accounts (db Sample.small_change))
     == total_balance credit_normal (accounts (db (snd (post "je-1" Sample.small_change))))
        - total_balance credit_normal (accounts (db Sample.small_change)))%Q.
Proof.
  split; [|split].
  - vm_compute. eauto.
  - vm_compute. reflexivity.
  - vm_compute. discriminate.
Qed.

(** Posting the sample entry moves 40 into cash and 40 into sales; posting
    it again is refused.  On the small balances the sums round: cash ends
    at 0.30000000000000004 and sales at 0.8999999999999999. *)
Example post_sample :
  let st' := snd (post "je-1" Sample.state) in
  map current_balance (accounts (db st')) = [290; 120; 0; 170; 0]%float /\
  map is_posted (journal_entries (db st')) = [1%Z] /\
  post "je-1" st' = (Err (Error already_posted), st') /\
  map current_balance (accounts (db (snd (post "je-1" Sample.small_change))))
  = [0.8999999999999999; 0.30000000000000004]%float.
Proof. vm_compute. done. Qed.

End JournalEntryPost.

(** ** Trial balance *)

Section TrialBalance.
Import FinancialReports.

Local Instance by_code_trans : Transitive by_code.
Proof. intros r1 r2 r3. unfold by_code. apply transitivity. Qed.

Local Instance by_code_total : Total by_code.
Proof. intros r1 r2. unfold by_code. apply total, _. Qed.

(** A balance passes [!= 0] when it is a number, not NULL, and not zero. *)
Lemma sql_ne_0 (x : float) :
  sql_ne x 0 = true <-> is_nan x = false /\ (x =? 0)%float = false.
Proof.
  unfold sql_ne. change (is_nan 0) with false.
  rewrite !andb_true_iff, !negb_true_iff. tauto.
Qed.

Lemma trial_balance_where_true (a : Account) :
  trial_balance_where a = true <->
  (is_nan (current_balance a) = false /\ (current_balance a =? 0)%float = false) /\
  is_active a = 1%Z.
Proof.
  unfold trial_balance_where.
  by rewrite andb_true_iff, bool_decide_eq_true, sql_ne_0.
Qed.

Lemma elem_of_getTrialBalance (asOfDate : string) (d : DB) (row : TrialBalanceRow) :
  row ∈ getTrialBalance asOfDate d <->
  exists a, a ∈ accounts d /\ trial_balance_where a = true /\ row = trial_balance_row a.
Proof.
  unfold getTrialBalance. rewrite merge_sort_Permutation.
  rewrite list_elem_of_In, in_map_iff. split.
  - intros (a & <- & Ha). apply filter_In in Ha as [Ha Hw].
    exists a. by rewrite list_elem_of_In.
  - intros (a & Ha & Hw & ->). exists a. split; [done|].
    apply filter_In. by rewrite <- list_elem_of_In.
Qed.

(** C4.  Every row of the trial balance comes from an account whose
    balance is not zero (and not NULL) and whose [is_active] is 1, so an
    account with a zero balance or with [is_active = 0] contributes none,
    and every such account has its row.  The row of an asset or expense
    account shows the account's balance as [debit_balance] and 0 as
    [credit_balance], the row of a liability, equity or income account
    shows it as [credit_balance] and 0 as [debit_balance].  The rows are in
    ascending order of account code. *)
Theorem getTrialBalance_spec (asOfDate : string) (d : DB) :
  Forall
    (fun row =>
       exists a,
         a ∈ accounts d /\
         (is_nan (current_balance a) = false /\ (current_balance a =? 0)%float = false) /\
         is_active a = 1%Z /\
         code row = acc_code a /\ name row = acc_name a /\
         tb_account_type row = account_type a /\
         match account_type a with
         | asset | expense =>
             debit_balance row = current_balance a /\ credit_balance row = 0%float
         | liability | equity | income =>
             credit_balance row = current_balance a /\ debit_balance row = 0%float
         end)
    (getTrialBalance asOfDate d) /\
  (forall a, a ∈ accounts d ->
             is_nan (current_balance a) = false /\ (current_balance a =? 0)%float = false ->
             is_active a = 1%Z ->
             trial_balance_row a ∈ getTrialBalance asOfDate d) /\
  StronglySorted (fun r1 r2 => String.le (code r1) (code r2))
                 (getTrialBalance asOfDate d).
Proof.
  split; [|split].
  - apply Forall_forall. intros row Hrow.
    apply elem_of_getTrialBalance in Hrow as (a & Ha & Hw & ->).
    apply trial_balance_where_true in Hw as [Hbal Hact].
    exists a. do 6 (split; [done|]).
    unfold trial_balance_row; simpl. by destruct (account_type a).
  - intros a Ha Hbal Hact. apply elem_of_getTrialBalance.
    exists a. by rewrite trial_balance_where_true.
  - apply (StronglySorted_merge_sort by_code).
Qed.

(** The sample trial balance: the two accounts with balance 0 are left out. *)
Example getTrialBalance_sample :
  map (fun r => (code r, debit_balance r, credit_balance r))
      (getTrialBalance "2026-03-01" Sample.database)
  = [ ("1110", 80%float, 0%float); ("1200", 170%float, 0%float);
      ("4100", 0%float, 250%float) ].
Proof. vm_compute. reflexivity. Qed.

End TrialBalance.

(** ** Invoices: recording a payment *)

Section InvoicePayment.
Import InvoiceModel.







(** A [recordPayment] that returns passed the test, wrote the invoice, the
    customer and the payment, and created the journal entry. *)
Lemma recordPayment_Ok (env : Env) (invoiceId : string) (paymentData : PaymentData)
    (st st' : State) (invoice : Invoice) (r : option Invoice) :
  findById invoiceId (db st) = Some invoice ->
  recordPayment env invoiceId paymentData st = (Ok r, st') ->
  let inv := invoice_row invoice in
  let st1 := payment_recorded_state env invoiceId paymentData inv st in
  (to_number (inv_total_amount inv) - to_number (inv_amount_paid inv)
   <? amount paymentData)%float = false /\
  is_nan (amount paymentData) = false /\
  st' = entry_created_state env
          (payment_entry env paymentData inv (uuid env (uuid_calls st))) st1 /\
  r = findById invoiceId (db st').
Proof.
  intros Hfind Hrun inv st1. apply transaction_Ok in Hrun.
  apply bind_Ok in Hrun as (invoice0 & s0 & Hq & Hrun).
  unfold query, gets in Hq. injection Hq as <- <-. rewrite Hfind in Hrun.
  cbn zeta in Hrun. fold inv in Hrun.
  destruct (_ <? _)%float; [discriminate|]. split; [done|].
  apply bind_Ok in Hrun as ([] & s1 & Hupd & Hrun).
  unfold exec, modify in Hupd. injection Hupd as <-.
  apply bind_Ok in Hrun as ([] & s2 & Hdec & Hrun).
  unfold exec, modify in Hdec. injection Hdec as <-. cbn [db uuid_calls] in Hrun.
  apply bind_Ok in Hrun as (paymentId & s3 & Hid & Hrun).
  unfold uuidv4 in Hid. injection Hid as <- <-. cbn [db uuid_calls] in Hrun.
  apply bind_Ok in Hrun as (paymentNumber & s4 & Hnum & Hrun).
  unfold query, gets in Hnum. injection Hnum as <- <-. cbn [db uuid_calls] in Hrun.
  apply bind_Ok in Hrun as ([] & s5 & Hins & Hrun).
  unfold insert_payment in Hins. apply insert_Ok in Hins as [Hc ->].
  cbn [db uuid_calls] in Hc, Hrun.
  apply violation_None in Hc as (Hnn & _). cbn [pay_amount] in Hnn.
  apply negb_true_iff in Hnn. rewrite real_affinity_nan in Hnn. split; [exact Hnn|].
  apply bind_Ok in Hrun as (entry & s6 & Hcreate & Hrun).
  apply entry_create_Ok in Hcreate as (_ & -> & _).
  unfold query, gets in Hrun. injection Hrun as <- <-. done.
Qed.





(** A payment of 70 on the sample invoice of 170 leaves it partial; a
    payment of 171 is refused; and on an invoice of 0.3 with 0.1 paid a
    payment of 0.2 is refused, the remaining balance being
    0.19999999999999998. *)
Example recordPayment_sample :
  let '(r, st') := recordPayment Sample.env "inv-1" Sample.payment Sample.state in
  match r with
  | Ok (Some invoice') => inv_status (invoice_row invoice') = st_partial
  | _ => False
  end /\
  map cust_current_balance (customers (db st')) = [100%float] /\
  map (fun l => (account_id l, debit l, credit l))
      (drop 2 (journal_entry_lines (db st')))
    = [ ("acc-cash", 70%float, 0%float); ("acc-ar", 0%float, 70%float) ].
Proof. vm_compute. done. Qed.

Example recordPayment_refused :
  recordPayment Sample.env "inv-1"
    {| amount := 171; paymentDate := "2026-03-01"; paymentMethod := "card";
       referenceNumber := None; notes := None; userId := "user-1" |}
    Sample.state
  = (Err (Error exceeds), Sample.state) /\
  fst (recordPayment Sample.env "inv-1"
         {| amount := 0.2; paymentDate := "2026-03-01"; paymentMethod := "card";
            referenceNumber := None; notes := None; userId := "user-1" |}
         {| db := with_invoices
                    [ {| inv_id := "inv-1"; invoice_number := "INV-2026-00001";
                         customer_id := "cust-1"; inv_total_amount := 0.3;
                         inv_amount_paid := 0.1; inv_status := st_partial;
                         inv_updated_at := "2026-02-20 12:00:00" |} ]
                    Sample.database;
            uuid_calls := 0 |})
  = Err (Error exceeds).
Proof. vm_compute. done. Qed.

End InvoicePayment.

(** ** Sales *)

Section Sales.
Import SalesModel.

Lemma updateStock_preserves (J : DB -> Prop) (env : Env) (id : string)
    (q : float) (ty us : string) (n : option string) :
  (forall d v, J d -> J (with_products v d)) ->
  (forall d v, J d -> J (with_inventory_transactions v d)) ->
  preserves J (ProductModel.updateStock env id q ty us n).
Proof.
  intros Hp Hi. unfold ProductModel.updateStock. apply preserves_transaction.
  apply preserves_bind; [apply preserves_exec; intros d; apply Hp|]. intros _.
  apply preserves_bind; [by apply preserves_pure|]. intros txId.
  apply preserves_bind; [apply preserves_insert; intros d; apply Hi|]. intros _.
  by apply preserves_pure.
Qed.

(** [subtotal] and [taxAmount] as the code accumulates them. *)
Lemma totals_folds (its : list ItemData) :
  fst (totals its) = fold_left (fun sum item => sum + itemTotal item)%float its 0%float /\
  snd (totals its) = fold_left (fun sum item => sum + itemTax item)%float its 0%float.
Proof.
  unfold totals.
  assert (H : forall a b,
    fst (fold_left (fun acc item =>
           ((fst acc + itemTotal item)%float, (snd acc + itemTax item)%float)) its (a, b))
    = fold_left (fun sum item => sum + itemTotal item)%float its a /\
    snd (fold_left (fun acc item =>
           ((fst acc + itemTotal item)%float, (snd acc + itemTax item)%float)) its (a, b))
    = fold_left (fun sum item => sum + itemTax item)%float its b).
  { induction its as [|it its IH]; intros a b; cbn [fold_left fst snd]; [done|].
    apply IH. }
  apply H.
Qed.

(** [Math.max(0, d)], case by case, and its sign. *)
Lemma Math_max_0_cases (d : float) :
  Math_max 0 d = (if is_nan d then nan else if (0 <? d)%float then d else 0%float) /\
  (Math_max 0 d <? 0)%float = false.
Proof.
  unfold Math_max. change (is_nan 0) with false. cbn [orb].
  destruct (is_nan d); [done|].
  destruct (0 <? d)%float eqn:Hpos; [by split; [|apply ltb_asym]|].
  by destruct (d <? 0)%float.
Qed.

(** After the INSERT of the sale row, [create] writes no row of [sales]. *)
Lemma create_rest_preserves_sales (env : Env) (saleData : SaleData) (saleId : string)
    (l : list SaleRow) :
  preserves (fun d => sales d = l)
    (run! for_each (items saleData) (fun item =>
           let! product := query (ProductModel.findById (productId item)) in
           let! itemId := uuidv4 env in
           match product with
           | None => throw (TypeError "Cannot read properties of undefined (reading 'cost_price')")
           | Some product =>
               run! insert_sale_item
                      {| si_id := itemId; si_sale_id := saleId;
                         si_product_id := productId item;
                         si_quantity := integer_affinity (quantity item);
                         si_unit_price := real_affinity (unitPrice item);
                         si_cost_price := real_affinity (cost_price product);
                         si_tax_rate := or0 (taxRate item);
                         si_discount_percent := or0 (discountPercent item);
                         si_total := real_affinity (itemTotal item) |} in
               run! ProductModel.updateStock env (productId item) (- quantity item)
                      "sale" (userId saleData) None in
               ret tt
           end) in
     run! match payments_data saleData with
          | Some ps =>
              for_each ps (fun payment =>
                let! payId := uuidv4 env in
                insert_sale_payment
                  {| sp_id := payId; sp_sale_id := saleId;
                     sp_payment_method := method payment;
                     sp_amount := real_affinity (pe_amount payment);
                     sp_reference_number := reference payment |})
          | None => ret tt
          end in
     query (findById saleId))%js.
Proof.
  apply preserves_bind.
  - apply preserves_for_each. intros item.
    apply preserves_bind; [by apply preserves_pure|]. intros product.
    apply preserves_bind; [by apply preserves_pure|]. intros itemId.
    destruct product as [product|]; [|by apply preserves_pure].
    apply preserves_bind; [by apply preserves_insert|]. intros _.
    apply preserves_bind; [by apply updateStock_preserves|]. intros _.
    by apply preserves_pure.
  - intros _. apply preserves_bind.
    + destruct (payments_data saleData) as [ps|]; [|by apply preserves_pure].
      apply preserves_for_each. intros payment.
      apply preserves_bind; [by apply preserves_pure|]. intros payId.
      by apply preserves_insert.
    + intros _. by apply preserves_pure.
Qed.

(** C7 (as amended).  For a sale that [create] stores, let, in binary64
    arithmetic with every product, quotient, sum and difference rounded,
    [subtotal] be the sum, accumulated from 0 in the order of the items,
    of quantity times unit price times (1 - discountPercent/100),
    [taxAmount] the sum, accumulated likewise, of that item total times
    taxRate/100, and [totalAmount] be subtotal plus taxAmount minus the
    sale-level discount, missing, zero and NaN rates and discounts
    counting as 0.  The stored row holds these numbers as [subtotal],
    [tax_amount], [discount_amount] and [total_amount], and the amount
    paid as [amount_paid], each as its REAL column keeps it (-0.0 is
    stored as 0.0); [subtotal] and [total_amount] are not NULL.  Its
    [change_amount] is [Math.max(0, amountPaid - totalAmount)]: that
    difference when it is positive, 0 when it is not, and NULL when it is
    NaN, hence never negative.  The stored row is the one appended to
    [sales], under the id drawn for the sale, and it is the row of the
    sale [create] returns. *)
Theorem create_totals (env : Env) (saleData : SaleData) (st st' : State)
    (r : option Sale) :
  create env saleData st = (Ok r, st') ->
  let subtotal :=
    fold_left
      (fun sum item =>
         sum + quantity item * unitPrice item
               * (1 - or0 (discountPercent item) / 100))%float
      (items saleData) 0%float in
  let taxAmount :=
    fold_left
      (fun sum item =>
         sum + quantity item * unitPrice item
               * (1 - or0 (discountPercent item) / 100)
               * or0 (taxRate item) / 100)%float
      (items saleData) 0%float in
  let totalAmount := (subtotal + taxAmount - or0 (discountAmount saleData))%float in
  let difference := (amountPaid saleData - totalAmount)%float in
  exists row,
    sales (db st') = (sales (db st) ++ [row])%list /\
    sale_id row = uuid env (uuid_calls st) /\
    (exists sale, r = Some sale /\ sale_row sale = row) /\
    sale_subtotal row = real_affinity subtotal /\
    sale_tax_amount row = real_affinity taxAmount /\
    sale_discount_amount row = or0 (discountAmount saleData) /\
    sale_total_amount row = real_affinity totalAmount /\
    sale_amount_paid row = real_affinity (amountPaid saleData) /\
    change_amount row
    = (if is_nan difference then nan
       else if (0 <? difference)%float then difference else 0%float) /\
    (change_amount row <? 0)%float = false /\
    is_nan (sale_subtotal row) = false /\
    is_nan (sale_total_amount row) = false.
Proof.
  intros Hrun. apply transaction_Ok in Hrun.
  apply bind_Ok in Hrun as (saleId & s1 & Hid & Hrun).
  unfold uuidv4 in Hid. injection Hid as <- <-.
  apply bind_Ok in Hrun as (invoiceNumber & s2 & Hnum & Hrun).
  unfold query, gets in Hnum. cbn [db] in Hnum. injection Hnum as <- <-.
  cbn zeta in Hrun.
  apply bind_Ok in Hrun as ([] & s3 & Hins & Hrun).
  unfold insert_sale in Hins. apply insert_Ok in Hins as [Hc ->].
  cbn [db uuid_calls] in Hc, Hrun.
  match type of Hrun with
  | context [with_sales (sales (db st) ++ [?row0]) (db st)] => set (row := row0) in *
  end.
  apply violation_None in Hc as (Hnn & _ & Huniq & _).
  apply andb_true_iff in Hnn as [Hnn1 Hnn2]. apply negb_true_iff in Hnn1, Hnn2.
  apply andb_true_iff in Huniq as [Hpk _]. apply bool_decide_eq_true in Hpk.
  pose proof (create_rest_preserves_sales env saleData (uuid env (uuid_calls st))
                (sales (db st) ++ [row])
                {| db := with_sales (sales (db st) ++ [row]) (db st);
                   uuid_calls := S (uuid_calls st) |} _ _ eq_refl Hrun) as Hsales.
  assert (Hr : r = findById (uuid env (uuid_calls st)) (db st')).
  { apply bind_Ok in Hrun as ([] & s4 & _ & Hrun).
    apply bind_Ok in Hrun as ([] & s5 & _ & Hrun).
    unfold query, gets in Hrun. by injection Hrun as <- <-. }
  exists row. split; [exact Hsales|]. split; [reflexivity|].
  split.
  { rewrite Hr. unfold findById. rewrite Hsales.
    rewrite (find_app_last _ _ row).
    - eexists. split; reflexivity.
    - by apply (find_none_key sale_id).
    - by apply bool_decide_eq_true. }
  destruct (totals_folds (items saleData)) as [Hsub Htax].
  unfold itemTax, itemTotal in Hsub, Htax.
  subst row. cbn [sale_subtotal sale_tax_amount sale_discount_amount
                  sale_total_amount sale_amount_paid change_amount] in *.
  rewrite Hsub, Htax in *.
  destruct (Math_max_0_cases
              (amountPaid saleData
               - (fold_left
                    (fun sum item =>
                       sum + quantity item * unitPrice item
                             * (1 - or0 (discountPercent item) / 100))%float
                    (items saleData) 0%float
                  + fold_left
                      (fun sum item =>
                         sum + quantity item * unitPrice item
                               * (1 - or0 (discountPercent item) / 100)
                               * or0 (taxRate item) / 100)%float
                      (items saleData) 0%float
                  - or0 (discountAmount saleData)))%float) as [Hmax Hsign].
  do 5 (split; [reflexivity|]). split; [exact Hmax|]. by repeat split.
Qed.

Lemma create_totals_witness :
  fst (create Sample.env Sample.sale Sample.state)
    = Ok (findById "uuid-0" (db (snd (create Sample.env Sample.sale Sample.state)))) /\
  exists row,
    sales (db (snd (create Sample.env Sample.sale Sample.state))) = [row] /\
    sale_subtotal row = 27%float /\
    sale_tax_amount row = 2.16%float /\
    sale_total_amount row = 29.16%float /\
    (change_amount row <? 0)%float = false.
Proof.
  assert (Hok : create Sample.env Sample.sale Sample.state
                = (Ok (findById "uuid-0"
                         (db (snd (create Sample.env Sample.sale Sample.state)))),
                   snd (create Sample.env Sample.sale Sample.state)))
    by (vm_compute; reflexivity).
  split; [by rewrite Hok at 1|].
  destruct (create_totals Sample.env Sample.sale Sample.state _ _ Hok)
    as (row & Hsales & _ & _ & Hsub & Htax & _ & Htotal & _ & _ & Hchange & _).
  exists row. split; [exact Hsales|].
  rewrite Hsub, Htax, Htotal.
  split; [vm_compute; reflexivity|]. split; [vm_compute; reflexivity|].
  split; [vm_compute; reflexivity | exact Hchange].
Defined.

(** C7 fails as stated: three notebooks at 0.10 are stored with a
    subtotal that is not three times the price, and the total of the sample
    basket is not the sum of its subtotal and its tax. *)
Lemma create_rounds_totals :
  (exists sale,
     fst (create Sample.env Sample.dimes Sample.state) = Ok (Some sale) /\
     ~ (exact (sale_subtotal (sale_row sale))
        == sumQ (map item_total_exact (items Sample.dimes)))%Q) /\
  (exists sale,
     fst (create Sample.env Sample.basket Sample.state) = Ok (Some sale) /\
     ~ (exact (sale_total_amount (sale_row sale))
        == exact (sale_subtotal (sale_row sale))
           + exact (sale_tax_amount (sale_row sale))
           - exact (sale_discount_amount (sale_row sale)))%Q).
Proof.
  split; eexists; (split; [vm_compute; reflexivity|]); vm_compute; discriminate.
Qed.

(** The sample sale: 12 x 2.50 less 10% is 27, tax 2.16, total 29.16, and
    the change on 40 is 10.84 up to rounding. *)
Example create_sample :
  match fst (create Sample.env Sample.sale Sample.state) with
  | Ok (Some sale) =>
      sale_subtotal (sale_row sale) = 27%float /\
      sale_tax_amount (sale_row sale) = 2.16%float /\
      sale_total_amount (sale_row sale) = 29.16%float /\
      change_amount (sale_row sale) = 10.84%float
  | _ => False
  end.
Proof. vm_compute. done. Qed.

End Sales.

(** ** Todo UI *)

Section Todo.
Import TodoApp.

Lemma trimStart_nil (s : jsstring) :
  trimStart s = [] <-> Forall (fun c => is_white_space c = true) s.
Proof.
  induction s as [|c s IH]; simpl.
  - split; [constructor | done].
  - destruct (is_white_space c) eqn:Hc.
    + rewrite IH. split; [by constructor | by inversion 1].
    + split; [done|]. inversion 1; congruence.
Qed.

Lemma trimStart_white (s : jsstring) :
  Forall (fun c => is_white_space c = true) (trimStart s) -> trimStart s = [].
Proof.
  induction s as [|c s IH]; simpl; [done|].
  destruct (is_white_space c) eqn:Hc; [done|].
  inversion 1; congruence.
Qed.

(** The trimmed text is empty exactly when the text is empty or consists
    of white space only. *)
Lemma trim_nil (s : jsstring) :
  trim s = [] <-> Forall (fun c => is_white_space c = true) s.
Proof.
  unfold trim, trimEnd. rewrite <- trimStart_nil. split.
  - intros Hrev. apply trimStart_white.
    apply (f_equal (@rev N)) in Hrev. rewrite rev_involutive in Hrev. simpl in Hrev.
    apply trimStart_nil in Hrev. apply Forall_rev in Hrev.
    by rewrite rev_involutive in Hrev.
  - by intros ->.
Qed.

(** C9.  Toggling a todo twice gives its completion flag (an absent entry
    counting as not completed) the value it had; toggling once negates the
    flag of that id and leaves every other entry as it was; no entry is
    removed and no entry's priority changes (an absent entry counting as
    the default); [backendTodos] and the other state variables are
    untouched. *)
Theorem toggleTodo_spec (id : jsstring) (st : AppState) :
  completed_or_false (localMeta (toggleTodo id (toggleTodo id st)) !! id)
    = completed_or_false (localMeta st !! id) /\
  completed_or_false (localMeta (toggleTodo id st) !! id)
    = negb (completed_or_false (localMeta st !! id)) /\
  (forall id', id' <> id ->
     localMeta (toggleTodo id st) !! id' = localMeta st !! id') /\
  (forall id', priority (default DEFAULT_META (localMeta (toggleTodo id st) !! id'))
               = priority (default DEFAULT_META (localMeta st !! id'))) /\
  (forall id' meta, localMeta st !! id' = Some meta ->
     exists meta', localMeta (toggleTodo id st) !! id' = Some meta' /\
                   priority meta' = priority meta) /\
  backendTodos (toggleTodo id st) = backendTodos st /\
  apiStatus (toggleTodo id st) = apiStatus st /\
  input (toggleTodo id st) = input st /\
  selected_priority (toggleTodo id st) = selected_priority st.
Proof.
  unfold toggleTodo; cbn [localMeta set_localMeta backendTodos apiStatus input
                          selected_priority].
  repeat split.
  - rewrite !lookup_insert_eq. cbn. by rewrite negb_involutive.
  - by rewrite lookup_insert_eq.
  - intros id' Hne. by rewrite lookup_insert_ne.
  - intros id'. destruct (decide (id' = id)) as [->|Hne].
    + by rewrite lookup_insert_eq.
    + by rewrite lookup_insert_ne.
  - intros id' meta Hmeta. destruct (decide (id' = id)) as [->|Hne].
    + rewrite lookup_insert_eq, Hmeta. by eexists.
    + rewrite lookup_insert_ne by done. by exists meta.
Qed.

(** C10.  With an input that is empty or white space only, [addTodo] makes
    no [createTodo] call and returns the state as it was.  With any other
    input it calls [createTodo] once, with the trimmed text; when that
    call succeeds the created todo is put in front of [backendTodos], its
    [localMeta] entry is set to not completed with the selected priority,
    the other entries stay, and [apiStatus] becomes online. *)
Theorem addTodo_spec (createTodo : jsstring -> option BackendTodo) (st : AppState) :
  (Forall (fun c => is_white_space c = true) (input st) ->
   addTodo createTodo st = (st, [])) /\
  (~ Forall (fun c => is_white_space c = true) (input st) ->
   snd (addTodo createTodo st) = [trim (input st)] /\
   forall created, createTodo (trim (input st)) = Some created ->
     backendTodos (fst (addTodo createTodo st)) = created :: backendTodos st /\
     localMeta (fst (addTodo createTodo st)) !! String_of_number (TodoApp.id created)
       = Some {| completed := false; priority := selected_priority st |} /\
     (forall k, k <> String_of_number (TodoApp.id created) ->
        localMeta (fst (addTodo createTodo st)) !! k = localMeta st !! k) /\
     apiStatus (fst (addTodo createTodo st)) = online).
Proof.
  unfold addTodo. split.
  - intros Hws. apply trim_nil in Hws. by rewrite bool_decide_true.
  - intros Hws. rewrite <- trim_nil in Hws. rewrite bool_decide_false by done.
    split; [by destruct (createTodo _)|].
    intros created ->. cbn. split; [done|]. split; [by rewrite lookup_insert_eq|].
    split; [|done]. intros k Hk. by rewrite lookup_insert_ne.
Qed.

(** Both branches of [addTodo] on sample states. *)
Lemma addTodo_spec_witness :
  addTodo Sample.backend
    {| backendTodos := []; localMeta := ∅; apiStatus := offline;
       input := [32; 10; 8195]%N; selected_priority := HIGH |}
  = ({| backendTodos := []; localMeta := ∅; apiStatus := offline;
        input := [32; 10; 8195]%N; selected_priority := HIGH |}, []) /\
  snd (addTodo Sample.backend Sample.todo_state) = [[101; 103; 103; 115]%N] /\
  backendTodos (fst (addTodo Sample.backend Sample.todo_state))
    = {| TodoApp.id := 3; task := [101; 103; 103; 115]%N |}
      :: backendTodos Sample.todo_state.
Proof.
  split.
  - apply (proj1 (addTodo_spec Sample.backend _)). cbn [input].
    repeat constructor.
  - assert (Hns : ~ Forall (fun c => is_white_space c = true)
                      (input Sample.todo_state)).
    { intros H. apply (proj1 (Forall_forall _ _)) with (x := 101%N) in H.
      - vm_compute in H. discriminate H.
      - vm_compute. right. right. by left. }
    destruct (proj2 (addTodo_spec Sample.backend Sample.todo_state) Hns)
      as [Hcalls Hok].
    split; [exact Hcalls|].
    exact (proj1 (Hok _ eq_refl)).
Defined.

(** Toggling the completed todo 1 of the sample state, and the todo 2 that
    has no entry yet. *)
Example toggleTodo_sample :
  localMeta (toggleTodo (String_of_number 1) Sample.todo_state)
    !! String_of_number 1 = Some {| completed := false; priority := HIGH |} /\
  localMeta (toggleTodo (String_of_number 2) Sample.todo_state)
    !! String_of_number 2 = Some {| completed := true; priority := MEDIUM |}.
Proof. vm_compute. done. Qed.

End Todo.

(** ** Todo UI: derived values, fetching and deleting *)

Section TodoList.
Import TodoApp.

Lemma String_of_number_inj (n m : Z) :
  String_of_number n = String_of_number m -> n = m.
Proof.
  unfold String_of_number. intros Heq.
  apply (inj pretty). rewrite <- (String.string_of_list_ascii_of_string (pretty n)),
    <- (String.string_of_list_ascii_of_string (pretty m)). f_equal.
  revert Heq. generalize (String.list_ascii_of_string (pretty m)).
  induction (String.list_ascii_of_string (pretty n)) as [|c l IH]; intros [|c' l'] Heq;
    try done.
  injection Heq as Hc Hl. f_equal; [|by apply IH].
  apply Nat2N.inj in Hc.
  rewrite <- (Ascii.ascii_nat_embedding c), <- (Ascii.ascii_nat_embedding c').
  by rewrite Hc.
Qed.

Lemma todos_length (st : AppState) : length (todos st) = length (backendTodos st).
Proof. unfold todos. apply length_map. Qed.

(** X1.  The two counters of the header split the list: done plus active
    is the number of todos.  The ACTIVE tab shows exactly the todos counted
    as active, the COMPLETED tab those counted as done, the ALL tab the
    whole list, and every shown todo is one of the list. *)
Theorem counters_partition (st : AppState) :
  (completedCount st + activeCount st = length (backendTodos st))%nat /\
  length (visible ACTIVE st) = activeCount st /\
  length (visible COMPLETED st) = completedCount st /\
  visible ALL st = todos st /\
  Forall (fun t => t_completed t = false) (visible ACTIVE st) /\
  Forall (fun t => t_completed t = true) (visible COMPLETED st) /\
  (forall filter t, In t (visible filter st) -> In t (todos st)).
Proof.
  unfold completedCount, activeCount, visible.
  split; [by rewrite filter_length, todos_length|].
  split; [done|]. split; [done|]. split; [apply filter_true|].
  split; [|split].
  - apply Forall_forall. intros t Ht.
    apply list_elem_of_In, filter_In in Ht as [_ Ht]. by apply negb_true_iff.
  - apply Forall_forall. intros t Ht.
    by apply list_elem_of_In, filter_In in Ht as [_ Ht].
  - intros filter t Ht. by apply filter_In in Ht as [Ht _].
Qed.

(** The entries of [localMeta] after the list was fetched. *)
Lemma initialFetch_lookup (fetched : list BackendTodo) (st : AppState) (k : jsstring) :
  localMeta (initialFetch (Some fetched) st) !! k
  = match localMeta st !! k with
    | Some meta => Some meta
    | None => if bool_decide (k ∈ map (fun t => String_of_number (id t)) fetched)
              then Some DEFAULT_META else None
    end.
Proof.
  unfold initialFetch; cbn [localMeta].
  generalize (localMeta st) as m.
  induction fetched as [|t fetched IH]; intros m; cbn [fold_left map].
  - rewrite bool_decide_false by apply not_elem_of_nil. by destruct (m !! k).
  - rewrite IH. destruct (m !! String_of_number (id t)) as [meta|] eqn:Ht.
    + destruct (m !! k) as [meta'|] eqn:Hk; [done|].
      assert (Hne : k <> String_of_number (id t)) by congruence.
      destruct (decide (k ∈ map (fun t => String_of_number (id t)) fetched)) as [Hin|Hin].
      * rewrite !bool_decide_true; [done| |done]. by right.
      * rewrite !bool_decide_false; [done| |done].
        intros [?|?]%elem_of_cons; done.
    + destruct (decide (k = String_of_number (id t))) as [->|Hne].
      * rewrite lookup_insert_eq, Ht. rewrite bool_decide_true; [done|]. by left.
      * rewrite lookup_insert_ne by done. destruct (m !! k); [done|].
        destruct (decide (k ∈ map (fun t => String_of_number (id t)) fetched)) as [Hin|Hin].
        -- rewrite !bool_decide_true; [done| |done]. by right.
        -- rewrite !bool_decide_false; [done| |done].
           intros [?|?]%elem_of_cons; done.
Qed.

(** X3.  Fetching the list replaces [backendTodos] by the fetched list and
    sets the status to online; an entry [localMeta] already holds, with its
    completion flag and priority, is kept, a fetched todo without entry gets
    the default entry, and no other entry appears.  A rejected fetch only
    sets the status to offline. *)
Theorem initialFetch_spec (fetched : list BackendTodo) (st : AppState) :
  backendTodos (initialFetch (Some fetched) st) = fetched /\
  apiStatus (initialFetch (Some fetched) st) = online /\
  (forall k meta, localMeta st !! k = Some meta ->
                  localMeta (initialFetch (Some fetched) st) !! k = Some meta) /\
  (forall t, In t fetched -> localMeta st !! String_of_number (id t) = None ->
             localMeta (initialFetch (Some fetched) st) !! String_of_number (id t)
             = Some DEFAULT_META) /\
  (forall k, localMeta st !! k = None ->
             (forall t, In t fetched -> String_of_number (id t) <> k) ->
             localMeta (initialFetch (Some fetched) st) !! k = None) /\
  backendTodos (initialFetch None st) = backendTodos st /\
  localMeta (initialFetch None st) = localMeta st /\
  apiStatus (initialFetch None st) = offline.
Proof.
  split; [done|]. split; [done|]. split; [|split; [|split]]; [| | |done].
  - intros k meta Hk. by rewrite initialFetch_lookup, Hk.
  - intros t Ht Hk. rewrite initialFetch_lookup, Hk.
    rewrite bool_decide_true; [done|].
    apply list_elem_of_In, in_map_iff. by exists t.
  - intros k Hk Hnot. rewrite initialFetch_lookup, Hk.
    rewrite bool_decide_false; [done|].
    intros Hin. apply list_elem_of_In, in_map_iff in Hin as (t & Ht & Hin).
    by apply (Hnot t).
Qed.

(** X4.  [deleteTodo] removes the todo at once and does not put it back:
    whether the backend call resolves or rejects, no todo with the backend
    id is left, the other todos keep their order, the entry under [id] is
    gone and the other entries stay.  One backend call is made, and its
    outcome only decides the status. *)
Theorem deleteTodo_optimistic (apiDeleteTodo : Z -> bool) (id : jsstring)
    (backendId : Z) (st : AppState) :
  let st' := fst (deleteTodo apiDeleteTodo id backendId st) in
  Forall (fun t => TodoApp.id t <> backendId) (backendTodos st') /\
  (forall t, In t (backendTodos st') <-> In t (backendTodos st) /\ TodoApp.id t <> backendId) /\
  sublist (backendTodos st') (backendTodos st) /\
  localMeta st' !! id = None /\
  (forall k, k <> id -> localMeta st' !! k = localMeta st !! k) /\
  snd (deleteTodo apiDeleteTodo id backendId st) = [backendId] /\
  apiStatus st' = (if apiDeleteTodo backendId then online else offline) /\
  backendTodos st' = backendTodos (fst (deleteTodo (fun _ => false) id backendId st)) /\
  localMeta st' = localMeta (fst (deleteTodo (fun _ => false) id backendId st)).
Proof.
  unfold deleteTodo; cbn [fst snd backendTodos localMeta apiStatus].
  assert (Hiff : forall t, In t (List.filter (fun t => negb (has_backend_id backendId t))
                               (backendTodos st))
                   <-> In t (backendTodos st) /\ TodoApp.id t <> backendId).
  { intros t. rewrite filter_In, negb_true_iff. unfold has_backend_id.
    by rewrite Z.eqb_neq. }
  split; [|split; [|split; [|split; [|split]]]].
  - apply Forall_forall. intros t Ht. by apply list_elem_of_In, Hiff in Ht as [_ Ht].
  - exact Hiff.
  - clear Hiff. induction (backendTodos st) as [|t l IH]; simpl; [constructor|].
    destruct (negb _); [by apply sublist_skip | by apply sublist_cons].
  - apply lookup_delete_eq.
  - intros k Hk. by apply lookup_delete_ne.
  - done.
Qed.

Lemma completed_default (m : option LocalMeta) :
  completed (default DEFAULT_META m) = completed_or_false m.
Proof. by destruct m. Qed.

Lemma todos_merge (st : AppState) :
  todos st = map (merge_todo (localMeta st)) (backendTodos st).
Proof. reflexivity. Qed.

(** An entry under the key of an id that is not in the list does not show
    in the merged list. *)
Lemma merge_insert_other (k : Z) (m : gmap jsstring LocalMeta) (meta : LocalMeta)
    (l : list BackendTodo) :
  ~ In k (map TodoApp.id l) ->
  map (merge_todo (<[ String_of_number k := meta ]> m)) l = map (merge_todo m) l.
Proof.
  intros Hnot. apply map_ext_in. intros bt Hbt. unfold merge_todo.
  rewrite lookup_insert_ne; [done|].
  intros Heq. apply String_of_number_inj in Heq. apply Hnot.
  rewrite Heq. by apply in_map.
Qed.

(** The done counter after the flag of one listed todo was negated. *)
Lemma completed_after_toggle (m : gmap jsstring LocalMeta) (bt : BackendTodo)
    (p : Priority) (l : list BackendTodo) :
  NoDup (map TodoApp.id l) -> In bt l ->
  let m' := <[ String_of_number (TodoApp.id bt) :=
                 {| completed := negb (completed_or_false
                                         (m !! String_of_number (TodoApp.id bt)));
                    priority := p |} ]> m in
  if completed_or_false (m !! String_of_number (TodoApp.id bt))
  then length (List.filter (fun t => t_completed t) (map (merge_todo m) l))
       = S (length (List.filter (fun t => t_completed t) (map (merge_todo m') l)))
  else length (List.filter (fun t => t_completed t) (map (merge_todo m') l))
       = S (length (List.filter (fun t => t_completed t) (map (merge_todo m) l))).
Proof.
  intros Hnd Hin m'.
  induction l as [|bt0 l IH]; [done|].
  cbn [map] in Hnd. apply NoDup_cons in Hnd as [Hnotin Hnd].
  rewrite list_elem_of_In in Hnotin.
  destruct Hin as [->|Hin].
  - assert (H1 : t_completed (merge_todo m bt)
                 = completed_or_false (m !! String_of_number (TodoApp.id bt))).
    { unfold merge_todo; cbn [t_completed]. apply completed_default. }
    assert (H2 : t_completed (merge_todo m' bt)
                 = negb (completed_or_false (m !! String_of_number (TodoApp.id bt)))).
    { unfold merge_todo; cbn [t_completed]. subst m'. by rewrite lookup_insert_eq. }
    assert (H3 : map (merge_todo m') l = map (merge_todo m) l).
    { subst m'. by apply merge_insert_other. }
    cbn [map List.filter]. rewrite H1, H2, H3.
    by destruct (completed_or_false _).
  - assert (Hne : String_of_number (TodoApp.id bt) <> String_of_number (TodoApp.id bt0)).
    { intros Heq. apply String_of_number_inj in Heq. apply Hnotin.
      rewrite <- Heq. by apply in_map. }
    specialize (IH Hnd Hin).
    cbn [map List.filter].
    assert (Hsame : t_completed (merge_todo m' bt0) = t_completed (merge_todo m bt0)).
    { unfold merge_todo; cbn [t_completed]. subst m'. by rewrite lookup_insert_ne. }
    rewrite Hsame.
    destruct (completed_or_false _); destruct (t_completed (merge_todo m bt0));
      cbn [length]; by rewrite IH.
Qed.

(** X5.  Toggling a listed todo moves it from one counter to the other:
    when the ids of the list are distinct, toggling an active todo raises
    the done counter by one and lowers the active counter by one, toggling
    a done todo does the opposite, and the number of todos stays. *)
Theorem toggleTodo_counters (bt : BackendTodo) (st : AppState) :
  NoDup (map TodoApp.id (backendTodos st)) ->
  In bt (backendTodos st) ->
  let st' := toggleTodo (String_of_number (TodoApp.id bt)) st in
  length (todos st') = length (todos st) /\
  if completed_or_false (localMeta st !! String_of_number (TodoApp.id bt))
  then (completedCount st = S (completedCount st') /\
        activeCount st' = S (activeCount st))%nat
  else (completedCount st' = S (completedCount st) /\
        activeCount st = S (activeCount st'))%nat.
Proof.
  intros Hnd Hin st'.
  assert (Hlen : length (todos st') = length (todos st)).
  { by rewrite !todos_length. }
  split; [exact Hlen|].
  pose proof (proj1 (counters_partition st)) as Hsplit.
  pose proof (proj1 (counters_partition st')) as Hsplit'.
  rewrite <- todos_length in Hsplit, Hsplit'.
  pose proof (completed_after_toggle (localMeta st) bt
                (priority (default DEFAULT_META
                             (localMeta st !! String_of_number (TodoApp.id bt))))
                (backendTodos st) Hnd Hin) as Hcount.
  cbn zeta in Hcount.
  change (length (List.filter (fun t => t_completed t)
                    (map (merge_todo (localMeta st)) (backendTodos st))))
    with (completedCount st) in Hcount.
  match type of Hcount with
  | context [length (List.filter _ (map (merge_todo ?m') _))] =>
      change (length (List.filter (fun t => t_completed t)
                        (map (merge_todo m') (backendTodos st))))
        with (completedCount st') in Hcount
  end.
  destruct (completed_or_false _); lia.
Qed.

Lemma toggleTodo_counters_witness :
  NoDup (map TodoApp.id (backendTodos Sample.todo_state)) /\
  In {| TodoApp.id := 1; task := [116; 101; 97]%N |} (backendTodos Sample.todo_state) /\
  (completedCount Sample.todo_state
   = S (completedCount (toggleTodo (String_of_number 1) Sample.todo_state)))%nat.
Proof.
  assert (Hnd : NoDup (map TodoApp.id (backendTodos Sample.todo_state))).
  { apply (bool_decide_unpack _). vm_compute. exact I. }
  assert (Hin : In {| TodoApp.id := 1; task := [116; 101; 97]%N |}
                   (backendTodos Sample.todo_state)).
  { simpl. right. left. reflexivity. }
  split; [exact Hnd|]. split; [exact Hin|].
  exact (proj1 (proj2 (toggleTodo_counters _ Sample.todo_state Hnd Hin))).
Defined.

(** X6.  "Every listed todo has its [localMeta] entry" holds after every
    successful fetch and is kept by [toggleTodo], by [addTodo], by a
    rejected fetch, and by [deleteTodo] called, as the list items call it,
    with the key of the backend id. *)
Theorem every_todo_has_meta_invariant (st : AppState) :
  (forall fetched, every_todo_has_meta (initialFetch (Some fetched) st)) /\
  (every_todo_has_meta st ->
   every_todo_has_meta (initialFetch None st) /\
   (forall id, every_todo_has_meta (toggleTodo id st)) /\
   (forall createTodo, every_todo_has_meta (fst (addTodo createTodo st))) /\
   (forall apiDeleteTodo backendId,
      every_todo_has_meta
        (fst (deleteTodo apiDeleteTodo (String_of_number backendId) backendId st)))).
Proof.
  unfold every_todo_has_meta. split.
  - intros fetched. apply Forall_forall. intros t Ht.
    rewrite initialFetch_lookup. cbn [backendTodos initialFetch] in Ht.
    destruct (localMeta st !! _); [by eexists|].
    rewrite bool_decide_true; [by eexists|].
    apply list_elem_of_fmap. by exists t.
  - intros Hst. split; [exact Hst|]. split; [|split].
    + intros id. unfold toggleTodo; cbn [backendTodos localMeta set_localMeta].
      eapply Forall_impl; [exact Hst|]. intros bt Hbt. cbn beta in *.
      destruct (decide (String_of_number (TodoApp.id bt) = id)) as [<-|Hne].
      * rewrite lookup_insert_eq. by eexists.
      * by rewrite lookup_insert_ne.
    + intros createTodo. unfold addTodo.
      case_bool_decide; [exact Hst|].
      destruct (createTodo _) as [created|]; cbn [fst backendTodos localMeta];
        [|exact Hst].
      constructor.
      * rewrite lookup_insert_eq. by eexists.
      * eapply Forall_impl; [exact Hst|]. intros bt Hbt. cbn beta in *.
        destruct (decide (String_of_number (TodoApp.id bt)
                          = String_of_number (TodoApp.id created))) as [->|Hne].
        -- rewrite lookup_insert_eq. by eexists.
        -- by rewrite lookup_insert_ne.
    + intros apiDeleteTodo backendId.
      unfold deleteTodo; cbn [fst backendTodos localMeta].
      apply Forall_forall. intros bt Hbt.
      apply list_elem_of_In, filter_In in Hbt as [Hin Hid].
      unfold has_backend_id in Hid. apply negb_true_iff, Z.eqb_neq in Hid.
      rewrite lookup_delete_ne.
      * apply (proj1 (Forall_forall _ _) Hst). by apply list_elem_of_In.
      * intros Heq. by apply String_of_number_inj in Heq.
Qed.

Lemma every_todo_has_meta_invariant_witness :
  every_todo_has_meta Sample.fetched_state /\
  every_todo_has_meta (toggleTodo (String_of_number 2) Sample.fetched_state) /\
  every_todo_has_meta
    (fst (deleteTodo (fun _ => false) (String_of_number 1) 1 Sample.fetched_state)).
Proof.
  assert (H : every_todo_has_meta Sample.fetched_state).
  { exact (proj1 (every_todo_has_meta_invariant Sample.todo_state) _). }
  split; [exact H|].
  destruct (proj2 (every_todo_has_meta_invariant Sample.fetched_state) H)
    as (_ & Htoggle & _ & Hdelete).
  split; [apply Htoggle | apply Hdelete].
Defined.

(** X7.  Deleting a todo right after adding it undoes the addition: when
    the input is not blank, [createTodo] answers a todo whose id is not in
    the list and whose key has no [localMeta] entry, then [addTodo]
    followed by [deleteTodo] for the created todo gives back the list and
    the [localMeta] of before, whatever the outcome of the delete call. *)
Theorem addTodo_deleteTodo_round_trip (createTodo : jsstring -> option BackendTodo)
    (apiDeleteTodo : Z -> bool) (st : AppState) (created : BackendTodo) :
  ~ Forall (fun c => is_white_space c = true) (input st) ->
  createTodo (trim (input st)) = Some created ->
  ~ In (TodoApp.id created) (map TodoApp.id (backendTodos st)) ->
  localMeta st !! String_of_number (TodoApp.id created) = None ->
  let st1 := fst (addTodo createTodo st) in
  let st2 := fst (deleteTodo apiDeleteTodo (String_of_number (TodoApp.id created))
                             (TodoApp.id created) st1) in
  backendTodos st1 = created :: backendTodos st /\
  backendTodos st2 = backendTodos st /\
  localMeta st2 = localMeta st /\
  selected_priority st2 = selected_priority st.
Proof.
  intros Hws Hcreate Hfresh Hmeta. unfold addTodo.
  rewrite <- trim_nil in Hws. rewrite bool_decide_false by done.
  rewrite Hcreate. unfold deleteTodo.
  cbn [fst backendTodos localMeta selected_priority List.filter].
  split; [done|]. split; [|split; [|done]].
  - unfold has_backend_id at 1. rewrite Z.eqb_refl. cbn [negb].
    apply forallb_filter_id, forallb_forall. intros bt Hbt.
    unfold has_backend_id. apply negb_true_iff, Z.eqb_neq.
    intros Heq. apply Hfresh. rewrite <- Heq. by apply in_map.
  - rewrite delete_insert_eq. by apply delete_id.
Qed.

Lemma addTodo_deleteTodo_round_trip_witness :
  backendTodos
    (fst (deleteTodo (fun _ => true) (String_of_number 3) 3
            (fst (addTodo Sample.backend Sample.todo_state))))
  = backendTodos Sample.todo_state /\
  localMeta
    (fst (deleteTodo (fun _ => true) (String_of_number 3) 3
            (fst (addTodo Sample.backend Sample.todo_state))))
  = localMeta Sample.todo_state.
Proof.
  assert (Hns : ~ Forall (fun c => is_white_space c = true)
                    (input Sample.todo_state)).
  { intros H. apply (proj1 (Forall_forall _ _)) with (x := 101%N) in H.
    - vm_compute in H. discriminate H.
    - vm_compute. right. right. by left. }
  assert (Hfresh : ~ In 3%Z (map TodoApp.id (backendTodos Sample.todo_state))).
  { simpl. intros [H|[H|[]]]; discriminate H. }
  destruct (addTodo_deleteTodo_round_trip Sample.backend (fun _ => true)
              Sample.todo_state {| TodoApp.id := 3; task := trim (input Sample.todo_state) |}
              Hns eq_refl Hfresh)
    as (_ & Hlist & Hmeta & _).
  - vm_compute. reflexivity.
  - split; [exact Hlist | exact Hmeta].
Defined.

End TodoList.

(** ** API-key dependency *)

Section SecurityFacts.
Import Security.

(** C8.  [verify_api_key] raises HTTP 401 with detail "API key is missing"
    exactly when no key was supplied, raises HTTP 403 with detail
    "Invalid API key" exactly when a key was supplied that is not in the
    configured key set, and in every other case returns the supplied key
    unchanged. *)
Theorem verify_api_key_spec (settings : Settings) (api_key : option string) :
  (raises (verify_api_key settings api_key) 401%Z "API key is missing"
     <-> api_key = None) /\
  (raises (verify_api_key settings api_key) 403%Z "Invalid API key"
     <-> exists k, api_key = Some k /\ k ∉ api_keys_set settings) /\
  (forall k, verify_api_key settings api_key = Ok k
     <-> api_key = Some k /\ k ∈ api_keys_set settings).
Proof.
  unfold raises, verify_api_key.
  destruct api_key as [k|]; [destruct (decide (k ∉ api_keys_set settings)) as [Hn|Hin]|].
  - repeat split.
    + intros (e & [= <-] & Hc & _). discriminate Hc.
    + intros [=].
    + intros _. eauto.
    + eexists; eauto.
    + discriminate.
    + discriminate.
    + intros [[= <-] Hk]. contradiction.
  - apply dec_stable in Hin. repeat split.
    + intros (e & [=] & _).
    + intros [=].
    + intros (e & [=] & _).
    + intros (k' & [= <-] & Hk). contradiction.
    + congruence.
    + congruence.
    + intros [[= <-] _]. reflexivity.
  - repeat split.
    + intros _. eexists. repeat split; reflexivity.
    + intros (e & [= <-] & Hc & _). discriminate Hc.
    + intros (k & [=] & _).
    + discriminate.
    + discriminate.
    + intros [[=] _].
Qed.

End SecurityFacts.

(** ** Products *)

Section Products.
Import ProductModel.



Example toSnakeCase_sample :
  toSnakeCase "costPrice" = "cost_price" /\
  toSnakeCase "minStockLevel" = "min_stock_level" /\
  toSnakeCase "cost_price" = "cost_price" /\
  toSnakeCase "SKU" = "_s_k_u".
Proof. vm_compute. done. Qed.



(** Five notebooks more in the sample stock; an unknown transaction type
    and an unknown user are refused. *)
Example updateStock_sample :
  (exists p st',
     updateStock Sample.env "prod-1" 5 "adjustment" "user-1" None Sample.state
     = (Ok (Some p), st') /\ current_stock p = 35%float) /\
  updateStock Sample.env "prod-1" 5 "restock" "user-1" None Sample.state
  = (Err (SqliteError CHECK), {| db := Sample.database; uuid_calls := 1 |}) /\
  updateStock Sample.env "prod-1" 5 "adjustment" "user-9" None Sample.state
  = (Err (SqliteError FOREIGN_KEY), {| db := Sample.database; uuid_calls := 1 |}).
Proof.
  split; [|split].
  - eexists _, _. split; vm_compute; reflexivity.
  - vm_compute. reflexivity.
  - vm_compute. reflexivity.
Qed.

End Products.

(** ** Stock movements of sales *)

Section SalesStock.
Import SalesModel.













(** A third line on a product that has no row, and a payment by cheque:
    nothing of the sale is stored. *)
Example create_all_or_nothing_sample :
  create Sample.env Sample.unknown_basket Sample.state
  = (Err (TypeError "Cannot read properties of undefined (reading 'cost_price')"),
     {| db := Sample.database; uuid_calls := 6 |}) /\
  create Sample.env Sample.cheque_sale Sample.state
  = (Err (SqliteError CHECK), {| db := Sample.database; uuid_calls := 1 |}).
Proof. split; vm_compute; reflexivity. Qed.





(** The sample sale, stored and then voided: the stock is back at 30 and a
    second void is refused; a void by a user without a row is refused by
    the FOREIGN KEY of the stock movement and changes nothing. *)
Example voidSale_sample :
  let stored := snd (create Sample.env Sample.sale Sample.state) in
  (exists sale st',
     voidSale Sample.env "uuid-0" "user-1" stored = (Ok (Some sale), st') /\
     map current_stock (products (db st')) = [30%float] /\
     voidSale Sample.env "uuid-0" "user-1" st' = (Err (Error not_found_or_void), st')) /\
  (exists st',
     voidSale Sample.env "uuid-0" "user-9" stored = (Err (SqliteError FOREIGN_KEY), st') /\
     db st' = db stored).
Proof.
  split.
  - eexists _, _. split; [vm_compute; reflexivity|]. split; vm_compute; reflexivity.
  - eexists. split; vm_compute; reflexivity.
Qed.

End SalesStock.

(** ** Created entries are unposted *)

Section UnpostedEntries.



(** Whatever its outcome, [JournalEntryModel.create] writes only the two
    journal tables. *)
Lemma entry_create_preserves (J : DB -> Prop) (env : Env)
    (data : JournalEntryModel.EntryData) :
  (forall d v, J d -> J (with_journal_entries v d)) ->
  (forall d v, J d -> J (with_journal_entry_lines v d)) ->
  preserves J (JournalEntryModel.create env data).
Proof.
  intros He Hl. unfold JournalEntryModel.create. apply preserves_transaction.
  cbn zeta. destruct (_ <? _)%float; [by apply preserves_pure|].
  apply preserves_bind; [by apply preserves_pure|]. intros entryId.
  apply preserves_bind; [by apply preserves_pure|]. intros entryNumber.
  apply preserves_bind; [apply preserves_insert; intros d; apply He|]. intros _.
  apply preserves_bind.
  - apply preserves_for_each. intros line.
    apply preserves_bind; [by apply preserves_pure|]. intros lineId.
    apply preserves_insert. intros d. apply Hl.
  - intros _. by apply preserves_pure.
Qed.

Lemma recordPayment_preserves (J : DB -> Prop) (env : Env) (invoiceId : string)
    (paymentData : InvoiceModel.PaymentData) :
  (forall d v, J d -> J (with_invoices v d)) ->
  (forall d v, J d -> J (with_customers v d)) ->
  (forall d v, J d -> J (with_payments v d)) ->
  (forall d v, J d -> J (with_journal_entries v d)) ->
  (forall d v, J d -> J (with_journal_entry_lines v d)) ->
  preserves J (InvoiceModel.recordPayment env invoiceId paymentData).
Proof.
  intros Hi Hc Hp He Hl. unfold InvoiceModel.recordPayment.
  apply preserves_transaction.
  apply preserves_bind; [by apply preserves_pure|]. intros [invoice|];
    [|by apply preserves_pure].
  cbn zeta. destruct (_ <? _)%float; [by apply preserves_pure|].
  apply preserves_bind; [apply preserves_exec; intros d; apply Hi|]. intros _.
  apply preserves_bind; [apply preserves_exec; intros d; apply Hc|]. intros _.
  apply preserves_bind; [by apply preserves_pure|]. intros paymentId.
  apply preserves_bind; [by apply preserves_pure|]. intros paymentNumber.
  apply preserves_bind; [apply preserves_insert; intros d; apply Hp|]. intros _.
  apply preserves_bind; [by apply entry_create_preserves|]. intros _.
  by apply preserves_pure.
Qed.

Lemma voidSale_preserves (J : DB -> Prop) (env : Env) (id us : string) :
  (forall d v, J d -> J (with_products v d)) ->
  (forall d v, J d -> J (with_inventory_transactions v d)) ->
  (forall d v, J d -> J (with_sales v d)) ->
  preserves J (SalesModel.voidSale env id us).
Proof.
  intros Hp Hi Hs. unfold SalesModel.voidSale. apply preserves_transaction.
  apply preserves_bind; [by apply preserves_pure|]. intros [sale|];
    [|by apply preserves_pure].
  destruct (bool_decide _); [by apply preserves_pure|].
  apply preserves_bind.
  - apply preserves_for_each. intros item.
    apply preserves_bind; [by apply updateStock_preserves|]. intros _.
    by apply preserves_pure.
  - intros _. apply preserves_bind; [apply preserves_exec; intros d; apply Hs|].
    intros _. by apply preserves_pure.
Qed.

Lemma sales_create_preserves (J : DB -> Prop) (env : Env) (saleData : SalesModel.SaleData) :
  (forall d v, J d -> J (with_products v d)) ->
  (forall d v, J d -> J (with_inventory_transactions v d)) ->
  (forall d v, J d -> J (with_sales v d)) ->
  (forall d v, J d -> J (with_sale_items v d)) ->
  (forall d v, J d -> J (with_sale_payments v d)) ->
  preserves J (SalesModel.create env saleData).
Proof.
  intros Hp Hi Hs Hsi Hsp. unfold SalesModel.create. apply preserves_transaction.
  apply preserves_bind; [by apply preserves_pure|]. intros saleId.
  apply preserves_bind; [by apply preserves_pure|]. intros invoiceNumber.
  cbn zeta.
  apply preserves_bind; [apply preserves_insert; intros d; apply Hs|]. intros _.
  apply preserves_bind.
  - apply preserves_for_each. intros item.
    apply preserves_bind; [by apply preserves_pure|]. intros product.
    apply preserves_bind; [by apply preserves_pure|]. intros itemId.
    destruct product as [product|]; [|by apply preserves_pure].
    apply preserves_bind; [apply preserves_insert; intros d; apply Hsi|]. intros _.
    apply preserves_bind; [by apply updateStock_preserves|]. intros _.
    by apply preserves_pure.
  - intros _. apply preserves_bind.
    + destruct (SalesModel.payments_data saleData) as [ps|]; [|by apply preserves_pure].
      apply preserves_for_each. intros payment.
      apply preserves_bind; [by apply preserves_pure|]. intros payId.
      apply preserves_insert. intros d. apply Hsp.
    + intros _. by apply preserves_pure.
Qed.

(** X26.  Whatever their outcome, [JournalEntryModel.create],
    [InvoiceModel.recordPayment], [ProductModel.updateStock],
    [SalesModel.create] and [SalesModel.voidSale] leave every row of
    [accounts] as it is, balances included, and the stored journal
    entries and their lines as they are: the first two append at most one
    entry, which is unposted, and its lines; the stock and sales
    operations write no journal entry at all. *)
Theorem unposted_entries_keep_accounts (env : Env) (st : State) :
  (forall data r st',
     JournalEntryModel.create env data st = (r, st') ->
     accounts (db st') = accounts (db st) /\
     exists new,
       journal_entries (db st') = (journal_entries (db st) ++ new)%list /\
       Forall (fun e => is_posted e = 0%Z) new /\ (length new <= 1)%nat) /\
  (forall invoiceId paymentData r st',
     InvoiceModel.recordPayment env invoiceId paymentData st = (r, st') ->
     accounts (db st') = accounts (db st) /\
     exists new,
       journal_entries (db st') = (journal_entries (db st) ++ new)%list /\
       Forall (fun e => is_posted e = 0%Z) new /\ (length new <= 1)%nat) /\
  (forall id quantity transactionType userId notes r st',
     ProductModel.updateStock env id quantity transactionType userId notes st = (r, st') ->
     accounts (db st') = accounts (db st) /\
     journal_entries (db st') = journal_entries (db st) /\
     journal_entry_lines (db st') = journal_entry_lines (db st)) /\
  (forall saleData r st',
     SalesModel.create env saleData st = (r, st') ->
     accounts (db st') = accounts (db st) /\
     journal_entries (db st') = journal_entries (db st) /\
     journal_entry_lines (db st') = journal_entry_lines (db st)) /\
  (forall id userId r st',
     SalesModel.voidSale env id userId st = (r, st') ->
     accounts (db st') = accounts (db st) /\
     journal_entries (db st') = journal_entries (db st) /\
     journal_entry_lines (db st') = journal_entry_lines (db st)).
Proof.
  set (J := fun d : DB => accounts d = accounts (db st)).
  set (K := fun d : DB =>
              accounts d = accounts (db st) /\
              journal_entries d = journal_entries (db st) /\
              journal_entry_lines d = journal_entry_lines (db st)).
  assert (HK : K (db st)) by done.
  split; [|split; [|split; [|split]]].
  - intros data r st' Hrun. split.
    { by apply (entry_create_preserves J env data) in Hrun. }
    destruct r as [r|e].
    + apply entry_create_Ok in Hrun as (_ & -> & _).
      exists [new_entry_row env data st]. split; [reflexivity|].
      split; [by repeat constructor | done].
    + apply transaction_Err in Hrun. exists []. rewrite Hrun, app_nil_r.
      split; [reflexivity|]. split; [constructor | cbn; lia].
  - intros invoiceId paymentData r st' Hrun. split.
    { by apply (recordPayment_preserves J env invoiceId paymentData) in Hrun. }
    destruct r as [r|e].
    + destruct (InvoiceModel.findById invoiceId (db st)) as [invoice|] eqn:Hfind.
      * destruct (recordPayment_Ok _ _ _ _ _ _ _ Hfind Hrun) as (_ & _ & -> & _).
        eexists [_]. split; [reflexivity|]. split; [by repeat constructor | done].
      * exfalso. apply transaction_Ok in Hrun.
        unfold bind, query, gets in Hrun. rewrite Hfind in Hrun. discriminate.
    + apply transaction_Err in Hrun. exists []. rewrite Hrun, app_nil_r.
      split; [reflexivity|]. split; [constructor | cbn; lia].
  - intros id quantity transactionType userId notes r st' Hrun.
    by apply (updateStock_preserves K) in Hrun.
  - intros saleData r st' Hrun.
    by apply (sales_create_preserves K) in Hrun.
  - intros id userId r st' Hrun.
    by apply (voidSale_preserves K) in Hrun.
Qed.

End UnpostedEntries.

(** ** Balance sheet *)

Section BalanceSheetReport.
Import FinancialReports.

Local Instance by_bs_code_trans : Transitive by_bs_code.
Proof. intros r1 r2 r3. unfold by_bs_code. apply transitivity. Qed.

Local Instance by_bs_code_total : Total by_bs_code.
Proof. intros r1 r2. unfold by_bs_code. apply total, _. Qed.

(** The rows of one type: the accounts selected, in ascending order of
    code. *)
Lemma getAccountsByType_rows (t : AccountType) (d : DB) :
  getAccountsByType t d
  ≡ₚ map (fun a => {| bs_code := acc_code a; bs_name := acc_name a;
                      amount := current_balance a |})
         (List.filter (fun a => bool_decide (account_type a = t)
                                && bool_decide (is_active a = 1%Z)
                                && sql_ne (current_balance a) 0)
                      (accounts d)) /\
  (forall r,
     r ∈ getAccountsByType t d <->
     exists a,
       a ∈ accounts d /\ account_type a = t /\ is_active a = 1%Z /\
       is_nan (current_balance a) = false /\ (current_balance a =? 0)%float = false /\
       r = {| bs_code := acc_code a; bs_name := acc_name a;
              amount := current_balance a |}) /\
  StronglySorted (fun r1 r2 => String.le (bs_code r1) (bs_code r2))
                 (getAccountsByType t d).
Proof.
  split; [apply merge_sort_Permutation|]. split.
  - intros r. unfold getAccountsByType. rewrite merge_sort_Permutation.
    rewrite list_elem_of_In, in_map_iff. split.
    + intros (a & <- & Ha). apply filter_In in Ha as [Ha Hw].
      apply andb_true_iff in Hw as [Hw Hne]. apply andb_true_iff in Hw as [Ht Hact].
      apply bool_decide_eq_true in Ht, Hact. apply sql_ne_0 in Hne as [Hn Hz].
      exists a. by rewrite list_elem_of_In.
    + intros (a & Ha & Ht & Hact & Hn & Hz & ->). exists a. split; [done|].
      apply filter_In. split; [by apply list_elem_of_In|].
      rewrite !andb_true_iff, !bool_decide_eq_true, sql_ne_0. done.
  - apply (StronglySorted_merge_sort by_bs_code).
Qed.

(** No amount of a row is NULL, so the sum reads each as it is. *)
Lemma total_amount_fold (t : AccountType) (d : DB) :
  total_amount (getAccountsByType t d)
  = fold_left (fun sum r => sum + amount r)%float (getAccountsByType t d) 0%float.
Proof.
  assert (Hrows : Forall (fun r => is_nan (amount r) = false) (getAccountsByType t d)).
  { apply Forall_forall. intros r Hr.
    apply (getAccountsByType_rows t d) in Hr as (a & _ & _ & _ & Hn & _ & ->).
    exact Hn. }
  unfold total_amount. generalize 0%float.
  induction Hrows as [|r rows Hr _ IH]; intros acc; cbn [fold_left]; [done|].
  unfold to_number at 2. rewrite Hr. apply IH.
Qed.

(** X21.  Each list of the balance sheet holds exactly the accounts of its
    type with [is_active = 1] and a balance that is neither NULL nor zero,
    one row per account, in ascending order of code; income and expense
    accounts appear in none.  Each total is the binary64 sum of the
    amounts of its list, accumulated from 0 in the order of the rows, and
    [totalLiabilitiesAndEquity] is the binary64 sum of the two totals. *)
Theorem getBalanceSheet_spec (asOfDate : string) (d : DB) :
  let sheet := getBalanceSheet asOfDate d in
  let row (a : Account) :=
    {| bs_code := acc_code a; bs_name := acc_name a; amount := current_balance a |} in
  let lists (t : AccountType) (rows : list AmountRow) :=
    rows ≡ₚ map row
              (List.filter (fun a => bool_decide (account_type a = t)
                                     && bool_decide (is_active a = 1%Z)
                                     && sql_ne (current_balance a) 0)
                           (accounts d)) /\
    (forall r,
       r ∈ rows <->
       exists a,
         a ∈ accounts d /\ account_type a = t /\ is_active a = 1%Z /\
         is_nan (current_balance a) = false /\ (current_balance a =? 0)%float = false /\
         r = row a) /\
    StronglySorted (fun r1 r2 => String.le (bs_code r1) (bs_code r2)) rows in
  lists asset (assets sheet) /\
  lists liability (liabilities sheet) /\
  lists equity (bs_equity sheet) /\
  totalAssets sheet
  = fold_left (fun sum r => sum + amount r)%float (assets sheet) 0%float /\
  totalLiabilities sheet
  = fold_left (fun sum r => sum + amount r)%float (liabilities sheet) 0%float /\
  totalEquity sheet
  = fold_left (fun sum r => sum + amount r)%float (bs_equity sheet) 0%float /\
  totalLiabilitiesAndEquity sheet = (totalLiabilities sheet + totalEquity sheet)%float /\
  bs_asOfDate sheet = asOfDate.
Proof.
  intros sheet row lists. subst sheet lists. unfold getBalanceSheet.
  cbn [assets liabilities bs_equity totalAssets totalLiabilities totalEquity
       totalLiabilitiesAndEquity bs_asOfDate].
  split; [apply getAccountsByType_rows|].
  split; [apply getAccountsByType_rows|].
  split; [apply getAccountsByType_rows|].
  split; [apply total_amount_fold|].
  split; [apply total_amount_fold|].
  split; [apply total_amount_fold|]. done.
Qed.

(** The sample sheet: the assets are listed by code and add up, in that
    order, to 0.6000000000000001, which is not the 0.6 owed. *)
Example getBalanceSheet_sample :
  let sheet := getBalanceSheet "2026-03-01" Sample.ledger in
  map (fun r => (bs_code r, amount r)) (assets sheet)
  = [ ("1110", 0.1%float); ("1120", 0.2%float); ("1130", 0.3%float) ] /\
  totalAssets sheet = 0.6000000000000001%float /\
  totalLiabilitiesAndEquity sheet = 0.6%float /\
  (totalAssets sheet =? totalLiabilitiesAndEquity sheet)%float = false.
Proof. vm_compute. done. Qed.

End BalanceSheetReport.

(** ** Invoice form *)

Section InvoiceFormEdits.
Import InvoiceForm.










(** On the sample form, choosing the product "prod-1" for the blank second
    item fills in its name, price and tax rate, and removing the only item
    leaves none. *)
Example invoice_form_sample :
  map description
      (items (updateItem Sample.product_options 1 (set_productId "prod-1")
                (addItem Sample.form)))
  = ["Notebooks"; "Notebook"] /\
  items (removeItem 0 Sample.form) = [].
Proof. vm_compute. by repeat split. Qed.

End InvoiceFormEdits.

(** ** Scoped API keys and input validators *)

Section SecurityScopes.
Import Security.

(** X8.  The scope dependency returns the registry's entry of the key
    exactly when the key is not empty, is registered, and its entry holds
    the scope.  It answers 401 "API key required" exactly for a missing or
    empty key (also when the empty key is registered), 403 "Invalid API
    key" exactly for a non-empty unregistered key, and 403 "Scope '...'
    required" exactly for a registered key without the scope. *)
Theorem require_scope_spec (registry : gmap string APIKeyInfo) (scope : APIKeyScope)
    (api_key : option string) :
  (forall key_info,
     require_scope registry scope api_key = Ok key_info <->
     exists k, api_key = Some k /\ k <> "" /\ registry !! k = Some key_info /\
               scope ∈ scopes key_info) /\
  (raises_http (require_scope registry scope api_key) 401 "API key required" <->
   api_key = None \/ api_key = Some "") /\
  (raises_http (require_scope registry scope api_key) 403 "Invalid API key" <->
   exists k, api_key = Some k /\ k <> "" /\ registry !! k = None) /\
  (raises_http (require_scope registry scope api_key) 403
     ("Scope '" +:+ scope_value scope +:+ "' required") <->
   exists k key_info, api_key = Some k /\ k <> "" /\
                      registry !! k = Some key_info /\ scope ∉ scopes key_info).
Proof.
  assert (Hmsg : "Scope '" +:+ scope_value scope +:+ "' required" <> "Invalid API key")
    by (by destruct scope).
  unfold raises_http, require_scope, get_current_api_key, get_api_key_info, verify_scope.
  destruct api_key as [k|].
  - destruct (decide (k = "")) as [->|Hk].
    + repeat split.
      * discriminate.
      * intros (k & [= <-] & Hk & _). done.
      * intros _. by right.
      * intros _. eexists. repeat split.
      * intros (e & [= <-] & Hc & _). discriminate Hc.
      * intros (k & [= <-] & Hk & _). done.
      * intros (e & [= <-] & Hc & _). discriminate Hc.
      * intros (k & info & [= <-] & Hk & _). done.
    + assert (Hmatch : forall (X : Type) (a b : X),
                match k with "" => a | String _ _ => b end = b)
        by (intros; by destruct k).
      rewrite Hmatch. destruct (registry !! k) as [info|] eqn:Hreg.
      * destruct (decide (scope ∉ scopes info)) as [Hs|Hs].
        -- repeat split.
           ++ discriminate.
           ++ intros (k' & [= <-] & _ & Hreg' & Hin). congruence.
           ++ intros (e & [= <-] & Hc & _). discriminate Hc.
           ++ intros [[=]|[= ->]]. done.
           ++ intros (e & [= <-] & _ & Hd). simpl in Hd. done.
           ++ intros (k' & [= <-] & _ & Hreg'). congruence.
           ++ intros _. eauto 10.
           ++ intros _. eexists. repeat split.
        -- apply dec_stable in Hs. repeat split.
           ++ intros [= <-]. eauto 10.
           ++ intros (k' & [= <-] & _ & Hreg' & Hin). congruence.
           ++ intros (e & [=] & _).
           ++ intros [[=]|[= ->]]. done.
           ++ intros (e & [=] & _).
           ++ intros (k' & [= <-] & _ & Hreg'). congruence.
           ++ intros (e & [=] & _).
           ++ intros (k' & info' & [= <-] & _ & Hreg' & Hnot). congruence.
      * repeat split.
        -- discriminate.
        -- intros (k' & [= <-] & _ & Hreg' & _). congruence.
        -- intros (e & [= <-] & Hc & _). discriminate Hc.
        -- intros [[=]|[= ->]]. done.
        -- intros _. eauto.
        -- intros _. eexists. repeat split.
        -- intros (e & [= <-] & _ & Hd). simpl in Hd. done.
        -- intros (k' & info' & [= <-] & _ & Hreg' & _). congruence.
  - repeat split.
    + discriminate.
    + intros (k & [=] & _).
    + intros _. by left.
    + intros _. eexists. repeat split.
    + intros (e & [= <-] & Hc & _). discriminate Hc.
    + intros (k & [=] & _).
    + intros (e & [= <-] & Hc & _). discriminate Hc.
    + intros (k & info & [=] & _).
Qed.

Lemma existsb_Exists {A} (f : A -> bool) (l : list A) :
  existsb f l = true <-> Exists (fun x => f x = true) l.
Proof.
  rewrite existsb_exists, Exists_exists.
  split; intros (x & Hx & Hf); exists x; by rewrite ?list_elem_of_In in *.
Qed.

(** X9.  The password validator returns the password unchanged exactly
    when it has at least 8 characters, an upper-case letter A-Z and a digit
    0-9.  The length is checked first, then the letter, then the digit, so
    each message tells the first check that fails.  A password that passes
    still passes with any characters put before or after it. *)
Theorem password_strength_spec (v : pystr) :
  (forall v', password_strength v = Ok v' <->
     v' = v /\ (8 <= length v)%nat /\
     Exists (fun c => is_upper c = true) v /\ Exists (fun c => is_digit c = true) v) /\
  (password_strength v = Err "Password must be at least 8 characters" <->
   (length v < 8)%nat) /\
  (password_strength v = Err "Password must contain uppercase letter" <->
   (8 <= length v)%nat /\ ~ Exists (fun c => is_upper c = true) v) /\
  (password_strength v = Err "Password must contain a digit" <->
   (8 <= length v)%nat /\ Exists (fun c => is_upper c = true) v /\
   ~ Exists (fun c => is_digit c = true) v) /\
  (forall u w : pystr, password_strength v = Ok v ->
     password_strength (u ++ v ++ w)%list = Ok (u ++ v ++ w)%list).
Proof.
  assert (Hspec : forall x : pystr,
    match password_strength x with
    | Ok x' => x' = x /\ (8 <= length x)%nat /\
        Exists (fun c => is_upper c = true) x /\ Exists (fun c => is_digit c = true) x
    | Err e =>
        (e = "Password must be at least 8 characters" /\ (length x < 8)%nat) \/
        (e = "Password must contain uppercase letter" /\ (8 <= length x)%nat /\
         ~ Exists (fun c => is_upper c = true) x) \/
        (e = "Password must contain a digit" /\ (8 <= length x)%nat /\
         Exists (fun c => is_upper c = true) x /\
         ~ Exists (fun c => is_digit c = true) x)
    end).
  { intros x. unfold password_strength.
    destruct (length x <? 8)%nat eqn:Hlen.
    { apply Nat.ltb_lt in Hlen. by left. }
    apply Nat.ltb_ge in Hlen.
    destruct (existsb is_upper x) eqn:Hup; cbn [negb].
    - apply existsb_Exists in Hup.
      destruct (existsb is_digit x) eqn:Hdig; cbn [negb].
      + apply existsb_Exists in Hdig. done.
      + right. right. split; [done|]. split; [done|]. split; [done|].
        rewrite <- existsb_Exists, Hdig. discriminate.
    - right. left. split; [done|]. split; [done|].
      rewrite <- existsb_Exists, Hup. discriminate. }
  pose proof (Hspec v) as Hv.
  split; [|split; [|split; [|split]]].
  - intros v'. destruct (password_strength v) as [x|e].
    + destruct Hv as (-> & H1 & H2 & H3). split; [by intros [= <-]|by intros [-> _]].
    + split; [discriminate|]. intros (_ & H1 & H2 & H3).
      destruct Hv as [[_ H]|[(_ & _ & H)|(_ & _ & _ & H)]]; [lia|done|done].
  - destruct (password_strength v) as [x|e].
    + split; [discriminate|]. destruct Hv as (_ & H1 & _). lia.
    + destruct Hv as [[-> H]|[(-> & H & _)|(-> & H & _)]];
        (split; [try discriminate; done | intros; try lia; done]).
  - destruct (password_strength v) as [x|e].
    + split; [discriminate|]. destruct Hv as (_ & _ & H1 & _). by intros [_ H].
    + destruct Hv as [[-> H]|[(-> & H & H')|(-> & H & H' & _)]].
      * split; [discriminate|]. intros [? _]. lia.
      * done.
      * split; [discriminate|]. by intros [_ ?].
  - destruct (password_strength v) as [x|e].
    + split; [discriminate|]. destruct Hv as (_ & _ & _ & H1). by intros (_ & _ & H).
    + destruct Hv as [[-> H]|[(-> & H & H')|(-> & H & H' & H'')]].
      * split; [discriminate|]. intros [? _]. lia.
      * split; [discriminate|]. by intros (_ & ? & _).
      * done.
  - intros u w Hok. rewrite Hok in Hv. destruct Hv as (_ & H1 & H2 & H3).
    pose proof (Hspec (u ++ v ++ w)%list) as Huvw.
    destruct (password_strength (u ++ v ++ w)%list) as [x|e].
    + by destruct Huvw as [-> _].
    + exfalso. rewrite !length_app in Huvw.
      destruct Huvw as [[_ H]|[(_ & _ & H)|(_ & _ & _ & H)]].
      * lia.
      * apply H. apply Exists_app. right. apply Exists_app. by left.
      * apply H. apply Exists_app. right. apply Exists_app. by left.
Qed.

(** X10.  The username validator accepts exactly the non-empty strings of
    letters, digits and underscores, and those strings followed by one
    line feed: [$] also matches before a line feed that ends the string,
    and the accepted name is returned with it.  Everything else, the empty
    string included, is rejected. *)
Theorem username_alphanumeric_spec (v : pystr) :
  (username_alphanumeric v = Ok v <->
   exists w, w <> [] /\ Forall (fun c => is_word c = true) w /\
             (v = w \/ v = (w ++ [10%N])%list)) /\
  (username_alphanumeric v = Err "Username must be alphanumeric" <->
   ~ exists w, w <> [] /\ Forall (fun c => is_word c = true) w /\
               (v = w \/ v = (w ++ [10%N])%list)) /\
  (forall v', username_alphanumeric v = Ok v' -> v' = v).
Proof.
  assert (Hmatch : username_matches v = true <->
            exists w, w <> [] /\ Forall (fun c => is_word c = true) w /\
                      (v = w \/ v = (w ++ [10%N])%list)).
  { unfold username_matches. rewrite existsb_exists. split.
    - intros (n & Hn & Hm). apply in_seq in Hn.
      apply andb_true_iff in Hm as [Hw Hd].
      exists (take n v). split; [|split].
      + intros Hnil. apply (f_equal length) in Hnil.
        rewrite length_take in Hnil. simpl in Hnil. lia.
      + apply Forall_forall. intros c Hc. rewrite forallb_forall in Hw.
        apply Hw. by apply list_elem_of_In.
      + rewrite <- (take_drop n v) at 1 3.
        destruct (drop n v) as [|c [|c' rest]]; [|simpl in Hd|done].
        * left. by rewrite app_nil_r.
        * right. apply N.eqb_eq in Hd. by rewrite Hd.
    - intros (w & Hne & Hw & Hv).
      assert (Hlen : (1 <= length w)%nat).
      { destruct w; [done|simpl; lia]. }
      assert (Hall : forallb is_word w = true).
      { apply forallb_forall. intros c Hc.
        apply (proj1 (Forall_forall _ _) Hw). by apply list_elem_of_In. }
      exists (length w). destruct Hv as [->| ->].
      + split; [apply in_seq; lia|].
        rewrite firstn_all, skipn_all. by rewrite Hall.
      + split; [apply in_seq; rewrite length_app; simpl; lia|].
        rewrite take_app_length, drop_app_length. by rewrite Hall. }
  unfold username_alphanumeric.
  destruct (username_matches v) eqn:Hm; cbn [negb].
  - split; [|split].
    + split; [intros _; by apply Hmatch | done].
    + split; [discriminate|]. intros Hnot. exfalso. apply Hnot. by apply Hmatch.
    + by intros v' [= <-].
  - split; [|split].
    + split; [discriminate|]. intros H. apply Hmatch in H. discriminate H.
    + split; [|done]. intros _ H. apply Hmatch in H. discriminate H.
    + discriminate.
Qed.

(** Some accepted and rejected inputs: "Passw0rd", "passw0rd", "Ab1", the
    names "ada_99", "ada_99" with a line feed, and "ada 99". *)
Example validators_sample :
  password_strength [80; 97; 115; 115; 119; 48; 114; 100]%N
    = Ok [80; 97; 115; 115; 119; 48; 114; 100]%N /\
  password_strength [112; 97; 115; 115; 119; 48; 114; 100]%N
    = Err "Password must contain uppercase letter" /\
  password_strength [65; 98; 49]%N = Err "Password must be at least 8 characters" /\
  username_alphanumeric [97; 100; 97; 95; 57; 57]%N = Ok [97; 100; 97; 95; 57; 57]%N /\
  username_alphanumeric [97; 100; 97; 95; 57; 57; 10]%N
    = Ok [97; 100; 97; 95; 57; 57; 10]%N /\
  username_alphanumeric [97; 100; 97; 32; 57; 57]%N = Err "Username must be alphanumeric" /\
  require_scope API_KEY_REGISTRY WRITE (Some "key_read_abc123")
    = Err {| status_code := 403; detail := "Scope 'write' required"; headers := [] |} /\
  (key <$> match require_scope API_KEY_REGISTRY WRITE (Some "key_admin_xyz789") with
           | Ok key_info => Some key_info
           | Err _ => None
           end) = Some "key_admin_xyz789".
Proof. vm_compute. done. Qed.

End SecurityScopes.
